(** * dxly: the two diagnosis engines

    A shallow embedding of the scoring code of the repository:

    - [EngineA]: [backend/diagnose.py], the tabular co-occurrence scorer
      ([find_symptom_indices], [diagnose]);
    - [EngineB]: [backend/json-based/diagnose.py], the profile-based
      expectation scorer ([match_expectation],
      [calculate_symptom_match_score], [diagnose],
      [get_differential_diagnosis]), with [load_disease_profiles] in
      [EngineB_Terms];
    - [ApiA]: the handlers of [backend/app.py] ([diagnose_endpoint],
      [diagnose_get]);
    - [ApiB]: the read-only handlers of [backend/json-based/app.py]
      ([get_symptoms], [get_diseases], [get_symptom_details],
      [get_disease_details]).

    The files are read outside the model: the functions take the loaded
    dataset, and the parsed profile and library files, as arguments.

    Modelling conventions.
    - Python [int] is [Z]; list positions are [nat].
    - Python [float] is modelled by the exact rationals [Q]: arithmetic is
      exact, comparisons are the ones of [Q], and two numbers are the same
      Python number when they are [Qeq]. Non-finite floats are outside the
      model. [round] rounds the exact value, so where the binary float of
      the code lies on the other side of a tie the last digit of a rounded
      number differs. The conversion of an [int] to a float raises
      [OverflowError] beyond the range of the floats, as in the code, and
      is exact within it.
    - Python [str] is [string], read as ASCII text.
    - An uncaught Python exception is a value [Raise e] of the type [res].
    - Dictionaries that the code iterates over (the disease profiles, the
      symptom entries of a profile, the expectations of an entry, the
      per-query accumulator of Engine A) are association lists in iteration
      order; dictionaries that are only looked up (the patient report, the
      attribute map of a reported symptom, the disease frequencies) are
      [gmap]s. *)

From Stdlib Require Import QArith Qabs Qround Lqa Ascii String.
From stdpp Require Import gmap strings list.

Local Open Scope Z_scope.

(** ** Exceptions *)

Inductive pyexn : Type :=
| ZeroDivisionError
| OverflowError.

Inductive res (A : Type) : Type :=
| Ok (a : A)
| Raise (e : pyexn).
Arguments Ok {A} a.
Arguments Raise {A} e.

#[global] Instance res_ret : MRet res := fun A a => Ok a.
#[global] Instance res_bind : MBind res := fun A B f m =>
  match m with
  | Ok a => f a
  | Raise e => Raise e
  end.
#[global] Instance res_fmap : FMap res := fun A B f m =>
  match m with
  | Ok a => Ok (f a)
  | Raise e => Raise e
  end.

(** ** Numbers *)

(** [a < b] on Python numbers. *)
Definition Qltb (a b : Q) : bool := negb (Qle_bool b a).

(** [min(a, b)]: the first argument unless the second is smaller. *)
Definition py_min (a b : Q) : Q := if Qltb b a then b else a.

(** [max(a, b)]: the first argument unless the second is larger. *)
Definition py_max (a b : Q) : Q := if Qltb a b then b else a.

(** [a / b], which raises when [b] is zero. *)
Definition py_div (a b : Q) : res Q :=
  if Qeq_bool b 0 then Raise ZeroDivisionError else Ok (a / b)%Q.

(** [round(x)]: nearest integer, ties to the even one. *)
Definition py_round (x : Q) : Z :=
  let f := Qfloor x in
  let r := (x - inject_Z f)%Q in
  if Qltb r 0.5 then f
  else if Qltb 0.5 r then f + 1
  else if Z.even f then f else f + 1.

(** [round(x, n)]. *)
Definition py_round_n (x : Q) (n : nat) : Q :=
  let p := inject_Z (10 ^ Z.of_nat n) in
  (inject_Z (py_round (x * p)) / p)%Q.

(** [sum(l)] on a list of integers. *)
Definition py_sum (l : list Z) : Z := foldr Z.add 0 l.

(** [l[:n]] for an integer [n]; a negative [n] counts from the end. *)
Definition py_prefix {A} (l : list A) (n : Z) : list A :=
  if 0 <=? n then take (Z.to_nat n) l
  else take (Z.to_nat (Z.of_nat (length l) + n)) l.

(** ** Strings *)

Definition lower_ascii (c : ascii) : ascii :=
  let n := nat_of_ascii c in
  if ((65 <=? n) && (n <=? 90))%nat then ascii_of_nat (n + 32) else c.

(** [s.lower()]. *)
Fixpoint lower (s : string) : string :=
  match s with
  | EmptyString => EmptyString
  | String c r => String (lower_ascii c) (lower r)
  end.

(** The characters [str.strip()] removes: tab, line feed, vertical tab, form
    feed, carriage return, the four separators 28..31 and the space. *)
Definition is_space (c : ascii) : bool :=
  let n := nat_of_ascii c in
  (((9 <=? n) && (n <=? 13)) || ((28 <=? n) && (n <=? 32)))%nat.

Fixpoint lstrip (s : string) : string :=
  match s with
  | EmptyString => EmptyString
  | String c r => if is_space c then lstrip r else s
  end.

Fixpoint rstrip (s : string) : string :=
  match s with
  | EmptyString => EmptyString
  | String c r =>
      match rstrip r with
      | EmptyString => if is_space c then EmptyString else String c EmptyString
      | r' => String c r'
      end
  end.

(** [s.strip()]. *)
Definition strip (s : string) : string := rstrip (lstrip s).

(** [sep.join(l)]. *)
Definition join (sep : string) (l : list string) : string := String.concat sep l.

(** ** [list.sort(key=..., reverse=True)]

    The sort is stable: records with equal keys keep their order. Sorting is
    by insertion from the right, each record going in front of the first
    record whose key is not larger than its own. *)

Section Sort.
Context {A : Type} (key : A -> Q).

Fixpoint insert_desc (x : A) (l : list A) : list A :=
  match l with
  | [] => [x]
  | y :: r => if Qltb (key x) (key y) then y :: insert_desc x r else x :: l
  end.

Definition sort_desc (l : list A) : list A := foldr insert_desc [] l.

(** Non-increasing keys along the list. *)
Fixpoint sorted_desc (l : list A) : Prop :=
  match l with
  | [] => True
  | x :: r => Forall (fun y => (key y <= key x)%Q) r /\ sorted_desc r
  end.

(** The records of [l] whose key is the number [k], in order. *)
Definition with_key (k : Q) (l : list A) : list A :=
  filter (fun x => Qeq_bool (key x) k = true) l.
End Sort.

(** * Engine A: [backend/diagnose.py] *)

Module EngineA.

(** The loaded dataset. [load_dataset] appends to [diseases] and to
    [data_rows] once per CSV line, so the two lists run in step; [case_rows]
    is their zip, one pair (disease, symptom vector) per line. The vector
    holds whatever integers the file has. *)
Record dataset : Type := {
  symptom_columns : list string;
  case_rows : list (string * list Z)
}.

Definition diseases (data : dataset) : list string := (case_rows data).*1.
Definition data_rows (data : dataset) : list (list Z) := (case_rows data).*2.

Definition normalize_symptom_name (symptom : string) : string :=
  strip (lower symptom).

(** [l.index(x)]: the first position of [x]; [None] is [ValueError]. *)
Fixpoint index (x : string) (l : list string) : option nat :=
  match l with
  | [] => None
  | y :: r => if String.eqb y x then Some 0%nat else S <$> index x r
  end.

(** The [try] around [index] drops a name that is not a column. *)
Definition find_symptom_indices (symptoms symptom_columns : list string)
  : list nat :=
  let normalized_columns := normalize_symptom_name <$> symptom_columns in
  omap (fun symptom => index (normalize_symptom_name symptom) normalized_columns)
       symptoms.

(** The per-disease accumulator, the value of [disease_scores]. *)
Record stats : Type := {
  total_score : Q;
  match_count : Z;
  case_count : Z;
  exact_matches : Z;
  single_symptom_matches : Z
}.

(** The value the [defaultdict] creates for a new disease. *)
Definition new_stats : stats :=
  {| total_score := 0; match_count := 0; case_count := 0;
     exact_matches := 0; single_symptom_matches := 0 |}.

(** [disease_scores[d]]: the entry of [d], the default one when [d] is new. *)
Fixpoint get_stats (d : string) (scores : list (string * stats)) : stats :=
  match scores with
  | [] => new_stats
  | (d', s) :: r => if String.eqb d' d then s else get_stats d r
  end.

(** Updating [disease_scores[d]] in place; a new disease goes to the end, as
    a dictionary keeps its keys in insertion order. *)
Fixpoint update_stats (d : string) (f : stats -> stats)
  (scores : list (string * stats)) : list (string * stats) :=
  match scores with
  | [] => [(d, f new_stats)]
  | (d', s) :: r =>
      if String.eqb d' d then (d', f s) :: r
      else (d', s) :: update_stats d f r
  end.

(** [disease_frequencies]: the loop [disease_frequencies[disease] += 1]. *)
Definition count_frequencies (ds : list string) : gmap string Z :=
  foldl (fun m d => <[d := default 0 (m !! d) + 1]> m) ∅ ds.

Definition frequency (freqs : gmap string Z) (d : string) : Z :=
  default 0 (freqs !! d).

(** [idx < len(row_symptoms) and row_symptoms[idx] == 1]. *)
Definition row_has (row_symptoms : list Z) (idx : nat) : bool :=
  (idx <? length row_symptoms)%nat && (nth idx row_symptoms 0 =? 1).

(** [sum(1 for idx in symptom_indices if ...)]. *)
Definition count_matched (symptom_indices : list nat) (row_symptoms : list Z)
  : Z :=
  py_sum ((fun _ => 1) <$> List.filter (row_has row_symptoms) symptom_indices).

(** The body of the loop over the rows. The divisor [len(symptom_indices)]
    is not zero when the division is reached: an empty index list gives
    [matched_symptoms = 0], and the row is skipped first. *)
Definition score_row (symptom_indices : list nat) (freqs : gmap string Z)
  (disease_scores : list (string * stats)) (r : string * list Z)
  : list (string * stats) :=
  let '(disease, row_symptoms) := r in
  let matched_symptoms := count_matched symptom_indices row_symptoms in
  let total_symptoms_in_row := py_sum row_symptoms in
  if matched_symptoms =? 0 then disease_scores
  else
    let n := Z.of_nat (length symptom_indices) in
    let match_percentage := (inject_Z matched_symptoms / inject_Z n)%Q in
    let base_score := (match_percentage * 100)%Q in
    let exact := matched_symptoms =? n in
    let base_score := if exact then (base_score * 2.0)%Q else base_score in
    let single := (total_symptoms_in_row =? 1) && (matched_symptoms =? 1) in
    let base_score := if single then (base_score * 1.5)%Q else base_score in
    let frequency_weight :=
      (1.0 + inject_Z (frequency freqs disease) / 10000.0)%Q in
    update_stats disease (fun s =>
      {| total_score := (total_score s + base_score * frequency_weight)%Q;
         match_count := match_count s + matched_symptoms;
         case_count := case_count s + 1;
         exact_matches := exact_matches s + (if exact then 1 else 0);
         single_symptom_matches :=
           single_symptom_matches s + (if single then 1 else 0) |})
      disease_scores.

(** The loop over the rows, from an accumulator. *)
Definition score_rows (symptom_indices : list nat) (freqs : gmap string Z)
  (disease_scores : list (string * stats)) (rows : list (string * list Z))
  : list (string * stats) :=
  foldl (score_row symptom_indices freqs) disease_scores rows.

(** One record of the output. *)
Record result : Type := {
  disease : string;
  score : Q;
  res_match_count : Z;
  total_symptom_count : Z;
  res_frequency : Z;
  match_percentage : Q;
  res_case_count : Z;
  res_exact_matches : Z
}.

(** The body of the loop over [disease_scores.items()]. Both divisions are
    guarded by [case_count > 0]. *)
Definition make_result (symptom_indices : list nat) (freqs : gmap string Z)
  (entry : string * stats) : result :=
  let '(d, st) := entry in
  let n := Z.of_nat (length symptom_indices) in
  let avg_score :=
    if 0 <? case_count st
    then (total_score st / inject_Z (case_count st))%Q else 0%Q in
  let confidence_weight := py_min (inject_Z (case_count st) / 10.0)%Q 2.0%Q in
  let final_score := (avg_score * confidence_weight)%Q in
  let percentage :=
    if 0 <? case_count st
    then (inject_Z (match_count st) / inject_Z (case_count st * n) * 100)%Q
    else 0%Q in
  {| disease := d;
     score := py_round_n final_score 2;
     res_match_count := match_count st;
     total_symptom_count := n;
     res_frequency := frequency freqs d;
     match_percentage := py_round_n percentage 2;
     res_case_count := case_count st;
     res_exact_matches := exact_matches st |}.

(** The records before sorting, in the order of [disease_scores]. *)
Definition unsorted_results (symptom_indices : list nat) (data : dataset)
  : list result :=
  let disease_frequencies := count_frequencies (diseases data) in
  let disease_scores :=
    score_rows symptom_indices disease_frequencies [] (case_rows data) in
  make_result symptom_indices disease_frequencies <$> disease_scores.

(** [diagnose(symptoms, top_n)] on the loaded dataset. *)
Definition diagnose (symptoms : list string) (top_n : Z) (data : dataset)
  : list result :=
  let symptom_indices := find_symptom_indices symptoms (symptom_columns data) in
  match symptom_indices with
  | [] => []
  | _ :: _ =>
      let results := unsorted_results symptom_indices data in
      py_prefix (sort_desc score results) top_n
  end.

(** ** Vocabulary of the properties *)

(** An accumulator entry that has counted at least one row, each with at
    least one match. *)
Definition counted (st : stats) : Prop :=
  1 <= case_count st /\ case_count st <= match_count st.

(** A symptom vector of zeros and ones. *)
Definition binary_row (row : list Z) : Prop :=
  Forall (fun v => v = 0 \/ v = 1) row.

(** The number of symptoms present in a row. *)
Definition count_present (row : list Z) : nat :=
  length (filter (fun v => v = 1) row).

(** The row has exactly one symptom present in total, and that symptom is
    among the matched ones. *)
Definition one_present_and_matched (symptom_indices : list nat)
  (row : list Z) : bool :=
  bool_decide (count_present row = 1%nat) &&
  existsb (row_has row) symptom_indices.

(** What a counted row adds to the total score of its disease, in the words
    of section 4.2: the match percentage times 100, doubled on an exact
    match, times 1.5 on a single-symptom row, times the frequency weight. *)
Definition claimed_increment (symptom_indices : list nat) (freq : Z)
  (row : list Z) : Q :=
  let matched := count_matched symptom_indices row in
  let n := Z.of_nat (length symptom_indices) in
  (inject_Z matched / inject_Z n * 100
   * (if matched =? n then 2.0 else 1)
   * (if one_present_and_matched symptom_indices row then 1.5 else 1)
   * (1.0 + inject_Z freq / 10000.0))%Q.

(** The number of case rows of a disease. *)
Definition rows_of (d : string) (data : dataset) : Z :=
  Z.of_nat (length (filter (fun x => x = d) (diseases data))).

(** The first occurrences of a list, in order. *)
Fixpoint nub (l : list string) : list string :=
  match l with
  | [] => []
  | x :: r => x :: filter (fun y => y <> x) (nub r)
  end.

(** The diseases in the order of their first matching row. *)
Definition encounter_order (symptom_indices : list nat)
  (rows : list (string * list Z)) : list string :=
  nub (List.filter (fun r => negb (count_matched symptom_indices r.2 =? 0))
                   rows).*1.

(** Records with equal scores come in the order in which their diseases
    first appear in the dataset. *)
Definition ties_in_dataset_order (data : dataset) (out : list result) : Prop :=
  forall i j ri rj pi pj,
    (i < j)%nat -> out !! i = Some ri -> out !! j = Some rj ->
    (score ri == score rj)%Q ->
    index (disease ri) (diseases data) = Some pi ->
    index (disease rj) (diseases data) = Some pj ->
    (pi < pj)%nat.

End EngineA.

(** * Engine B: [backend/json-based/diagnose.py] *)

Module EngineB.

(** ** Values

    The values [json.load] produces, the [Any] of [match_expectation]. *)
#[local] Unset Elimination Schemes.
Inductive pyval : Type :=
| PNone
| PBool (b : bool)
| PInt (z : Z)
| PFloat (q : Q)
| PStr (s : string)
| PList (l : list pyval)
| PDict (d : list (string * pyval)).
#[local] Set Elimination Schemes.

(** [isinstance(v, (int, float))], with the number [v] stands for; [bool] is
    a subclass of [int]. *)
Definition num_of (v : pyval) : option Q :=
  match v with
  | PBool b => Some (if b then 1 else 0)%Q
  | PInt z => Some (inject_Z z)
  | PFloat q => Some q
  | _ => None
  end.

(** [d.get(k)] on the association list of a dictionary value. *)
Fixpoint assoc {V} (k : string) (d : list (string * V)) : option V :=
  match d with
  | [] => None
  | (k', v) :: r => if String.eqb k' k then Some v else assoc k r
  end.

(** [a == b]: numbers by value, strings and [None] by identity of content,
    lists position by position, dictionaries key by key. *)
Fixpoint py_eqb (a b : pyval) : bool :=
  match a, b with
  | PNone, PNone => true
  | PStr s, PStr t => String.eqb s t
  | PList l, PList m =>
      (fix all2 (l m : list pyval) : bool :=
         match l, m with
         | [], [] => true
         | x :: l', y :: m' => py_eqb x y && all2 l' m'
         | _, _ => false
         end) l m
  | PDict d, PDict e =>
      (length d =? length e)%nat &&
      (fix every (d : list (string * pyval)) : bool :=
         match d with
         | [] => true
         | (k, v) :: d' =>
             match assoc k e with
             | Some w => py_eqb v w
             | None => false
             end && every d'
         end) d
  | _, _ =>
      match num_of a, num_of b with
      | Some x, Some y => Qeq_bool x y
      | _, _ => false
      end
  end.

(** [actual in expected] for a list [expected]. *)
Definition py_in (actual : pyval) (expected : list pyval) : bool :=
  existsb (fun e => py_eqb e actual) expected.

Definition is_none (v : pyval) : bool :=
  match v with PNone => true | _ => false end.

(** [x in ("true", "yes", "1")]. *)
Definition truthy_token (x : string) : bool :=
  String.eqb x "true" || String.eqb x "yes" || String.eqb x "1".

(** The conversion of an [int] to a float raises [OverflowError] when the
    [int] rounds beyond the largest double, [2 ^ 1024 - 2 ^ 971]: from
    [2 ^ 1024 - 2 ^ 970] on, in absolute value. *)
Definition float_overflows (n : Z) : bool := 2 ^ 1024 - 2 ^ 970 <=? Z.abs n.
Arguments float_overflows : simpl never.

(** An [int] that no float holds. [bool] values are 0 and 1. *)
Definition too_large (v : pyval) : bool :=
  match v with
  | PInt n => float_overflows n
  | _ => false
  end.

(** The number [v], of the value [x], as an operand of arithmetic with a
    float: an [int] is converted first. *)
Definition float_operand (v : pyval) (x : Q) : res Q :=
  if too_large v then Raise OverflowError else Ok x.

Section WithFloat.

(** [float(s)] on a string is the built-in's: [Some q] when it parses [s] as
    the number [q], [None] when it raises [ValueError]. *)
Variable float_of_str : string -> option Q.

(** [float(actual)]; [Ok None] is the [ValueError] or [TypeError] the [try]
    catches, [Raise OverflowError] passes it. *)
Definition py_float (actual : pyval) : res (option Q) :=
  match actual with
  | PStr s => Ok (float_of_str s)
  | PNone | PList _ | PDict _ => Ok None
  | _ => if too_large actual then Raise OverflowError else Ok (num_of actual)
  end.

(** The range branch, after [actual_num = float(actual)] has succeeded, for
    the bounds [e0] and [e1] of the values [min_val] and [max_val]. The
    comparisons of an [int] with a float are exact; the subtraction and the
    division convert the bound. *)
Definition match_range (e0 e1 : pyval) (min_val max_val actual_num : Q)
  : res Q :=
  if Qle_bool min_val actual_num && Qle_bool actual_num max_val then Ok 1.0%Q
  else if Qltb actual_num min_val then
    min_val ← float_operand e0 min_val;
    let distance := (min_val - actual_num)%Q in
    q ← py_div distance min_val;
    Ok (py_max 0.0 (1.0 - q * 0.5))%Q
  else
    max_val ← float_operand e1 max_val;
    let distance := (actual_num - max_val)%Q in
    q ← py_div distance max_val;
    Ok (py_max 0.0 (1.0 - q * 0.5))%Q.

(** The list branch for a list that is not a two-number range. *)
Definition match_member (expected : list pyval) (actual : pyval) : res Q :=
  if py_in actual expected then Ok 1.0%Q else Ok 0.0%Q.

Definition match_expectation (expected actual : pyval) : res Q :=
  if is_none actual then Ok 0.0%Q
  else
    match expected with
    | PList l =>
        match l with
        | [e0; e1] =>
            match num_of e0, num_of e1 with
            | Some min_val, Some max_val =>
                actual_num ← py_float actual;
                match actual_num with
                | Some actual_num =>
                    match_range e0 e1 min_val max_val actual_num
                | None => Ok 0.0%Q
                end
            | _, _ => match_member l actual
            end
        | _ => match_member l actual
        end
    | PBool e =>
        match actual with
        | PBool a => if Bool.eqb a e then Ok 1.0%Q else Ok 0.0%Q
        | PStr s =>
            let actual_bool := truthy_token (lower s) in
            if Bool.eqb actual_bool e then Ok 1.0%Q else Ok 0.0%Q
        | _ => Ok 0.0%Q
        end
    | _ =>
        if py_eqb expected actual then Ok 1.0%Q
        else
          match expected, actual with
          | PStr e, PStr a =>
              if String.eqb (lower e) (lower a) then Ok 1.0%Q else Ok 0.0%Q
          | _, _ => Ok 0.0%Q
          end
    end.

(** ** Profiles and reports *)

(** One symptom entry of a disease profile. A key the JSON object lacks is
    [None]; [expectations] is read with the default [{}], and an empty
    dictionary is treated like a missing one, so it is the list of its
    items. *)
Record symptom_config : Type := {
  sc_importance : option Q;
  sc_note : option string;
  sc_expectations : list (string * pyval)
}.

(** One disease profile; [symptoms] is read with the default [{}]. *)
Record disease_data : Type := {
  dd_common_name : option string;
  dd_category : option string;
  dd_prevalence : option Q;
  dd_symptoms : list (string * symptom_config)
}.

Record match_entry : Type := {
  me_symptom : string;
  me_match_quality : Z;
  me_importance : Z
}.

Record missing_entry : Type := {
  mi_symptom : string;
  mi_importance : Z
}.

Record negative_entry : Type := {
  ne_symptom : string;
  ne_note : string
}.

Record result : Type := {
  disease : string;
  common_name : string;
  category : string;
  confidence : Q;
  matched_symptoms : list match_entry;
  partially_matched : list match_entry;
  missing_symptoms : list missing_entry;
  negative_matches : list negative_entry;
  explanation : string
}.

(** The local variables of the loop over the symptoms of one disease. *)
Record tally : Type := {
  total_score : Q;
  max_possible_score : Q;
  t_matched : list match_entry;
  t_missing : list missing_entry;
  t_partial : list match_entry;
  t_negative : list negative_entry
}.

Definition empty_tally : tally :=
  {| total_score := 0.0; max_possible_score := 0.0;
     t_matched := []; t_missing := []; t_partial := []; t_negative := [] |}.

(** [symptom_config.get("importance", 0.5)]. *)
Definition get_importance (cfg : symptom_config) : Q :=
  default 0.5%Q (sc_importance cfg).

(** [disease_data.get("prevalence", 0.05)]. *)
Definition get_prevalence (data : disease_data) : Q :=
  default 0.05%Q (dd_prevalence data).

Definition default_note (symptom_name : string) : string :=
  "Absence of " +:+ symptom_name +:+ " supports this diagnosis".

(** The loop of [calculate_symptom_match_score]; [patient_symptom_data.get]
    gives [None] for a key the report lacks. *)
Fixpoint match_loop (expectations : list (string * pyval))
  (patient_symptom_data : gmap string pyval) (total_weight weighted_score : Q)
  : res (Q * Q) :=
  match expectations with
  | [] => Ok (total_weight, weighted_score)
  | (key, expected_value) :: rest =>
      let actual_value := default PNone (patient_symptom_data !! key) in
      match_score ← match_expectation expected_value actual_value;
      let weight := 1.0%Q in
      match_loop rest patient_symptom_data
        (total_weight + weight)%Q (weighted_score + match_score * weight)%Q
  end.

Definition calculate_symptom_match_score (disease_symptom : symptom_config)
  (patient_symptom_data : gmap string pyval) : res Q :=
  match sc_expectations disease_symptom with
  | [] => Ok 1.0%Q
  | expectations =>
      '(total_weight, weighted_score) ←
        match_loop expectations patient_symptom_data 0.0%Q 0.0%Q;
      if Qeq_bool total_weight 0 then Ok 1.0%Q
      else Ok (weighted_score / total_weight)%Q
  end.

(** The body of the loop over [disease_symptoms.items()]. *)
Definition score_symptom (patient_symptoms : gmap string (gmap string pyval))
  (t : tally) (entry : string * symptom_config) : res tally :=
  let '(symptom_name, cfg) := entry in
  let importance := get_importance cfg in
  if Qltb importance 0 then
    let abs_importance := Qabs importance in
    let max_possible := (max_possible_score t + abs_importance)%Q in
    match patient_symptoms !! symptom_name with
    | None =>
        Ok {| total_score := (total_score t + abs_importance)%Q;
              max_possible_score := max_possible;
              t_matched := t_matched t; t_missing := t_missing t;
              t_partial := t_partial t;
              t_negative := t_negative t ++
                [{| ne_symptom := symptom_name;
                    ne_note := default (default_note symptom_name)
                                       (sc_note cfg) |}] |}
    | Some _ =>
        Ok {| total_score := total_score t;
              max_possible_score := max_possible;
              t_matched := t_matched t; t_missing := t_missing t;
              t_partial := t_partial t; t_negative := t_negative t |}
    end
  else
    let max_possible := (max_possible_score t + importance)%Q in
    match patient_symptoms !! symptom_name with
    | Some patient_data =>
        match_quality ← calculate_symptom_match_score cfg patient_data;
        let symptom_score := (importance * match_quality)%Q in
        let entry :=
          {| me_symptom := symptom_name;
             me_match_quality := py_round (match_quality * 100);
             me_importance := py_round (importance * 100) |} in
        Ok {| total_score := (total_score t + symptom_score)%Q;
              max_possible_score := max_possible;
              t_matched :=
                if Qle_bool 0.8 match_quality
                then t_matched t ++ [entry] else t_matched t;
              t_missing := t_missing t;
              t_partial :=
                if Qle_bool 0.8 match_quality then t_partial t
                else if Qltb 0 match_quality
                     then t_partial t ++ [entry] else t_partial t;
              t_negative := t_negative t |}
    | None =>
        Ok {| total_score := total_score t;
              max_possible_score := max_possible;
              t_matched := t_matched t;
              t_missing :=
                if Qle_bool 0.7 importance
                then t_missing t ++
                       [{| mi_symptom := symptom_name;
                           mi_importance := py_round (importance * 100) |}]
                else t_missing t;
              t_partial := t_partial t; t_negative := t_negative t |}
    end.

(** The loop over the symptom entries of one disease. *)
Fixpoint score_symptoms (patient_symptoms : gmap string (gmap string pyval))
  (t : tally) (entries : list (string * symptom_config)) : res tally :=
  match entries with
  | [] => Ok t
  | entry :: rest =>
      t' ← score_symptom patient_symptoms t entry;
      score_symptoms patient_symptoms t' rest
  end.

(** [confidence], before it is rounded for the output. *)
Definition confidence_of (prevalence : Q) (t : tally) : Q :=
  let base_confidence :=
    if Qltb 0 (max_possible_score t)
    then (total_score t / max_possible_score t * 100)%Q else 0%Q in
  let prevalence_factor := (1.0 + prevalence * 0.2)%Q in
  py_min 100 (base_confidence * prevalence_factor)%Q.

Definition build_explanation (t : tally) : string :=
  let part1 :=
    match t_matched t with
    | [] => []
    | l => ["Strong match on: " +:+ join ", " (me_symptom <$> l)]
    end in
  let part2 :=
    match t_partial t with
    | [] => []
    | l => ["Partial match on: " +:+ join ", " (me_symptom <$> l)]
    end in
  let part3 := ne_note <$> t_negative t in
  let part4 :=
    match t_missing t with
    | [] => []
    | l => ["Consider checking for: " +:+ join ", " (mi_symptom <$> l)]
    end in
  join " | " (part1 ++ part2 ++ part3 ++ part4).

(** [not matched_symptoms and not partially_matched and not
    negative_matches]. *)
Definition no_evidence (t : tally) : bool :=
  match t_matched t, t_partial t, t_negative t with
  | [], [], [] => true
  | _, _, _ => false
  end.

(** The body of the loop over [disease_profiles.items()]: [None] is a
    [continue], [Some r] an appended record. *)
Definition diagnose_disease (patient_symptoms : gmap string (gmap string pyval))
  (profile : string * disease_data) : res (option result) :=
  let '(disease_name, data) := profile in
  let disease_symptoms := dd_symptoms data in
  let prevalence := get_prevalence data in
  match disease_symptoms with
  | [] => Ok None
  | _ :: _ =>
      t ← score_symptoms patient_symptoms empty_tally disease_symptoms;
      let confidence := confidence_of prevalence t in
      if no_evidence t then Ok None
      else
        Ok (Some
          {| disease := disease_name;
             common_name := default disease_name (dd_common_name data);
             category := default "General" (dd_category data);
             confidence := py_round_n confidence 1;
             matched_symptoms := t_matched t;
             partially_matched := t_partial t;
             missing_symptoms := t_missing t;
             negative_matches := t_negative t;
             explanation := build_explanation t |})
  end.

(** The records appended to [results], in profile order. *)
Fixpoint collect (patient_symptoms : gmap string (gmap string pyval))
  (disease_profiles : list (string * disease_data)) : res (list result) :=
  match disease_profiles with
  | [] => Ok []
  | profile :: rest =>
      r ← diagnose_disease patient_symptoms profile;
      rs ← collect patient_symptoms rest;
      Ok (match r with Some x => x :: rs | None => rs end)
  end.

(** [diagnose(patient_symptoms)], on the loaded profiles. *)
Definition diagnose (disease_profiles : list (string * disease_data))
  (patient_symptoms : gmap string (gmap string pyval)) : res (list result) :=
  results ← collect patient_symptoms disease_profiles;
  Ok (sort_desc confidence results).

Definition get_differential_diagnosis
  (disease_profiles : list (string * disease_data))
  (patient_symptoms : gmap string (gmap string pyval))
  (top_n : Z) (min_confidence : Q) : res (list result) :=
  all_diagnoses ← diagnose disease_profiles patient_symptoms;
  let filtered :=
    List.filter (fun d => Qle_bool min_confidence (confidence d)) all_diagnoses in
  Ok (py_prefix filtered top_n).

End WithFloat.

(** ** An instance of [float_of_str]

    Plain decimal literals, [[+-]digits[.digits]] between optional blanks.
    The built-in accepts more (exponents, underscores, [inf], [nan]); the
    examples below use none of it. *)

Definition digit_of (c : ascii) : option Z :=
  let n := nat_of_ascii c in
  if ((48 <=? n) && (n <=? 57))%nat then Some (Z.of_nat (n - 48)) else None.

(** The digits of [s] read as a number, with their count; [None] when [s]
    has another character. *)
Fixpoint digits (s : string) (acc : Z) (count : nat) : option (Z * nat) :=
  match s with
  | EmptyString => Some (acc, count)
  | String c r =>
      match digit_of c with
      | Some d => digits r (10 * acc + d) (S count)
      | None => None
      end
  end.

(** The text before the first point, and the text after it if there is
    one. *)
Fixpoint split_point (s : string) : string * option string :=
  match s with
  | EmptyString => (EmptyString, None)
  | String c r =>
      if Ascii.eqb c "."%char then (EmptyString, Some r)
      else let '(a, b) := split_point r in (String c a, b)
  end.

Definition unsigned_decimal (s : string) : option Q :=
  let '(whole, frac) := split_point s in
  match digits whole 0 0, frac with
  | Some (w, nw), None =>
      if (0 <? nw)%nat then Some (inject_Z w) else None
  | Some (w, nw), Some fs =>
      match digits fs 0 0 with
      | Some (fr, nf) =>
          if (0 <? nw + nf)%nat
          then Some (inject_Z w + inject_Z fr / inject_Z (10 ^ Z.of_nat nf))%Q
          else None
      | None => None
      end
  | None, _ => None
  end.

Definition decimal_float (s : string) : option Q :=
  match strip s with
  | String "-" r => Qopp <$> unsigned_decimal r
  | String "+" r => unsigned_decimal r
  | t => unsigned_decimal t
  end.

(** ** Vocabulary of the properties *)

(** A list of two numbers, which [match_expectation] reads as a range. *)
Definition is_range (l : list pyval) : bool :=
  match l with
  | [e0; e1] =>
      match num_of e0, num_of e1 with
      | Some _, Some _ => true
      | _, _ => false
      end
  | _ => false
  end.

(** The reports of one symptom in two patient reports are both missing, or
    both there and equal but for the attribute [present]. *)
Definition same_but_present (o1 o2 : option (gmap string pyval)) : Prop :=
  match o1, o2 with
  | None, None => True
  | Some d1, Some d2 => delete "present" d1 = delete "present" d2
  | _, _ => False
  end.

(** The profile with the defaults of the [get] calls written out. *)
Definition fill_entry (cfg : symptom_config) : symptom_config :=
  {| sc_importance := Some (default 0.5%Q (sc_importance cfg));
     sc_note := sc_note cfg;
     sc_expectations := sc_expectations cfg |}.

Definition fill_defaults (profile : string * disease_data)
  : string * disease_data :=
  (profile.1,
   {| dd_common_name := dd_common_name profile.2;
      dd_category := Some (default "General" (dd_category profile.2));
      dd_prevalence := Some (default 0.05%Q (dd_prevalence profile.2));
      dd_symptoms := prod_map id fill_entry <$> dd_symptoms profile.2 |}).

(** Some symptom entry of some profile has no importance. *)
Definition lacks_importance (profiles : list (string * disease_data)) : Prop :=
  exists name data s cfg,
    (name, data) ∈ profiles /\ (s, cfg) ∈ dd_symptoms data /\
    sc_importance cfg = None.

End EngineB.

(** * Engine A: vocabulary of the further properties *)

Module EngineA_Terms.
Import EngineA.

(** The sum of a list of numbers. *)
Definition Qsum (l : list Q) : Q := foldr Qplus 0%Q l.

(** The rows of disease [d] in which at least one resolved index is 1. *)
Definition matching_rows (symptom_indices : list nat) (d : string)
  (rows : list (string * list Z)) : list (string * list Z) :=
  filter (fun r => r.1 = d /\ count_matched symptom_indices r.2 <> 0) rows.

(** What a counted row adds to the total score of its disease, with the
    tests as [diagnose] has them: [base_score * frequency_weight]. *)
Definition row_gain (symptom_indices : list nat) (freq : Z) (row : list Z) : Q :=
  let matched := count_matched symptom_indices row in
  let n := Z.of_nat (length symptom_indices) in
  (inject_Z matched / inject_Z n * 100
   * (if matched =? n then 2.0 else 1)
   * (if (py_sum row =? 1) && (matched =? 1) then 1.5 else 1)
   * (1.0 + inject_Z freq / 10000.0))%Q.

(** A row with zeros added at its end up to the length [n]. *)
Definition pad_row (n : nat) (row : list Z) : list Z :=
  row ++ replicate (n - length row) 0.

End EngineA_Terms.

(** * Engine B: loading, and vocabulary of the further properties *)

Module EngineB_Terms.
Import EngineB.

(** [k.startswith("_")]. *)
Definition is_metadata (k : string) : bool :=
  match k with
  | String "_" _ => true
  | _ => false
  end.

(** The comprehension [{k: v for k, v in d.items() if not
    k.startswith("_")}] of [load_disease_profiles] and
    [load_symptom_library], on the items of the parsed file. *)
Definition drop_metadata {V} (items : list (string * V)) : list (string * V) :=
  List.filter (fun kv => negb (is_metadata kv.1)) items.

Definition load_disease_profiles (parsed : list (string * disease_data))
  : list (string * disease_data) := drop_metadata parsed.

(** An expected value whose bounds, if it is a two-number range, are both
    greater than zero and no [int] beyond the range of the floats. *)
Definition safe_bounds (e : pyval) : bool :=
  match e with
  | PList [e0; e1] =>
      match num_of e0, num_of e1 with
      | Some a, Some b =>
          Qltb 0 a && Qltb 0 b && negb (too_large e0) && negb (too_large e1)
      | _, _ => true
      end
  | _ => true
  end.


(** No value reported for a symptom is an [int] beyond the range of the
    floats. *)
Definition data_fits (patient_data : gmap string pyval) : Prop :=
  forall k v, patient_data !! k = Some v -> too_large v = false.


(** The evidence a tally holds agrees with the report: matched and partly
    matched symptoms are reported, missing and negative ones are not, each is
    one of [names], and the recorded percentages are on the side of the
    thresholds that put them there; the two scores are not negative. *)
Definition consistent_tally (patient_symptoms : gmap string (gmap string pyval))
  (names : list string) (t : tally) : Prop :=
  (0 <= total_score t)%Q /\ (0 <= max_possible_score t)%Q /\
  Forall (fun e => me_symptom e ∈ names /\
                   is_Some (patient_symptoms !! me_symptom e) /\
                   80 <= me_match_quality e) (t_matched t) /\
  Forall (fun e => me_symptom e ∈ names /\
                   is_Some (patient_symptoms !! me_symptom e) /\
                   0 <= me_match_quality e <= 80) (t_partial t) /\
  Forall (fun e => mi_symptom e ∈ names /\
                   patient_symptoms !! mi_symptom e = None /\
                   70 <= mi_importance e) (t_missing t) /\
  Forall (fun e => ne_symptom e ∈ names /\
                   patient_symptoms !! ne_symptom e = None) (t_negative t).

(** An entry of a profile that the report meets in full: a symptom whose
    absence supports the diagnosis is not reported, any other symptom is
    reported with the match quality 1. *)
Definition fully_met (float_of_str : string -> option Q)
  (patient_symptoms : gmap string (gmap string pyval))
  (entry : string * symptom_config) : Prop :=
  if Qltb (get_importance entry.2) 0 then patient_symptoms !! entry.1 = None
  else
    exists patient_data match_quality,
      patient_symptoms !! entry.1 = Some patient_data /\
      calculate_symptom_match_score float_of_str entry.2 patient_data =
        Ok match_quality /\
      (match_quality == 1)%Q.

End EngineB_Terms.

(** * The HTTP layer of Engine A: [backend/app.py]

    The handlers are functions of the parsed request: the JSON body is a
    [pyval], the loaded dataset is an argument. The response is its status
    with the fields that vary. *)

Module ApiA.
Import EngineB.

(** [bool(v)], the test of [if not v]. *)
Definition py_truthy (v : pyval) : bool :=
  match v with
  | PNone => false
  | PBool b => b
  | PInt z => negb (z =? 0)
  | PFloat q => negb (Qeq_bool q 0)
  | PStr s => negb (String.eqb s "")
  | PList l => match l with [] => false | _ :: _ => true end
  | PDict d => match d with [] => false | _ :: _ => true end
  end.

(** [type(v).__name__]. *)
Definition type_name (v : pyval) : string :=
  match v with
  | PNone => "NoneType"
  | PBool _ => "bool"
  | PInt _ => "int"
  | PFloat _ => "float"
  | PStr _ => "str"
  | PList _ => "list"
  | PDict _ => "dict"
  end.

(** The text of the [AttributeError] for [v.attr]. *)
Definition no_attribute (v : pyval) (attr : string) : string :=
  "'" +:+ type_name v +:+ "' object has no attribute '" +:+ attr +:+ "'".

Inductive response : Type :=
| BadRequest (error : string)
| Success (results : list EngineA.result) (symptoms_provided : list pyval)
    (results_count : Z)
| ServerError (message : string).

(** [top_n] after the line that replaces what is no integer from 1 to 100
    by 10. [True] is an [int], equal to 1; [False] is less than 1. *)
Definition sanitize_top_n (top_n : pyval) : Z :=
  match top_n with
  | PInt z => if (z <? 1) || (100 <? z) then 10 else z
  | PBool b => if b then 1 else 10
  | _ => 10
  end.

(** The first element that is no string: [find_symptom_indices] calls
    [lower] on the elements in order. *)
Fixpoint first_non_str (l : list pyval) : option pyval :=
  match l with
  | [] => None
  | PStr _ :: r => first_non_str r
  | v :: _ => Some v
  end.

(** The strings of a list. *)
Definition strings (l : list pyval) : list string :=
  omap (fun v => match v with PStr s => Some s | _ => None end) l.

(** [diagnose_endpoint], the handler of [POST /api/diagnose]. An exception
    is caught by the handler and answered with the status 500. *)
Definition diagnose_endpoint (dataset : EngineA.dataset) (data : pyval)
  : response :=
  if negb (py_truthy data) then BadRequest "Request body is required"
  else
    match data with
    | PDict d =>
        let symptoms := default PNone (assoc "symptoms" d) in
        if negb (py_truthy symptoms) then
          BadRequest "symptoms field is required"
        else
          match symptoms with
          | PList l =>
              if (length l =? 0)%nat then
                BadRequest "symptoms list cannot be empty"
              else
                let top_n :=
                  sanitize_top_n (default (PInt 10) (assoc "top_n" d)) in
                match first_non_str l with
                | Some v => ServerError (no_attribute v "lower")
                | None =>
                    let results :=
                      EngineA.diagnose (strings l) top_n dataset in
                    Success results l (Z.of_nat (length results))
                end
          | _ => BadRequest "symptoms must be a list"
          end
    | _ => ServerError (no_attribute data "get")
    end.

(** [s.split(",")]. *)
Fixpoint split_comma (s : string) : list string :=
  match s with
  | EmptyString => [EmptyString]
  | String c r =>
      if Ascii.eqb c ","%char then EmptyString :: split_comma r
      else
        match split_comma r with
        | h :: t => String c h :: t
        | [] => [String c EmptyString]
        end
  end.

(** [diagnose_get], the handler of [GET /api/diagnose]. [symptoms_str] is
    the query parameter [symptoms], [None] when it is missing; [top_n] is
    the integer [request.args.get("top_n", 10, type=int)] gives. *)
Definition diagnose_get (dataset : EngineA.dataset)
  (symptoms_str : option string) (top_n : Z) : response :=
  match symptoms_str with
  | None | Some EmptyString =>
      BadRequest "symptoms query parameter is required (comma-separated)"
  | Some str =>
      let symptoms := strip <$> split_comma str in
      let results := EngineA.diagnose symptoms top_n dataset in
      Success results (PStr <$> symptoms) (Z.of_nat (length results))
  end.

End ApiA.

(** * The HTTP layer of Engine B: [backend/json-based/app.py] *)

Module ApiB.
Import EngineB EngineB_Terms.

(** The object under the key [disease] of a successful answer. *)
Record disease_details : Type := {
  det_id : string;
  det_common_name : string;
  det_category : string;
  det_prevalence : Q;
  det_symptoms : list (string * symptom_config)
}.

Inductive details_response : Type :=
| Found (details : disease_details)
| NotFound (error : string).

Definition details_of (id : string) (data : disease_data) : disease_details :=
  {| det_id := id;
     det_common_name := default id (dd_common_name data);
     det_category := default "General" (dd_category data);
     det_prevalence := default 0.05%Q (dd_prevalence data);
     det_symptoms := dd_symptoms data |}.

(** The loop [for key, data in items: if key.lower() == id.lower()]. *)
Fixpoint first_caseless {V} (id : string) (items : list (string * V))
  : option (string * V) :=
  match items with
  | [] => None
  | (key, data) :: r =>
      if String.eqb (lower key) (lower id) then Some (key, data)
      else first_caseless id r
  end.

(** [get_disease_details], the handler of [GET /api/disease/<disease_id>],
    on the parsed profile file. *)
Definition get_disease_details (parsed : list (string * disease_data))
  (disease_id : string) : details_response :=
  let disease_profiles := load_disease_profiles parsed in
  match assoc disease_id disease_profiles with
  | Some disease_data => Found (details_of disease_id disease_data)
  | None =>
      match first_caseless disease_id disease_profiles with
      | Some (key, data) => Found (details_of key data)
      | None => NotFound ("Disease '" +:+ disease_id +:+ "' not found")
      end
  end.

(** ** Listings

    [l.sort(key=...)] and [sorted(l)] on names: ascending in the order of
    the code points, stable. *)
Section SortByName.
Context {A : Type} (key : A -> string).

Fixpoint insert_asc (x : A) (l : list A) : list A :=
  match l with
  | [] => [x]
  | y :: r =>
      if String.ltb (key y) (key x) then y :: insert_asc x r else x :: l
  end.

Definition sort_asc (l : list A) : list A := foldr insert_asc [] l.

(** Non-decreasing names along the list. *)
Fixpoint sorted_asc (l : list A) : Prop :=
  match l with
  | [] => True
  | x :: r => Forall (fun y => String.le (key x) (key y)) r /\ sorted_asc r
  end.
End SortByName.

(** One entry of the list under the key [diseases]. *)
Record disease_summary : Type := {
  ds_id : string;
  ds_common_name : string;
  ds_category : string;
  ds_prevalence : Q;
  ds_symptom_count : Z;
  ds_symptoms : list string
}.

Record diseases_response : Type := {
  dr_count : Z;
  dr_categories : list string;
  dr_diseases : list disease_summary
}.

Definition category_of (disease_data : disease_data) : string :=
  default "General" (dd_category disease_data).

Definition summary_of (disease_id : string) (disease_data : disease_data)
  : disease_summary :=
  let symptom_names := (dd_symptoms disease_data).*1 in
  {| ds_id := disease_id;
     ds_common_name := default disease_id (dd_common_name disease_data);
     ds_category := category_of disease_data;
     ds_prevalence := default 0.05%Q (dd_prevalence disease_data);
     ds_symptom_count := Z.of_nat (length symptom_names);
     ds_symptoms := symptom_names |}.

(** The test [category_filter and category.lower() != category_filter]. *)
Definition filtered_out (category_filter category : string) : bool :=
  negb (String.eqb category_filter "") &&
  negb (String.eqb (lower category) category_filter).

(** The loop of [get_diseases]: the categories added to the set, in the
    order of the profiles, and the entries appended to [diseases]. *)
Fixpoint list_diseases (category_filter : string)
  (disease_profiles : list (string * disease_data))
  : list string * list disease_summary :=
  match disease_profiles with
  | [] => ([], [])
  | (disease_id, disease_data) :: rest =>
      let category := category_of disease_data in
      let '(categories, diseases) := list_diseases category_filter rest in
      if filtered_out category_filter category then
        (category :: categories, diseases)
      else
        (category :: categories, summary_of disease_id disease_data :: diseases)
  end.

(** [get_diseases], the handler of [GET /api/diseases], on the parsed
    profile file; [category] is the query parameter, [None] when it is
    missing. *)
Definition get_diseases (parsed : list (string * disease_data))
  (category : option string) : diseases_response :=
  let disease_profiles := load_disease_profiles parsed in
  let category_filter := lower (default "" category) in
  let '(categories, diseases) :=
    list_diseases category_filter disease_profiles in
  let diseases := sort_asc ds_common_name diseases in
  {| dr_count := Z.of_nat (length diseases);
     dr_categories := sort_asc id (remove_dups categories);
     dr_diseases := diseases |}.

(** One entry of the symptom library; the follow-up questions are kept as
    the values the file has. *)
Record symptom_data : Type := {
  sd_display_name : option string;
  sd_global_follow_ups : option pyval;
  sd_unique_follow_ups : option pyval
}.

(** One entry of the list under the key [symptoms]. *)
Record symptom_entry : Type := {
  se_id : string;
  se_display_name : string;
  se_global_follow_ups : pyval;
  se_unique_follow_ups : pyval
}.

Definition load_symptom_library (parsed : list (string * symptom_data))
  : list (string * symptom_data) := drop_metadata parsed.

Definition entry_of (symptom_id : string) (symptom_data : symptom_data)
  : symptom_entry :=
  {| se_id := symptom_id;
     se_display_name := default symptom_id (sd_display_name symptom_data);
     se_global_follow_ups :=
       default (PList []) (sd_global_follow_ups symptom_data);
     se_unique_follow_ups :=
       default (PList []) (sd_unique_follow_ups symptom_data) |}.

(** [get_symptoms], the handler of [GET /api/symptoms], on the parsed
    library file: the count and the list. *)
Definition get_symptoms (parsed : list (string * symptom_data))
  : Z * list symptom_entry :=
  let symptom_library := load_symptom_library parsed in
  let symptoms :=
    sort_asc se_display_name (uncurry entry_of <$> symptom_library) in
  (Z.of_nat (length symptoms), symptoms).

Inductive symptom_response : Type :=
| SymptomFound (symptom : symptom_entry)
| SymptomNotFound (error : string).

(** [get_symptom_details], the handler of [GET /api/symptom/<symptom_id>],
    on the parsed library file. *)
Definition get_symptom_details (parsed : list (string * symptom_data))
  (symptom_id : string) : symptom_response :=
  let symptom_library := load_symptom_library parsed in
  match assoc symptom_id symptom_library with
  | Some symptom_data => SymptomFound (entry_of symptom_id symptom_data)
  | None =>
      match first_caseless symptom_id symptom_library with
      | Some (key, data) => SymptomFound (entry_of key data)
      | None => SymptomNotFound ("Symptom '" +:+ symptom_id +:+ "' not found")
      end
  end.

End ApiB.

(** * Facts about the numeric helpers *)

Lemma Qltb_lt (a b : Q) : Qltb a b = true <-> (a < b)%Q.
Proof.
  unfold Qltb. rewrite negb_true_iff, <- not_true_iff_false, Qle_bool_iff.
  split; [apply Qnot_le_lt | apply Qlt_not_le].
Qed.

Lemma Qltb_ge (a b : Q) : Qltb a b = false <-> (b <= a)%Q.
Proof. unfold Qltb. rewrite negb_false_iff. apply Qle_bool_iff. Qed.

Lemma py_div_nonzero (a b : Q) : ~ (b == 0)%Q -> py_div a b = Ok (a / b)%Q.
Proof.
  intros Hb. unfold py_div.
  destruct (Qeq_bool b 0) eqn:E; [|done].
  by apply Qeq_bool_iff in E.
Qed.

Lemma py_div_zero (a b : Q) : (b == 0)%Q -> py_div a b = Raise ZeroDivisionError.
Proof.
  intros Hb. unfold py_div. apply Qeq_bool_iff in Hb. by rewrite Hb.
Qed.

Lemma py_prefix_take {A} (l : list A) (n : Z) :
  0 <= n -> py_prefix l n = take (Z.to_nat n) l.
Proof. intros Hn. unfold py_prefix. by rewrite (Zle_imp_le_bool _ _ Hn). Qed.

Lemma py_prefix_length {A} (l : list A) (n : Z) :
  0 <= n -> Z.of_nat (length (py_prefix l n)) <= n.
Proof.
  intros Hn. rewrite py_prefix_take, length_take by done. lia.
Qed.

(** * Facts about the sort *)

Section SortFacts.
Context {A : Type} (key : A -> Q).

Lemma insert_desc_perm (x : A) (l : list A) : insert_desc key x l ≡ₚ x :: l.
Proof.
  induction l as [|y r IH]; simpl; [done|].
  destruct (Qltb (key x) (key y)); [|done].
  rewrite IH. apply Permutation_swap.
Qed.

Lemma sort_desc_perm (l : list A) : sort_desc key l ≡ₚ l.
Proof.
  induction l as [|x r IH]; simpl; [done|].
  by rewrite insert_desc_perm, IH.
Qed.

Lemma sorted_desc_insert (x : A) (l : list A) :
  sorted_desc key l -> sorted_desc key (insert_desc key x l).
Proof.
  induction l as [|y r IH]; simpl; [by split|].
  intros [Hall Hr].
  destruct (Qltb (key x) (key y)) eqn:E; simpl.
  - apply Qltb_lt in E. split; [|by apply IH].
    rewrite insert_desc_perm. constructor; [by apply Qlt_le_weak|done].
  - apply Qltb_ge in E. split; [|done].
    constructor; [done|].
    eapply Forall_impl; [exact Hall|].
    intros z Hz. simpl in Hz. by eapply Qle_trans.
Qed.

Lemma sort_desc_sorted (l : list A) : sorted_desc key (sort_desc key l).
Proof.
  induction l as [|x r IH]; simpl; [done|]. by apply sorted_desc_insert.
Qed.

Lemma sorted_desc_take (n : nat) (l : list A) :
  sorted_desc key l -> sorted_desc key (take n l).
Proof.
  revert n. induction l as [|x r IH]; intros [|n]; simpl; try done.
  intros [Hall Hr]. split; [|by apply IH].
  by apply Forall_take.
Qed.

(** Any two records of a sorted list are in order of their positions. *)
Lemma sorted_desc_lookup (l : list A) (i j : nat) (x y : A) :
  sorted_desc key l -> (i < j)%nat -> l !! i = Some x -> l !! j = Some y ->
  (key y <= key x)%Q.
Proof.
  revert i j. induction l as [|z r IH]; intros i j Hs Hij Hi Hj; [done|].
  destruct Hs as [Hall Hr].
  destruct j as [|j]; [lia|]. simpl in Hj.
  destruct i as [|i]; simpl in Hi.
  - injection Hi as ->. rewrite Forall_forall in Hall.
    apply Hall. by eapply list_elem_of_lookup_2.
  - apply (IH i j); [done|lia|done|done].
Qed.

Lemma with_key_insert (k : Q) (x : A) (l : list A) :
  with_key key k (insert_desc key x l) = with_key key k (x :: l).
Proof.
  unfold with_key. induction l as [|y r IH]; simpl; [done|].
  destruct (Qltb (key x) (key y)) eqn:E; [|done].
  apply Qltb_lt in E.
  rewrite (filter_cons _ y), IH, !(filter_cons _ x), (filter_cons _ y).
  repeat case_decide; try done.
  exfalso.
  match goal with
  | H1 : Qeq_bool (key x) k = true, H2 : Qeq_bool (key y) k = true |- _ =>
      apply Qeq_bool_iff in H1, H2; rewrite H1, H2 in E;
      exact (Qlt_irrefl _ E)
  end.
Qed.

(** The sort is stable. *)
Lemma sort_desc_stable (k : Q) (l : list A) :
  with_key key k (sort_desc key l) = with_key key k l.
Proof.
  induction l as [|x r IH]; simpl; [done|].
  rewrite with_key_insert. unfold with_key in *.
  by rewrite !(filter_cons _ x), IH.
Qed.

End SortFacts.

(** * Engine A: properties *)

Module EngineA_Props.
Import EngineA.

(** ** Symptom resolution *)

Lemma index_None (x : string) (l : list string) :
  index x l = None <-> x ∉ l.
Proof.
  induction l as [|y r IH]; simpl.
  - split; [intros _; apply not_elem_of_nil | done].
  - rewrite not_elem_of_cons. destruct (String.eqb_spec y x) as [->|Hne].
    + split; [done | intros [? _]; done].
    + destruct (index x r); simpl; split; try done.
      * intros [_ H]. by apply IH in H.
      * intros _. split; [congruence | by apply IH].
Qed.

Lemma index_Some (x : string) (l : list string) (i : nat) :
  index x l = Some i -> l !! i = Some x.
Proof.
  revert i. induction l as [|y r IH]; intros i; simpl; [done|].
  destruct (String.eqb_spec y x) as [->|Hne].
  - by intros [= <-].
  - destruct (index x r) as [k|]; simpl; [|done].
    intros [= <-]. by apply IH.
Qed.

Lemma find_symptom_indices_app (xs ys cols : list string) :
  find_symptom_indices (xs ++ ys) cols =
  find_symptom_indices xs cols ++ find_symptom_indices ys cols.
Proof. unfold find_symptom_indices. apply omap_app. Qed.

Lemma find_symptom_indices_unknown (s : string) (cols : list string) :
  normalize_symptom_name s ∉ (normalize_symptom_name <$> cols) ->
  find_symptom_indices [s] cols = [].
Proof.
  intros H. apply index_None in H. unfold find_symptom_indices. simpl.
  by rewrite H.
Qed.

Lemma find_symptom_indices_none (symptoms cols : list string) :
  (forall s, s ∈ symptoms ->
     normalize_symptom_name s ∉ (normalize_symptom_name <$> cols)) ->
  find_symptom_indices symptoms cols = [].
Proof.
  induction symptoms as [|s r IH]; intros H; [done|].
  change (s :: r) with ([s] ++ r).
  rewrite find_symptom_indices_app, find_symptom_indices_unknown, IH; [done| |].
  - intros x Hx. apply H. by right.
  - apply H. by left.
Qed.

(** C6. Resolution is a total function that drops every name which, once
    normalized, is no normalized column name: the indices found are those of
    the input without that name. When no name of the input resolves,
    [diagnose] returns the empty list, whatever the case rows are. *)
Theorem C6_unresolved_names_dropped
  (symptoms : list string) (top_n : Z) (data : dataset) :
  (forall pre s post,
     symptoms = pre ++ s :: post ->
     normalize_symptom_name s ∉
       (normalize_symptom_name <$> symptom_columns data) ->
     find_symptom_indices symptoms (symptom_columns data) =
     find_symptom_indices (pre ++ post) (symptom_columns data)) /\
  ((forall s, s ∈ symptoms ->
      normalize_symptom_name s ∉
        (normalize_symptom_name <$> symptom_columns data)) ->
   find_symptom_indices symptoms (symptom_columns data) = [] /\
   forall rows,
     diagnose symptoms top_n
       {| symptom_columns := symptom_columns data; case_rows := rows |} = []).
Proof.
  split.
  - intros pre s post -> Hs.
    change (s :: post) with ([s] ++ post).
    by rewrite !find_symptom_indices_app, find_symptom_indices_unknown.
  - intros H. pose proof (find_symptom_indices_none _ _ H) as Hnil.
    split; [done|]. intros rows. unfold diagnose. simpl. by rewrite Hnil.
Qed.

(** ** The accumulator *)

Lemma get_stats_update_eq d f scores :
  get_stats d (update_stats d f scores) = f (get_stats d scores).
Proof.
  induction scores as [|[d' s] r IH]; simpl.
  - by rewrite String.eqb_refl.
  - destruct (String.eqb d' d) eqn:E; simpl; rewrite E; [done|apply IH].
Qed.

Lemma get_stats_update_ne d d' f scores :
  d' <> d -> get_stats d' (update_stats d f scores) = get_stats d' scores.
Proof.
  intros Hne. induction scores as [|[d0 s] r IH]; simpl.
  - destruct (String.eqb_spec d d'); [congruence|done].
  - destruct (String.eqb_spec d0 d) as [->|Hd]; simpl.
    + destruct (String.eqb_spec d d'); [congruence|done].
    + destruct (String.eqb d0 d'); [done|apply IH].
Qed.

Lemma row_has_lookup (row : list Z) (idx : nat) :
  row_has row idx = true <-> row !! idx = Some 1.
Proof.
  unfold row_has. rewrite andb_true_iff, Nat.ltb_lt, Z.eqb_eq.
  split.
  - intros [Hlt Hnth]. rewrite <- Hnth.
    destruct (nth_lookup_or_length row idx 0) as [H|H]; [done|lia].
  - intros H. split; [by eapply lookup_lt_Some|].
    by apply nth_lookup_Some.
Qed.

Lemma count_matched_length (indices : list nat) (row : list Z) :
  count_matched indices row =
  Z.of_nat (length (List.filter (row_has row) indices)).
Proof.
  unfold count_matched, py_sum.
  induction (List.filter (row_has row) indices) as [|x r IH]; [done|].
  rewrite fmap_cons, foldr_cons, IH, length_cons. lia.
Qed.

Lemma count_matched_nonneg (indices : list nat) (row : list Z) :
  0 <= count_matched indices row.
Proof. rewrite count_matched_length. lia. Qed.

(** No resolved index is 1 in the row exactly when the count is zero. *)
Lemma count_matched_zero (indices : list nat) (row : list Z) :
  count_matched indices row = 0 <->
  forall idx, idx ∈ indices -> row !! idx <> Some 1.
Proof.
  rewrite count_matched_length.
  induction indices as [|i r IH]; simpl.
  - split; [intros _ idx H; by apply elem_of_nil in H | done].
  - destruct (row_has row i) eqn:E; simpl.
    + split; [lia|]. intros H. exfalso.
      apply (H i); [by left | by apply row_has_lookup].
    + rewrite IH. split.
      * intros H idx [->|Hin]%elem_of_cons; [|by apply H].
        rewrite <- row_has_lookup. by rewrite E.
      * intros H idx Hin. apply H. by right.
Qed.

(** ** The frequency table *)

Lemma count_frequencies_spec (ds : list string) (m : gmap string Z) (d : string) :
  frequency (foldl (fun m d => <[d := default 0 (m !! d) + 1]> m) m ds) d =
  frequency m d + Z.of_nat (length (filter (fun x => x = d) ds)).
Proof.
  revert m. induction ds as [|x r IH]; intros m; simpl; [lia|].
  rewrite IH, filter_cons. unfold frequency.
  destruct (decide (x = d)) as [->|Hne].
  - rewrite lookup_insert_eq. simpl. lia.
  - rewrite lookup_insert_ne by done. lia.
Qed.

(** [disease_frequencies[d]] is the number of case rows of disease [d]. *)
Lemma frequency_count (ds : list string) (d : string) :
  frequency (count_frequencies ds) d =
  Z.of_nat (length (filter (fun x => x = d) ds)).
Proof.
  unfold count_frequencies. rewrite count_frequencies_spec.
  unfold frequency. by rewrite lookup_empty.
Qed.

(** ** The invariant of the accumulator *)

Lemma update_stats_Forall (P : stats -> Prop) d f scores :
  (forall s, P s -> P (f s)) -> P (f new_stats) ->
  Forall (fun e => P e.2) scores ->
  Forall (fun e => P e.2) (update_stats d f scores).
Proof.
  intros Hf Hnew. induction scores as [|[d' s] r IH]; simpl; intros H.
  - by constructor.
  - apply Forall_cons in H as [Hs Hr]. simpl in Hs.
    destruct (String.eqb d' d); constructor; simpl; auto.
Qed.

Lemma score_row_counted indices freqs scores r :
  Forall (fun e => counted e.2) scores ->
  Forall (fun e => counted e.2) (score_row indices freqs scores r).
Proof.
  intros H. destruct r as [d row]. unfold score_row.
  pose proof (count_matched_nonneg indices row) as Hm.
  destruct (Z.eqb_spec (count_matched indices row) 0) as [|Hne]; [done|].
  apply update_stats_Forall; [| |done]; unfold counted; simpl.
  - intros s [? ?]. lia.
  - lia.
Qed.

Lemma score_rows_counted indices freqs rows scores :
  Forall (fun e => counted e.2) scores ->
  Forall (fun e => counted e.2) (score_rows indices freqs scores rows).
Proof.
  unfold score_rows. revert scores.
  induction rows as [|r rows IH]; intros scores H; simpl; [done|].
  apply IH. by apply score_row_counted.
Qed.

Lemma elem_of_py_prefix {A} (x : A) (l : list A) (n : Z) :
  x ∈ py_prefix l n -> x ∈ l.
Proof.
  unfold py_prefix. destruct (0 <=? n); intros H;
    (eapply elem_of_sublist; [exact H | apply sublist_take]).
Qed.

(** C9. Every record [diagnose] returns has
    [match_count >= case_count >= 1]. *)
Theorem C9_match_count_ge_case_count
  (symptoms : list string) (top_n : Z) (data : dataset) (r : result) :
  r ∈ diagnose symptoms top_n data ->
  1 <= res_case_count r /\ res_case_count r <= res_match_count r.
Proof.
  unfold diagnose.
  destruct (find_symptom_indices symptoms (symptom_columns data))
    as [|i indices] eqn:E.
  - intros H. by apply elem_of_nil in H.
  - intros H. apply elem_of_py_prefix in H.
    rewrite sort_desc_perm in H. unfold unsorted_results in H.
    apply list_elem_of_fmap in H as [[d st] [-> Hin]].
    pose proof (score_rows_counted (i :: indices)
      (count_frequencies (diseases data)) (case_rows data) []
      (Forall_nil_2 _)) as Hall.
    rewrite Forall_forall in Hall. apply (Hall _ Hin).
Qed.

(** ** One row of the scoring loop *)

Lemma score_rows_snoc indices freqs scores rows r :
  score_rows indices freqs scores (rows ++ [r]) =
  score_row indices freqs (score_rows indices freqs scores rows) r.
Proof. unfold score_rows. by rewrite foldl_app. Qed.

Lemma existsb_row_has (indices : list nat) (row : list Z) :
  existsb (row_has row) indices = negb (count_matched indices row =? 0).
Proof.
  rewrite count_matched_length.
  induction indices as [|i r IH]; simpl; [done|].
  destruct (row_has row i); simpl; done.
Qed.

Lemma py_sum_binary (row : list Z) :
  binary_row row -> py_sum row = Z.of_nat (count_present row).
Proof.
  unfold binary_row, count_present, py_sum.
  induction 1 as [|v r Hv _ IH]; [done|].
  rewrite foldr_cons, IH, filter_cons.
  destruct Hv as [->| ->]; case_decide; simpl; lia.
Qed.

Lemma present_unique (row : list Z) (i j : nat) :
  count_present row = 1%nat ->
  row !! i = Some 1 -> row !! j = Some 1 -> i = j.
Proof.
  unfold count_present. revert i j.
  induction row as [|v r IH]; intros i j; [done|].
  rewrite filter_cons. case_decide as Hv; simpl.
  - intros [= Hlen]. apply length_zero_iff_nil in Hlen.
    assert (forall k, r !! k <> Some 1) as Hno.
    { intros k Hk. apply list_elem_of_lookup_2 in Hk.
      assert (1 ∈ filter (fun v => v = 1) r) as Hin
        by (by apply list_elem_of_filter).
      rewrite Hlen in Hin. by apply elem_of_nil in Hin. }
    destruct i as [|i], j as [|j]; simpl; try done.
    + intros _ Hj. by apply Hno in Hj.
    + intros Hi. by apply Hno in Hi.
    + intros Hi. by apply Hno in Hi.
  - intros Hlen. destruct i as [|i], j as [|j]; simpl.
    + done.
    + intros [= ?]. done.
    + intros _ [= ?]. done.
    + intros Hi Hj. f_equal. by apply IH.
Qed.

Lemma count_matched_le_one (indices : list nat) (row : list Z) :
  NoDup indices -> count_present row = 1%nat ->
  count_matched indices row <= 1.
Proof.
  intros Hnd Hone. rewrite count_matched_length.
  assert (NoDup (List.filter (row_has row) indices)) as Hnd'.
  { apply NoDup_ListNoDup, List.NoDup_filter, NoDup_ListNoDup, Hnd. }
  assert (forall x, In x (List.filter (row_has row) indices) ->
                    row !! x = Some 1) as Hall.
  { intros x [_ Hx]%List.filter_In. by apply row_has_lookup. }
  destruct (List.filter (row_has row) indices) as [|a [|b l]]; simpl; try lia.
  exfalso. apply NoDup_cons in Hnd' as [Hnotin _]. apply Hnotin.
  rewrite (present_unique row a b Hone); [by left | |].
  - apply Hall. by left.
  - apply Hall. right. by left.
Qed.

(** For a duplicate-free index list and a 0/1 row, the test of the code is
    the condition of section 4.2. *)
Lemma single_symptom_test (indices : list nat) (row : list Z) :
  NoDup indices -> binary_row row ->
  (py_sum row =? 1) && (count_matched indices row =? 1) =
  one_present_and_matched indices row.
Proof.
  intros Hnd Hbin. unfold one_present_and_matched.
  rewrite (py_sum_binary _ Hbin), existsb_row_has.
  case_bool_decide as Hone.
  - rewrite Hone. simpl.
    pose proof (count_matched_le_one _ _ Hnd Hone).
    pose proof (count_matched_nonneg indices row).
    destruct (Z.eqb_spec (count_matched indices row) 1),
             (Z.eqb_spec (count_matched indices row) 0); simpl; try done; lia.
  - destruct (Z.eqb_spec (Z.of_nat (count_present row)) 1); [lia|done].
Qed.

(** What one row does to the accumulator, with the tests as the code has
    them. *)
Lemma score_row_effect indices freqs scores d row :
  let matched := count_matched indices row in
  let n := Z.of_nat (length indices) in
  let exact := matched =? n in
  let single := (py_sum row =? 1) && (matched =? 1) in
  let after := score_row indices freqs scores (d, row) in
  (matched = 0 -> after = scores) /\
  (matched <> 0 ->
   case_count (get_stats d after) = case_count (get_stats d scores) + 1 /\
   match_count (get_stats d after) = match_count (get_stats d scores) + matched /\
   exact_matches (get_stats d after) =
     exact_matches (get_stats d scores) + (if exact then 1 else 0) /\
   single_symptom_matches (get_stats d after) =
     single_symptom_matches (get_stats d scores) + (if single then 1 else 0) /\
   (total_score (get_stats d after) ==
    total_score (get_stats d scores) +
    inject_Z matched / inject_Z n * 100
    * (if exact then 2.0 else 1) * (if single then 1.5 else 1)
    * (1.0 + inject_Z (frequency freqs d) / 10000.0))%Q /\
   forall d', d' <> d -> get_stats d' after = get_stats d' scores).
Proof.
  intros matched n exact single after. subst after. unfold score_row.
  fold matched. fold n. fold exact. fold single.
  destruct (Z.eqb_spec matched 0) as [H0|H0]; split; try done.
  intros _. rewrite get_stats_update_eq. simpl.
  repeat split; try done.
  - destruct exact, single; ring.
  - intros d' Hne. by apply get_stats_update_ne.
Qed.

(** C3 (as amended). For a row [R] of disease [D]: if no resolved index is
    1 in [R], the row leaves the accumulator as it is; otherwise the case
    count of [D] grows by one, its exact-match count grows by one exactly
    when [matched = len(indices)], and its total score grows by
    [(matched / len) * 100], doubled on an exact match, times 1.5 when the
    entries of [R] sum to 1 and [matched = 1], times
    [1 + frequency(D) / 10000]; no other disease is touched. For a
    duplicate-free list of resolved indices and a 0/1 row, the test of the
    1.5 factor says that [R] has exactly one symptom present and that it is
    among the matched ones, and the growth is the one section 4.2 states. *)
Theorem C3_row_contribution
  (indices : list nat) (data : dataset)
  (pre post : list (string * list Z)) (D : string) (R : list Z) :
  case_rows data = pre ++ (D, R) :: post ->
  let freqs := count_frequencies (diseases data) in
  let before := score_rows indices freqs [] pre in
  let after := score_rows indices freqs [] (pre ++ [(D, R)]) in
  let matched := count_matched indices R in
  let n := Z.of_nat (length indices) in
  let single := (py_sum R =? 1) && (matched =? 1) in
  ((forall idx, idx ∈ indices -> R !! idx <> Some 1) -> after = before) /\
  ((exists idx, idx ∈ indices /\ R !! idx = Some 1) ->
   case_count (get_stats D after) = case_count (get_stats D before) + 1 /\
   exact_matches (get_stats D after) =
     exact_matches (get_stats D before) + (if matched =? n then 1 else 0) /\
   (total_score (get_stats D after) ==
    total_score (get_stats D before) +
    inject_Z matched / inject_Z n * 100
    * (if matched =? n then 2.0 else 1) * (if single then 1.5 else 1)
    * (1.0 + inject_Z (rows_of D data) / 10000.0))%Q /\
   forall D', D' <> D -> get_stats D' after = get_stats D' before) /\
  (NoDup indices -> binary_row R ->
   single = one_present_and_matched indices R /\
   ((exists idx, idx ∈ indices /\ R !! idx = Some 1) ->
    (total_score (get_stats D after) ==
     total_score (get_stats D before) +
     claimed_increment indices (rows_of D data) R)%Q)).
Proof.
  intros _ freqs before after matched n single. subst after.
  rewrite score_rows_snoc. fold before.
  destruct (score_row_effect indices freqs before D R) as [Hskip Hadd].
  assert ((exists idx, idx ∈ indices /\ R !! idx = Some 1) ->
          count_matched indices R <> 0) as Hsome.
  { intros (idx & Hin & Hidx) H0. rewrite count_matched_zero in H0.
    by apply (H0 idx). }
  assert (frequency freqs D = rows_of D data) as Hfreq
    by apply frequency_count.
  split; [|split].
  - intros Hno. apply Hskip. by apply count_matched_zero.
  - intros Hex. destruct (Hadd (Hsome Hex)) as (Hc & _ & He & _ & Ht & Ho).
    repeat split; try done. by rewrite Ht, Hfreq.
  - intros Hnd Hbin. split; [by apply single_symptom_test|].
    intros Hex. destruct (Hadd (Hsome Hex)) as (_ & _ & _ & _ & Ht & _).
    rewrite Ht, Hfreq. unfold claimed_increment.
    by rewrite single_symptom_test.
Qed.

Lemma C3_row_contribution_witness :
  let data := {| symptom_columns := ["fever"; "cough"];
                 case_rows := [("flu", [1; 1]); ("flu", [1; 0])] |} in
  let freqs := count_frequencies (diseases data) in
  NoDup [0%nat; 1%nat] /\ binary_row [1; 0] /\
  (total_score
     (get_stats "flu"
        (score_rows [0%nat; 1%nat] freqs [] (case_rows data))) ==
   total_score
     (get_stats "flu"
        (score_rows [0%nat; 1%nat] freqs [] [("flu", [1; 1]%Z)])) +
   claimed_increment [0%nat; 1%nat] (rows_of "flu" data) [1; 0]%Z)%Q.
Proof.
  intros data freqs.
  assert (NoDup [0%nat; 1%nat]) as Hnd by compute_done.
  assert (binary_row [1; 0]) as Hbin by compute_done.
  split; [done|]. split; [done|].
  refine (proj2 (proj2 (proj2 (C3_row_contribution [0%nat; 1%nat] data
                  [("flu", [1; 1])] [] "flu" [1; 0] eq_refl)) Hnd Hbin) _).
  exists 0%nat. split; [compute_done | reflexivity].
Defined.

(** The query [fever, fever] resolves to the column of fever twice. On a row
    whose only symptom is fever both indices match, so the row is an exact
    match with [matched = 2], and the test [matched == 1] of the
    single-symptom bonus fails although the one symptom of the row is
    matched: the row adds 200.02, not 300.03. *)
Lemma C3_counterexample :
  let data := {| symptom_columns := ["fever"; "cough"];
                 case_rows := [("flu", [1; 0])] |} in
  let indices := find_symptom_indices ["fever"; "fever"] (symptom_columns data) in
  let after :=
    score_rows indices (count_frequencies (diseases data)) [] (case_rows data) in
  indices = [0%nat; 0%nat] /\
  binary_row [1; 0] /\
  one_present_and_matched indices [1; 0] = true /\
  (total_score (get_stats "flu" after) == 200.02)%Q /\
  (claimed_increment indices (rows_of "flu" data) [1; 0]%Z == 300.03)%Q /\
  ~ (total_score (get_stats "flu" after) ==
     total_score (get_stats "flu" []) +
     claimed_increment indices (rows_of "flu" data) [1; 0]%Z)%Q.
Proof.
  split; [reflexivity|]. split; [compute_done|]. split; [reflexivity|].
  split; [by vm_compute|]. split; [by vm_compute|].
  intros H. vm_compute in H. discriminate H.
Qed.

Lemma C6_unresolved_names_dropped_witness :
  let data := {| symptom_columns := ["Fever"; "Cough "];
                 case_rows := [("flu", [1; 1])] |} in
  (normalize_symptom_name "rash" ∉
     (normalize_symptom_name <$> symptom_columns data)) /\
  find_symptom_indices [" fever"; "rash"] (symptom_columns data) =
    find_symptom_indices ([" fever"] ++ []) (symptom_columns data) /\
  diagnose ["rash"] 5 data = [].
Proof.
  intros data.
  assert (normalize_symptom_name "rash" ∉
            (normalize_symptom_name <$> symptom_columns data)) as Hrash
    by compute_done.
  split; [done|]. split.
  - exact (proj1 (C6_unresolved_names_dropped [" fever"; "rash"] 5 data)
             [" fever"] "rash" [] eq_refl Hrash).
  - refine (proj2 (proj2 (C6_unresolved_names_dropped ["rash"] 5 data) _)
              (case_rows data)).
    intros s Hs. apply list_elem_of_singleton in Hs. by subst s.
Defined.

Lemma C9_match_count_ge_case_count_witness :
  let data := {| symptom_columns := ["fever"; "cough"];
                 case_rows := [("flu", [1; 1]); ("cold", [0; 1])] |} in
  let r := {| disease := "cold"; score := 7.50; res_match_count := 1;
              total_symptom_count := 2; res_frequency := 1;
              match_percentage := 50.00; res_case_count := 1;
              res_exact_matches := 0 |} in
  r ∈ diagnose ["fever"; "cough"] 10 data /\
  1 <= res_case_count r /\ res_case_count r <= res_match_count r.
Proof.
  intros data r.
  assert (r ∈ diagnose ["fever"; "cough"] 10 data) as Hr
    by (vm_compute; right; left).
  split; [exact Hr|].
  exact (C9_match_count_ge_case_count ["fever"; "cough"] 10 data r Hr).
Defined.

(** ** The order of the records *)

Lemma update_stats_keys d f (scores : list (string * stats)) :
  (update_stats d f scores).*1 =
  if decide (d ∈ scores.*1) then scores.*1 else scores.*1 ++ [d].
Proof.
  induction scores as [|[d' s] r IH]; cbn [update_stats fmap list_fmap fst].
  - by rewrite decide_False by apply not_elem_of_nil.
  - destruct (String.eqb_spec d' d) as [->|Hne];
      cbn [update_stats fmap list_fmap fst].
    + rewrite decide_True; [done | by left].
    + rewrite IH. destruct (decide (d ∈ r.*1)) as [Hin|Hnin].
      * rewrite decide_True; [done | by right].
      * rewrite decide_False; [done|].
        rewrite not_elem_of_cons. split; [congruence|done].
Qed.

Lemma nub_fold (l ks : list string) :
  foldl (fun ks d => if decide (d ∈ ks) then ks else ks ++ [d]) ks l =
  ks ++ filter (fun y => y ∉ ks) (nub l).
Proof.
  revert ks. induction l as [|x r IH]; intros ks; simpl.
  - by rewrite app_nil_r.
  - rewrite filter_cons. destruct (decide (x ∈ ks)) as [Hin|Hnin].
    + rewrite decide_False by (intros H; apply H, Hin). rewrite IH. f_equal.
      rewrite list_filter_filter. apply list_filter_iff.
      intros y. simpl. split; [|by intros [? _]].
      intros Hy. split; [done|]. by intros ->.
    + rewrite decide_True by done. rewrite IH, <- app_assoc. simpl.
      do 2 f_equal. rewrite list_filter_filter. apply list_filter_iff.
      intros y. simpl. rewrite not_elem_of_app, list_elem_of_singleton. tauto.
Qed.

Lemma score_rows_keys indices freqs rows (scores : list (string * stats)) :
  (score_rows indices freqs scores rows).*1 =
  foldl (fun ks d => if decide (d ∈ ks) then ks else ks ++ [d]) scores.*1
    (List.filter (fun r => negb (count_matched indices r.2 =? 0)) rows).*1.
Proof.
  unfold score_rows. revert scores.
  induction rows as [|[d row] rows IH]; intros scores; [done|].
  cbn [foldl List.filter snd]. rewrite IH.
  unfold score_row.
  destruct (count_matched indices row =? 0);
    cbn [negb fmap list_fmap fst foldl]; [done|].
  by rewrite update_stats_keys.
Qed.

Lemma unsorted_results_order indices data :
  disease <$> unsorted_results indices data =
  encounter_order indices (case_rows data).
Proof.
  unfold unsorted_results, encounter_order.
  rewrite <- list_fmap_compose.
  transitivity ((score_rows indices (count_frequencies (diseases data)) []
                   (case_rows data)).*1).
  - apply list_fmap_ext. by intros i [d st] _.
  - rewrite score_rows_keys, nub_fold. cbn [fmap list_fmap app].
    generalize (nub (List.filter
      (fun r => negb (count_matched indices r.2 =? 0)) (case_rows data)).*1).
    intros l. induction l as [|y l IHl]; [done|].
    rewrite filter_cons, decide_True by apply not_elem_of_nil.
    by rewrite IHl.
Qed.

(** C8 (as amended). For a query that resolves to at least one column and a
    positive [top_n], [diagnose] returns at most [top_n] records, in order
    of non-increasing score. They are the first [top_n] records of the
    stable sort of the per-disease records: the sort permutes the records
    and keeps records of equal score in the order they had, which is the
    order of the first matching row of each disease in the dataset. *)
Theorem C8_sorted_stable_top_n
  (symptoms : list string) (top_n : Z) (data : dataset) :
  find_symptom_indices symptoms (symptom_columns data) <> [] ->
  0 < top_n ->
  let indices := find_symptom_indices symptoms (symptom_columns data) in
  let records := unsorted_results indices data in
  let out := diagnose symptoms top_n data in
  Z.of_nat (length out) <= top_n /\
  sorted_desc score out /\
  (forall i j ri rj, (i < j)%nat -> out !! i = Some ri -> out !! j = Some rj ->
                     (score rj <= score ri)%Q) /\
  out = take (Z.to_nat top_n) (sort_desc score records) /\
  sort_desc score records ≡ₚ records /\
  (forall k, with_key score k (sort_desc score records) =
             with_key score k records) /\
  disease <$> records = encounter_order indices (case_rows data).
Proof.
  intros Hne Hpos indices records out.
  assert (out = py_prefix (sort_desc score records) top_n) as Hout.
  { subst out records indices. unfold diagnose.
    destruct (find_symptom_indices symptoms (symptom_columns data));
      [by destruct Hne | reflexivity]. }
  assert (sorted_desc score out) as Hsorted.
  { rewrite Hout, py_prefix_take by lia.
    apply sorted_desc_take, sort_desc_sorted. }
  split; [rewrite Hout; apply py_prefix_length; lia|].
  split; [done|].
  split; [intros i j ri rj; by apply sorted_desc_lookup|].
  split; [rewrite Hout; apply py_prefix_take; lia|].
  split; [apply sort_desc_perm|].
  split; [intros k; apply sort_desc_stable|].
  apply unsorted_results_order.
Qed.

Lemma C8_sorted_stable_top_n_witness :
  let data := {| symptom_columns := ["fever"; "cough"];
                 case_rows := [("cold", [0; 1]); ("flu", [1; 1]);
                               ("cold", [1; 1])] |} in
  find_symptom_indices ["cough"; "fever"] (symptom_columns data) <> [] /\
  0 < 1 /\
  Z.of_nat (length (diagnose ["cough"; "fever"] 1 data)) <= 1 /\
  sorted_desc score (diagnose ["cough"; "fever"] 1 data).
Proof.
  intros data.
  assert (find_symptom_indices ["cough"; "fever"] (symptom_columns data) <> [])
    as Hne by (vm_compute; discriminate).
  assert (0 < 1) as Hpos by lia.
  split; [exact Hne|]. split; [exact Hpos|].
  destruct (C8_sorted_stable_top_n ["cough"; "fever"] 1 data Hne Hpos)
    as (Hlen & Hsorted & _).
  split; [exact Hlen | exact Hsorted].
Defined.

(** Disease A comes first in the dataset, but its first row does not match
    the query; the first matching row is one of B. Both diseases end with the
    score 30.01, and B is returned before A. *)
Lemma C8_counterexample :
  let data := {| symptom_columns := ["fever"];
                 case_rows := [("A", [0]); ("B", [1]);
                               ("A", [1]); ("B", [0])] |} in
  disease <$> diagnose ["fever"] 10 data = ["B"; "A"] /\
  score <$> diagnose ["fever"] 10 data = [30.01%Q; 30.01%Q] /\
  nub (diseases data) = ["A"; "B"] /\
  ~ ties_in_dataset_order data (diagnose ["fever"] 10 data).
Proof.
  intros data.
  split; [by vm_compute|]. split; [by vm_compute|]. split; [by vm_compute|].
  intros H.
  assert (exists ri rj, diagnose ["fever"] 10 data !! 0%nat = Some ri /\
                        diagnose ["fever"] 10 data !! 1%nat = Some rj /\
                        (score ri == score rj)%Q /\
                        index (disease ri) (diseases data) = Some 1%nat /\
                        index (disease rj) (diseases data) = Some 0%nat)
    as (ri & rj & Hi & Hj & Heq & Hpi & Hpj).
  { vm_compute. eexists _, _. repeat split. }
  pose proof (H 0%nat 1%nat ri rj 1%nat 0%nat (Nat.lt_0_1) Hi Hj Heq Hpi Hpj).
  lia.
Qed.

(** ** Rows shorter than the header *)

(** An index beyond the end of a row is skipped: it is not read and does not
    count as a match. *)
Lemma row_has_beyond (row : list Z) (idx : nat) :
  (length row <= idx)%nat -> row_has row idx = false.
Proof.
  intros H. unfold row_has.
  destruct (Nat.ltb_spec idx (length row)); [lia|done].
Qed.

Lemma count_matched_short_row (indices : list nat) (row : list Z) :
  count_matched indices row =
  count_matched (List.filter (fun idx => idx <? length row)%nat indices) row.
Proof.
  rewrite !count_matched_length. do 2 f_equal.
  induction indices as [|i r IH]; simpl; [done|].
  destruct (Nat.ltb_spec i (length row)) as [Hlt|Hge]; simpl.
  - destruct (row_has row i); by rewrite IH.
  - by rewrite row_has_beyond.
Qed.

End EngineA_Props.

(** * Engine B: properties *)

Module EngineB_Props.
Import EngineB.

(** ** [match_expectation] *)

Section MatchFacts.
Variable float_of_str : string -> option Q.

Lemma py_float_not_none (actual : pyval) (x : Q) :
  py_float float_of_str actual = Ok (Some x) -> is_none actual = false.
Proof. by destruct actual. Qed.

Lemma match_expectation_none (expected : pyval) :
  match_expectation float_of_str expected PNone = Ok 0.0%Q.
Proof. reflexivity. Qed.

(** A two-number list with an actual value that [float] accepts goes to the
    range branch. *)
Lemma match_expectation_range e0 e1 min_val max_val actual x :
  num_of e0 = Some min_val -> num_of e1 = Some max_val ->
  py_float float_of_str actual = Ok (Some x) ->
  match_expectation float_of_str (PList [e0; e1]) actual =
  match_range e0 e1 min_val max_val x.
Proof.
  intros H0 H1 Hx. unfold match_expectation.
  by rewrite (py_float_not_none _ _ Hx), H0, H1, Hx.
Qed.

Lemma match_expectation_not_range (l : list pyval) (actual : pyval) :
  is_range l = false -> is_none actual = false ->
  match_expectation float_of_str (PList l) actual = match_member l actual.
Proof.
  intros Hl Ha. unfold match_expectation. rewrite Ha.
  destruct l as [|e0 [|e1 [|e2 l]]]; try done.
  simpl in Hl. by destruct (num_of e0), (num_of e1).
Qed.

(** The three cases of the range branch. *)
Lemma match_range_below e0 e1 min_val max_val x :
  (x < min_val)%Q ->
  match_range e0 e1 min_val max_val x =
  m ← float_operand e0 min_val;
  q ← py_div (m - x) m; Ok (py_max 0.0 (1.0 - q * 0.5))%Q.
Proof.
  intros Hlt. unfold match_range.
  assert (Qle_bool min_val x = false) as ->.
  { apply not_true_iff_false. rewrite Qle_bool_iff. by apply Qlt_not_le. }
  simpl. by rewrite (proj2 (Qltb_lt _ _) Hlt).
Qed.

Lemma match_range_above e0 e1 min_val max_val x :
  (min_val <= x)%Q -> (max_val < x)%Q ->
  match_range e0 e1 min_val max_val x =
  m ← float_operand e1 max_val;
  q ← py_div (x - m) m; Ok (py_max 0.0 (1.0 - q * 0.5))%Q.
Proof.
  intros Hle Hlt. unfold match_range.
  rewrite (proj2 (Qle_bool_iff _ _) Hle). simpl.
  assert (Qle_bool x max_val = false) as ->.
  { apply not_true_iff_false. rewrite Qle_bool_iff. by apply Qlt_not_le. }
  by rewrite (proj2 (Qltb_ge _ _) Hle).
Qed.

Lemma match_range_inside e0 e1 min_val max_val x :
  (min_val <= x)%Q -> (x <= max_val)%Q ->
  match_range e0 e1 min_val max_val x = Ok 1.0%Q.
Proof.
  intros H1 H2. unfold match_range.
  by rewrite (proj2 (Qle_bool_iff _ _) H1), (proj2 (Qle_bool_iff _ _) H2).
Qed.

Lemma float_operand_fits (v : pyval) (x : Q) :
  too_large v = false -> float_operand v x = Ok x.
Proof. intros H. unfold float_operand. by rewrite H. Qed.

Lemma float_operand_too_large (v : pyval) (x : Q) :
  too_large v = true -> float_operand v x = Raise OverflowError.
Proof. intros H. unfold float_operand. by rewrite H. Qed.

(** C2. [match_expectation] scores an absent actual value 0; on a list of
    two numbers [min, max] and an actual value that [float] converts it
    scores 1 inside the range, and outside, when the bound on that side is
    not zero and is no [int] beyond the range of the floats,
    [max(0, 1 - distance / boundary * 0.5)] with the gap to that bound and
    the bound itself; it scores 0 when [float] rejects the actual value with
    a [ValueError] or a [TypeError]; on any other list it scores 1 exactly on
    membership; on a Boolean expected value it reads a string as true when
    its lower case is [true], [yes] or [1], and compares. The four examples
    of the specification hold. *)
Theorem C2_match_expectation :
  (forall expected,
     match_expectation float_of_str expected PNone = Ok 0.0%Q) /\
  (forall e0 e1 min_val max_val actual,
     num_of e0 = Some min_val -> num_of e1 = Some max_val ->
     (forall x, py_float float_of_str actual = Ok (Some x) ->
        ((min_val <= x)%Q -> (x <= max_val)%Q ->
         match_expectation float_of_str (PList [e0; e1]) actual = Ok 1.0%Q) /\
        ((x < min_val)%Q -> ~ (min_val == 0)%Q -> too_large e0 = false ->
         match_expectation float_of_str (PList [e0; e1]) actual =
         Ok (py_max 0.0 (1.0 - (min_val - x) / min_val * 0.5))%Q) /\
        ((min_val <= x)%Q -> (max_val < x)%Q -> ~ (max_val == 0)%Q ->
         too_large e1 = false ->
         match_expectation float_of_str (PList [e0; e1]) actual =
         Ok (py_max 0.0 (1.0 - (x - max_val) / max_val * 0.5))%Q)) /\
     (py_float float_of_str actual = Ok None ->
      match_expectation float_of_str (PList [e0; e1]) actual = Ok 0.0%Q)) /\
  (forall l actual,
     is_range l = false -> is_none actual = false ->
     match_expectation float_of_str (PList l) actual =
     Ok (if py_in actual l then 1.0 else 0.0)%Q) /\
  (forall e s,
     match_expectation float_of_str (PBool e) (PStr s) =
     Ok (if Bool.eqb (bool_decide (lower s ∈ ["true"; "yes"; "1"])) e
         then 1.0 else 0.0)%Q) /\
  (forall e a,
     match_expectation float_of_str (PBool e) (PBool a) =
     Ok (if Bool.eqb a e then 1.0 else 0.0)%Q) /\
  match_expectation float_of_str
    (PList [PFloat 98.0; PFloat 100.4]) (PFloat 99.0) = Ok 1.0%Q /\
  (exists q,
     match_expectation float_of_str
       (PList [PFloat 98.0; PFloat 100.4]) (PFloat 105.0) = Ok q /\
     (0.0 < q)%Q /\ (q < 1.0)%Q) /\
  match_expectation float_of_str (PBool true) (PStr "yes") = Ok 1.0%Q /\
  match_expectation float_of_str
    (PList [PStr "mild"; PStr "severe"]) (PStr "moderate") = Ok 0.0%Q.
Proof.
  split; [apply match_expectation_none|].
  split.
  { intros e0 e1 min_val max_val actual H0 H1. split.
    - intros x Hx. rewrite (match_expectation_range _ _ _ _ _ _ H0 H1 Hx).
      split; [apply match_range_inside|]. split.
      + intros Hlt Hnz Hfit.
        rewrite match_range_below, float_operand_fits by done. simpl.
        by rewrite py_div_nonzero.
      + intros Hle Hlt Hnz Hfit.
        rewrite match_range_above, float_operand_fits by done. simpl.
        by rewrite py_div_nonzero.
    - intros Hx. unfold match_expectation. rewrite H0, H1, Hx.
      by destruct (is_none actual). }
  split.
  { intros l actual Hl Ha. rewrite match_expectation_not_range by done.
    unfold match_member. by destruct (py_in actual l). }
  split.
  { intros e s. unfold match_expectation. simpl.
    assert (truthy_token (lower s) =
            bool_decide (lower s ∈ ["true"; "yes"; "1"])) as ->; [|
      by destruct (Bool.eqb _ e)].
    unfold truthy_token. symmetry.
    destruct (String.eqb_spec (lower s) "true") as [->|H1]; [done|].
    destruct (String.eqb_spec (lower s) "yes") as [->|H2]; [done|].
    destruct (String.eqb_spec (lower s) "1") as [->|H3]; [done|].
    apply bool_decide_eq_false. rewrite !elem_of_cons, elem_of_nil. tauto. }
  split.
  { intros e a. unfold match_expectation. simpl. by destruct (Bool.eqb a e). }
  split; [reflexivity|].
  split.
  { eexists. split; [reflexivity|]. split; reflexivity. }
  split; reflexivity.
Qed.

End MatchFacts.

Section RaiseFacts.
Variable float_of_str : string -> option Q.

(** [match_expectation] raises exactly on a two-number list, when [float]
    raises [OverflowError] on the actual value, or accepts it and it lies
    outside the range on a side whose bound is an [int] beyond the range of
    the floats ([OverflowError]) or is zero ([ZeroDivisionError]). *)
Lemma match_expectation_raises expected actual e :
  match_expectation float_of_str expected actual = Raise e <->
  exists e0 e1 min_val max_val,
    expected = PList [e0; e1] /\
    num_of e0 = Some min_val /\ num_of e1 = Some max_val /\
    ((e = OverflowError /\ too_large actual = true) \/
     exists x,
       py_float float_of_str actual = Ok (Some x) /\
       (((x < min_val)%Q /\
         ((e = OverflowError /\ too_large e0 = true) \/
          (e = ZeroDivisionError /\ too_large e0 = false /\
           (min_val == 0)%Q))) \/
        ((min_val <= x)%Q /\ (max_val < x)%Q /\
         ((e = OverflowError /\ too_large e1 = true) \/
          (e = ZeroDivisionError /\ too_large e1 = false /\
           (max_val == 0)%Q))))).
Proof.
  split.
  - unfold match_expectation, match_member. intros H.
    destruct (is_none actual) eqn:Enone; [done|].
    destruct expected as [| | | | |l|]; try (repeat case_match; done).
    destruct l as [|e0 [|e1 [|e2 l]]]; try (repeat case_match; done).
    destruct (num_of e0) as [min_val|] eqn:H0; [|repeat case_match; done].
    destruct (num_of e1) as [max_val|] eqn:H1; [|repeat case_match; done].
    exists e0, e1, min_val, max_val. do 3 (split; [done|]).
    destruct (py_float float_of_str actual) as [[x|]|e'] eqn:Hx;
      simpl in H; [|done|].
    + right. exists x. split; [done|].
      destruct (Qlt_le_dec x min_val) as [Hlt|Hge].
      * left. split; [done|]. rewrite match_range_below in H by done.
        unfold float_operand in H.
        destruct (too_large e0); simpl in H; [left; by injection H as <-|].
        right. unfold py_div in H.
        destruct (Qeq_bool min_val 0) eqn:Ez; simpl in H; [|done].
        injection H as <-. split; [done|]. split; [done|].
        by apply Qeq_bool_iff.
      * destruct (Qlt_le_dec max_val x) as [Hlt|Hle];
          [|by rewrite match_range_inside in H].
        right. split; [done|]. split; [done|].
        rewrite match_range_above in H by done.
        unfold float_operand in H.
        destruct (too_large e1); simpl in H; [left; by injection H as <-|].
        right. unfold py_div in H.
        destruct (Qeq_bool max_val 0) eqn:Ez; simpl in H; [|done].
        injection H as <-. split; [done|]. split; [done|].
        by apply Qeq_bool_iff.
    + left. injection H as <-. unfold py_float in Hx.
      destruct actual; try done;
        by (destruct (too_large _) eqn:E; [injection Hx as <-|]).
  - intros (e0 & e1 & min_val & max_val & -> & H0 & H1 & Hcase).
    destruct Hcase as [[-> Hlarge]|(x & Hx & Hcase)].
    + unfold match_expectation. rewrite H0, H1.
      destruct actual as [| |n| | | |]; try done.
      unfold py_float. by rewrite Hlarge.
    + rewrite (match_expectation_range _ _ _ _ _ _ _ H0 H1 Hx).
      destruct Hcase as [[Hlt Hc]|(Hle & Hlt & Hc)].
      * rewrite match_range_below by done.
        destruct Hc as [[-> Hl]|(-> & Hl & Hz)].
        -- by rewrite float_operand_too_large.
        -- rewrite float_operand_fits by done. simpl.
           by rewrite py_div_zero.
      * rewrite match_range_above by done.
        destruct Hc as [[-> Hl]|(-> & Hl & Hz)].
        -- by rewrite float_operand_too_large.
        -- rewrite float_operand_fits by done. simpl.
           by rewrite py_div_zero.
Qed.

(** An [int] beyond the range of the floats as the actual value of a range:
    [float] raises [OverflowError], which the [try] does not catch, and so
    does [diagnose] for a report that holds it. *)
Lemma match_expectation_overflow :
  let profiles :=
    [("Migraine",
      {| dd_common_name := None; dd_category := None; dd_prevalence := None;
         dd_symptoms :=
           [("Headache",
             {| sc_importance := Some 0.9%Q; sc_note := None;
                sc_expectations := [("intensity", PList [PInt 1; PInt 10])]
             |})] |})] in
  let patient : gmap string (gmap string pyval) :=
    {[ "Headache" := {[ "intensity" := PInt (10 ^ 400) ]} ]} in
  match_expectation float_of_str (PList [PInt 1; PInt 10]) (PInt (10 ^ 400)) =
    Raise OverflowError /\
  match_expectation float_of_str
    (PList [PInt (10 ^ 400); PInt (10 ^ 401)]) (PInt 5) =
    Raise OverflowError /\
  match_expectation float_of_str (PList [PInt 1; PInt (10 ^ 400)]) (PInt 5) =
    Ok 1.0%Q /\
  diagnose float_of_str profiles patient = Raise OverflowError.
Proof. repeat split; by vm_compute. Qed.

(** C5, at the failing input. On the range [0, 10] and the actual value -1,
    and on the range [-5, 0] and the actual value 3, [match_expectation]
    raises [ZeroDivisionError]; so do [diagnose] and
    [get_differential_diagnosis] for a profile that expects an intensity in
    [0, 10] and a patient who reports the intensity -1. *)
Theorem C5_zero_bound_raises :
  let profiles :=
    [("Migraine",
      {| dd_common_name := None; dd_category := None; dd_prevalence := None;
         dd_symptoms :=
           [("Headache",
             {| sc_importance := Some 0.9%Q; sc_note := None;
                sc_expectations := [("intensity", PList [PInt 0; PInt 10])]
             |})] |})] in
  let patient : gmap string (gmap string pyval) :=
    {[ "Headache" := {[ "intensity" := PInt (-1) ]} ]} in
  match_expectation float_of_str (PList [PInt 0; PInt 10]) (PInt (-1)) =
    Raise ZeroDivisionError /\
  match_expectation float_of_str (PList [PInt (-5); PInt 0]) (PInt 3) =
    Raise ZeroDivisionError /\
  diagnose float_of_str profiles patient = Raise ZeroDivisionError /\
  get_differential_diagnosis float_of_str profiles patient 5 10.0 =
    Raise ZeroDivisionError.
Proof. repeat split; reflexivity. Qed.

End RaiseFacts.

(** ** Filtering and truncating the diagnoses *)

Lemma sorted_desc_filter {A} (key : A -> Q) (p : A -> bool) (l : list A) :
  sorted_desc key l -> sorted_desc key (List.filter p l).
Proof.
  induction l as [|x r IH]; simpl; [done|].
  intros [Hall Hr]. destruct (p x); simpl; [|by apply IH].
  split; [|by apply IH].
  rewrite Forall_forall in *. intros y Hy. apply Hall.
  apply list_elem_of_In in Hy. apply List.filter_In in Hy as [Hy _].
  by apply list_elem_of_In.
Qed.

Section DiagnoseFacts.
Variable float_of_str : string -> option Q.

(** C7. For [top_n >= 1], when [diagnose] returns the list [all], which is
    sorted by non-increasing confidence, [get_differential_diagnosis]
    returns the first [top_n] entries of the entries of [all] whose
    confidence is at least [min_confidence]: at most [top_n] entries, each of
    confidence at least [min_confidence], still sorted. When [diagnose]
    raises, so does [get_differential_diagnosis]. *)
Theorem C7_top_differential
  (profiles : list (string * disease_data))
  (patient : gmap string (gmap string pyval)) (top_n : Z) (min_confidence : Q) :
  1 <= top_n ->
  match diagnose float_of_str profiles patient with
  | Ok all =>
      sorted_desc confidence all /\
      exists out,
        get_differential_diagnosis float_of_str profiles patient
          top_n min_confidence = Ok out /\
        Z.of_nat (length out) <= top_n /\
        (forall d, d ∈ out -> (min_confidence <= confidence d)%Q) /\
        out = take (Z.to_nat top_n)
                (List.filter (fun d => Qle_bool min_confidence (confidence d))
                   all) /\
        sorted_desc confidence out
  | Raise e =>
      get_differential_diagnosis float_of_str profiles patient
        top_n min_confidence = Raise e
  end.
Proof.
  intros Hn. unfold get_differential_diagnosis.
  destruct (diagnose float_of_str profiles patient) as [all|e] eqn:E; [|done].
  assert (sorted_desc confidence all) as Hsorted.
  { unfold diagnose in E.
    destruct (collect float_of_str patient profiles) as [rs|]; [|done].
    injection E as <-. apply sort_desc_sorted. }
  split; [done|]. eexists. split; [reflexivity|].
  rewrite py_prefix_take by lia.
  split; [rewrite length_take; lia|].
  split.
  - intros d Hd. apply elem_of_take in Hd as (i & Hi & _).
    apply list_elem_of_lookup_2, list_elem_of_In, List.filter_In in Hi.
    destruct Hi as [_ Hi]. by apply Qle_bool_iff in Hi.
  - split; [done|]. by apply sorted_desc_take, sorted_desc_filter.
Qed.

(** ** Defaults *)

Lemma score_symptoms_fill patient t entries :
  score_symptoms float_of_str patient t (prod_map id fill_entry <$> entries) =
  score_symptoms float_of_str patient t entries.
Proof.
  revert t. induction entries as [|[s cfg] r IH]; intros t; [done|].
  cbn [fmap list_fmap score_symptoms].
  change (prod_map id fill_entry (s, cfg)) with (s, fill_entry cfg).
  assert (score_symptom float_of_str patient t (s, fill_entry cfg) =
          score_symptom float_of_str patient t (s, cfg)) as -> by reflexivity.
  destruct (score_symptom float_of_str patient t (s, cfg)); [apply IH|done].
Qed.

Lemma diagnose_disease_fill patient profile :
  diagnose_disease float_of_str patient (fill_defaults profile) =
  diagnose_disease float_of_str patient profile.
Proof.
  destruct profile as [name data]. unfold diagnose_disease, fill_defaults.
  cbn [fst snd dd_symptoms dd_common_name dd_category].
  destruct (dd_symptoms data) as [|entry entries] eqn:E; [done|].
  rewrite fmap_cons.
  change (prod_map id fill_entry entry :: (prod_map id fill_entry <$> entries))
    with (prod_map id fill_entry <$> entry :: entries).
  by rewrite score_symptoms_fill.
Qed.

(** C1 (as amended). The engine reads the importance of an entry with the
    default 0.5, as it reads the prevalence with the default 0.05 and the
    category with the default [General]: the profiles with these defaults
    written out give the same outcome as the profiles that lack the keys. *)
Theorem C1_importance_defaults
  (profiles : list (string * disease_data))
  (patient : gmap string (gmap string pyval)) :
  diagnose float_of_str (fill_defaults <$> profiles) patient =
  diagnose float_of_str profiles patient.
Proof.
  unfold diagnose. f_equal.
  induction profiles as [|p r IH]; [done|].
  cbn [fmap list_fmap collect]. by rewrite diagnose_disease_fill, IH.
Qed.

End DiagnoseFacts.

(** ** A profile with one negative entry *)

Lemma py_min_ge (a x : Q) : (a <= x)%Q -> py_min a x = a.
Proof. intros H. unfold py_min. by rewrite (proj2 (Qltb_ge _ _) H). Qed.

Lemma py_min_lt (a x : Q) : (x < a)%Q -> py_min a x = x.
Proof. intros H. unfold py_min. by rewrite (proj2 (Qltb_lt _ _) H). Qed.

Section NegativeFacts.
Variable float_of_str : string -> option Q.

Lemma collect_app patient (l1 l2 : list (string * disease_data)) :
  collect float_of_str patient (l1 ++ l2) =
  r1 ← collect float_of_str patient l1;
  r2 ← collect float_of_str patient l2;
  Ok (r1 ++ r2).
Proof.
  induction l1 as [|p l1 IH]; simpl.
  - by destruct (collect float_of_str patient l2).
  - destruct (diagnose_disease float_of_str patient p) as [r|]; simpl; [|done].
    rewrite IH.
    destruct (collect float_of_str patient l1) as [r1|]; simpl; [|done].
    destruct (collect float_of_str patient l2) as [r2|]; simpl; [|done].
    by destruct r.
Qed.

(** A disease whose loop body ends in [continue] leaves no trace. *)
Lemma diagnose_skip patient (pre post : list (string * disease_data)) p :
  diagnose_disease float_of_str patient p = Ok None ->
  diagnose float_of_str (pre ++ p :: post) patient =
  diagnose float_of_str (pre ++ post) patient.
Proof.
  intros H. unfold diagnose. rewrite !collect_app. simpl. rewrite H. simpl.
  destruct (collect float_of_str patient pre) as [r1|]; simpl; [|done].
  by destruct (collect float_of_str patient post).
Qed.

(** A disease whose loop body appends a record has it in the output. *)
Lemma diagnose_keep patient (pre post : list (string * disease_data)) p r out :
  diagnose_disease float_of_str patient p = Ok (Some r) ->
  diagnose float_of_str (pre ++ p :: post) patient = Ok out ->
  r ∈ out.
Proof.
  intros H. unfold diagnose. rewrite collect_app. simpl. rewrite H. simpl.
  destruct (collect float_of_str patient pre) as [r1|]; simpl; [|done].
  destruct (collect float_of_str patient post) as [r2|]; simpl; [|done].
  intros [= <-]. rewrite sort_desc_perm.
  apply elem_of_app. right. by left.
Qed.

(** C4. A disease has the single symptom entry [symptom], of importance
    -0.6. For a report without [symptom] the disease is returned with one
    negative-match record and no other evidence; its confidence before
    rounding is [min(100, 100 * (1 + prevalence * 0.2))], and so is the
    confidence returned when the prevalence is not negative. For a report
    with [symptom] the confidence computed is 0, no evidence of any kind is
    recorded, and the disease is left out: the outcome is that of the
    profiles without it. *)
Theorem C4_negative_importance
  (name : string) (data : disease_data) (symptom : string)
  (cfg : symptom_config) (q : Q)
  (patient : gmap string (gmap string pyval)) :
  dd_symptoms data = [(symptom, cfg)] ->
  sc_importance cfg = Some q -> (q == -0.6)%Q ->
  let prevalence := get_prevalence data in
  (patient !! symptom = None ->
   exists t r,
     score_symptoms float_of_str patient empty_tally (dd_symptoms data) = Ok t /\
     (confidence_of prevalence t ==
      py_min 100 (100 * (1 + prevalence * 0.2)))%Q /\
     diagnose_disease float_of_str patient (name, data) = Ok (Some r) /\
     diagnose float_of_str [(name, data)] patient = Ok [r] /\
     disease r = name /\
     ((0 <= prevalence)%Q ->
      (confidence r == py_min 100 (100 * (1 + prevalence * 0.2)))%Q) /\
     negative_matches r =
       [{| ne_symptom := symptom;
           ne_note := default (default_note symptom) (sc_note cfg) |}] /\
     matched_symptoms r = [] /\ partially_matched r = [] /\
     forall pre post out,
       diagnose float_of_str (pre ++ (name, data) :: post) patient = Ok out ->
       r ∈ out) /\
  (is_Some (patient !! symptom) ->
   exists t,
     score_symptoms float_of_str patient empty_tally (dd_symptoms data) = Ok t /\
     (confidence_of prevalence t == 0)%Q /\
     t_matched t = [] /\ t_partial t = [] /\ t_negative t = [] /\
     diagnose_disease float_of_str patient (name, data) = Ok None /\
     diagnose float_of_str [(name, data)] patient = Ok [] /\
     forall pre post,
       diagnose float_of_str (pre ++ (name, data) :: post) patient =
       diagnose float_of_str (pre ++ post) patient).
Proof.
  intros Hsym Himp Hq prevalence. subst prevalence.
  assert (Qltb q 0 = true) as Hneg.
  { apply Qltb_lt. rewrite Hq. reflexivity. }
  assert (Qabs q == 0.6)%Q as Habs by (rewrite Hq; reflexivity).
  split.
  - intros Hnone.
    assert (score_symptoms float_of_str patient empty_tally (dd_symptoms data) =
            Ok {| total_score := (0.0 + Qabs q)%Q;
                  max_possible_score := (0.0 + Qabs q)%Q;
                  t_matched := []; t_missing := []; t_partial := [];
                  t_negative :=
                    [{| ne_symptom := symptom;
                        ne_note := default (default_note symptom)
                                     (sc_note cfg) |}] |}) as Ht.
    { rewrite Hsym. simpl. unfold get_importance. rewrite Himp. simpl.
      by rewrite Hneg, Hnone. }
    assert (forall p,
      (py_min 100 ((0.0 + Qabs q) / (0.0 + Qabs q) * 100 * (1.0 + p * 0.2)) ==
       py_min 100 (100 * (1 + p * 0.2)))%Q /\
      ((0 <= p)%Q ->
       py_min 100 ((0.0 + Qabs q) / (0.0 + Qabs q) * 100 * (1.0 + p * 0.2)) =
       100%Q /\ py_min 100 (100 * (1 + p * 0.2))%Q = 100%Q)) as Hmin.
    { intros p.
      assert ((0.0 + Qabs q) / (0.0 + Qabs q) * 100 * (1.0 + p * 0.2) ==
              100 * (1 + p * 0.2))%Q as Heq.
      { rewrite Habs. field. }
      split.
      - unfold py_min, Qltb. rewrite Heq.
        by destruct (Qle_bool 100 (100 * (1 + p * 0.2))).
      - intros Hp. split; apply py_min_ge; [rewrite Heq|]; lra. }
    assert (exists r,
      diagnose_disease float_of_str patient (name, data) = Ok (Some r) /\
      r = {| disease := name;
             common_name := default name (dd_common_name data);
             category := default "General" (dd_category data);
             confidence :=
               py_round_n
                 (confidence_of (get_prevalence data)
                    {| total_score := (0.0 + Qabs q)%Q;
                       max_possible_score := (0.0 + Qabs q)%Q;
                       t_matched := []; t_missing := []; t_partial := [];
                       t_negative :=
                         [{| ne_symptom := symptom;
                             ne_note := default (default_note symptom)
                                          (sc_note cfg) |}] |}) 1;
             matched_symptoms := []; partially_matched := [];
             missing_symptoms := [];
             negative_matches :=
               [{| ne_symptom := symptom;
                   ne_note := default (default_note symptom) (sc_note cfg) |}];
             explanation := default (default_note symptom) (sc_note cfg) |})
      as (r & Hr & Hrec).
    { eexists. split; [|reflexivity].
      unfold diagnose_disease. rewrite Hsym at 1. rewrite Ht. reflexivity. }
    eexists _, r. split; [exact Ht|]. split.
    { unfold confidence_of. cbn [max_possible_score total_score].
      assert (Qltb 0 (0.0 + Qabs q) = true) as ->
        by (apply Qltb_lt; rewrite Habs; reflexivity).
      apply Hmin. }
    split; [exact Hr|].
    split.
    { unfold diagnose, collect. rewrite Hr. reflexivity. }
    split; [by rewrite Hrec|].
    split; [|split; [by rewrite Hrec|split; [by rewrite Hrec|split;
      [by rewrite Hrec|intros pre post out; by apply diagnose_keep]]]].
    intros Hp. rewrite Hrec. cbn [confidence]. unfold confidence_of.
    cbn [max_possible_score total_score].
    assert (Qltb 0 (0.0 + Qabs q) = true) as ->
      by (apply Qltb_lt; rewrite Habs; reflexivity).
    destruct (Hmin (get_prevalence data)) as [_ Hm].
    destruct (Hm Hp) as [-> ->].
    reflexivity.
  - intros [d Hd].
    assert (score_symptoms float_of_str patient empty_tally (dd_symptoms data) =
            Ok {| total_score := 0.0%Q;
                  max_possible_score := (0.0 + Qabs q)%Q;
                  t_matched := []; t_missing := []; t_partial := [];
                  t_negative := [] |}) as Ht.
    { rewrite Hsym. simpl. unfold get_importance. rewrite Himp. simpl.
      by rewrite Hneg, Hd. }
    assert (diagnose_disease float_of_str patient (name, data) = Ok None)
      as Hnone.
    { unfold diagnose_disease. rewrite Hsym at 1. by rewrite Ht. }
    eexists. split; [exact Ht|]. split.
    { unfold confidence_of. cbn [max_possible_score total_score].
      assert (Qltb 0 (0.0 + Qabs q) = true) as ->
        by (apply Qltb_lt; rewrite Habs; reflexivity).
      assert (0.0 / (0.0 + Qabs q) * 100 * (1.0 + get_prevalence data * 0.2)
              == 0)%Q as Hz by (rewrite Habs; field).
      rewrite py_min_lt; [done | rewrite Hz; reflexivity]. }
    repeat (split; [done|]). split.
    { unfold diagnose, collect. by rewrite Hnone. }
    intros pre post. by apply diagnose_skip.
Qed.

End NegativeFacts.

(** ** The attribute [present] *)

Section PresentFacts.
Variable float_of_str : string -> option Q.

Lemma match_loop_agree exps (d1 d2 : gmap string pyval) tw ws :
  (forall k, k ∈ exps.*1 -> d1 !! k = d2 !! k) ->
  match_loop float_of_str exps d1 tw ws = match_loop float_of_str exps d2 tw ws.
Proof.
  revert tw ws. induction exps as [|[key ev] r IH]; intros tw ws H; [done|].
  cbn [match_loop]. rewrite (H key) by (simpl; by left).
  destruct (match_expectation float_of_str ev (default PNone (d2 !! key)));
    simpl; [|done].
  apply IH. intros k Hk. apply H. simpl. by right.
Qed.

Lemma calculate_agree cfg (d1 d2 : gmap string pyval) :
  (forall k, k ∈ (sc_expectations cfg).*1 -> d1 !! k = d2 !! k) ->
  calculate_symptom_match_score float_of_str cfg d1 =
  calculate_symptom_match_score float_of_str cfg d2.
Proof.
  intros H. unfold calculate_symptom_match_score.
  destruct (sc_expectations cfg) as [|e r]; [done|].
  by rewrite (match_loop_agree _ d1 d2).
Qed.

Lemma delete_present_agree (d1 d2 : gmap string pyval) (k : string) :
  delete "present" d1 = delete "present" d2 -> k <> "present" ->
  d1 !! k = d2 !! k.
Proof.
  intros Hdel Hk.
  rewrite <- (lookup_delete_ne d1 "present" k), Hdel by done.
  by apply lookup_delete_ne.
Qed.

Lemma score_symptom_agree (p1 p2 : gmap string (gmap string pyval)) t s cfg :
  same_but_present (p1 !! s) (p2 !! s) ->
  p1 !! s = p2 !! s \/ "present" ∉ (sc_expectations cfg).*1 ->
  score_symptom float_of_str p1 t (s, cfg) =
  score_symptom float_of_str p2 t (s, cfg).
Proof.
  intros Hsame Hkey. unfold score_symptom.
  destruct (p1 !! s) as [d1|] eqn:E1, (p2 !! s) as [d2|] eqn:E2;
    simpl in Hsame; try done.
  assert (calculate_symptom_match_score float_of_str cfg d1 =
          calculate_symptom_match_score float_of_str cfg d2) as ->; [|done].
  destruct Hkey as [[= ->]|Hkey]; [done|].
  apply calculate_agree. intros k Hk.
  apply delete_present_agree; [done|]. by intros ->.
Qed.

Lemma score_symptoms_agree (p1 p2 : gmap string (gmap string pyval)) entries t :
  (forall s, same_but_present (p1 !! s) (p2 !! s)) ->
  (forall s cfg, (s, cfg) ∈ entries ->
                 p1 !! s = p2 !! s \/ "present" ∉ (sc_expectations cfg).*1) ->
  score_symptoms float_of_str p1 t entries =
  score_symptoms float_of_str p2 t entries.
Proof.
  intros Hsame. revert t.
  induction entries as [|[s cfg] r IH]; intros t Hkey; [done|].
  cbn [score_symptoms].
  rewrite (score_symptom_agree p1 p2 t s cfg (Hsame s)).
  - destruct (score_symptom float_of_str p2 t (s, cfg)); simpl; [|done].
    apply IH. intros s' cfg' Hin. apply Hkey. by right.
  - apply Hkey. by left.
Qed.

(** C10. Two patient reports have the same symptoms, and for each symptom
    the same attributes but for [present], which may differ in value or be
    missing in one of them. When every symptom entry of a profile is for a
    symptom the two reports describe alike, or has no expectation under the
    key [present], the two reports have the same outcome, of [diagnose] and
    of [get_differential_diagnosis]. *)
Theorem C10_present_value_ignored
  (profiles : list (string * disease_data))
  (p1 p2 : gmap string (gmap string pyval)) :
  (forall s, same_but_present (p1 !! s) (p2 !! s)) ->
  (forall name data s cfg,
     (name, data) ∈ profiles -> (s, cfg) ∈ dd_symptoms data ->
     p1 !! s = p2 !! s \/ "present" ∉ (sc_expectations cfg).*1) ->
  diagnose float_of_str profiles p1 = diagnose float_of_str profiles p2 /\
  forall top_n min_confidence,
    get_differential_diagnosis float_of_str profiles p1 top_n min_confidence =
    get_differential_diagnosis float_of_str profiles p2 top_n min_confidence.
Proof.
  intros Hsame Hkey.
  assert (diagnose float_of_str profiles p1 = diagnose float_of_str profiles p2)
    as Hd.
  { unfold diagnose. f_equal.
    induction profiles as [|[name data] r IH]; [done|].
    cbn [collect].
    assert (diagnose_disease float_of_str p1 (name, data) =
            diagnose_disease float_of_str p2 (name, data)) as ->.
    { unfold diagnose_disease.
      destruct (dd_symptoms data) as [|e es] eqn:E; [done|].
      rewrite (score_symptoms_agree p1 p2 (e :: es)); [done|done|].
      intros s cfg Hin. apply (Hkey name data); [by left | by rewrite E]. }
    rewrite IH; [done|].
    intros name' data' s cfg Hin. apply (Hkey name' data'). by right. }
  split; [done|]. intros top_n min_confidence.
  unfold get_differential_diagnosis. by rewrite Hd.
Qed.

End PresentFacts.

(** ** Instances *)

Lemma C2_match_expectation_witness :
  (5 < 10)%Q /\ ~ (10 == 0)%Q /\ (10 <= 30)%Q /\ (20 < 30)%Q /\
  ~ (20 == 0)%Q /\ (10 <= 15)%Q /\ (15 <= 20)%Q /\
  too_large (PInt 10) = false /\ too_large (PInt 20) = false /\
  match_expectation decimal_float (PList [PInt 10; PInt 20]) (PStr " 5 ") =
    Ok (py_max 0.0 (1.0 - (10 - 5) / 10 * 0.5))%Q /\
  match_expectation decimal_float (PList [PInt 10; PInt 20]) (PFloat 30) =
    Ok (py_max 0.0 (1.0 - (30 - 20) / 20 * 0.5))%Q /\
  match_expectation decimal_float (PList [PInt 10; PInt 20]) (PStr "15") =
    Ok 1.0%Q /\
  match_expectation decimal_float (PList [PInt 10; PInt 20]) (PStr "high") =
    Ok 0.0%Q /\
  match_expectation decimal_float (PList [PStr "dry"; PStr "wet"; PInt 3])
    (PFloat 3.0) = Ok 1.0%Q.
Proof.
  assert (5 < 10)%Q as H1 by reflexivity.
  assert (~ (10 == 0)%Q) as H2 by (intros H; discriminate H).
  assert (10 <= 30)%Q as H3 by (intros H; discriminate H).
  assert (20 < 30)%Q as H4 by reflexivity.
  assert (~ (20 == 0)%Q) as H5 by (intros H; discriminate H).
  assert (10 <= 15)%Q as H6 by (intros H; discriminate H).
  assert (15 <= 20)%Q as H7 by (intros H; discriminate H).
  assert (too_large (PInt 10) = false) as H8 by reflexivity.
  assert (too_large (PInt 20) = false) as H9 by reflexivity.
  repeat (split; [assumption|]).
  destruct (C2_match_expectation decimal_float) as (_ & Hrange & Hlist & _).
  split.
  { destruct (Hrange (PInt 10) (PInt 20) 10%Q 20%Q (PStr " 5 ")
                eq_refl eq_refl) as [Hx _].
    exact (proj1 (proj2 (Hx 5%Q eq_refl)) H1 H2 H8). }
  split.
  { destruct (Hrange (PInt 10) (PInt 20) 10%Q 20%Q (PFloat 30)
                eq_refl eq_refl) as [Hx _].
    exact (proj2 (proj2 (Hx 30%Q eq_refl)) H3 H4 H5 H9). }
  split.
  { destruct (Hrange (PInt 10) (PInt 20) 10%Q 20%Q (PStr "15")
                eq_refl eq_refl) as [Hx _].
    exact (proj1 (Hx 15%Q eq_refl) H6 H7). }
  split.
  { destruct (Hrange (PInt 10) (PInt 20) 10%Q 20%Q (PStr "high")
                eq_refl eq_refl) as [_ Hnone].
    exact (Hnone eq_refl). }
  exact (Hlist [PStr "dry"; PStr "wet"; PInt 3] (PFloat 3.0) eq_refl eq_refl).
Defined.

Lemma C7_top_differential_witness :
  let profiles :=
    [("Cold",
      {| dd_common_name := None; dd_category := None; dd_prevalence := None;
         dd_symptoms :=
           [("Cough", {| sc_importance := Some 0.8%Q; sc_note := None;
                         sc_expectations := [] |})] |});
     ("Flu",
      {| dd_common_name := Some "Influenza"; dd_category := None;
         dd_prevalence := Some 0.1%Q;
         dd_symptoms :=
           [("Cough", {| sc_importance := Some 0.5%Q; sc_note := None;
                         sc_expectations := [] |});
            ("Fever", {| sc_importance := Some 0.9%Q; sc_note := None;
                         sc_expectations := [] |})] |})] in
  let patient : gmap string (gmap string pyval) :=
    {[ "Cough" := {[ "present" := PBool true ]} ]} in
  1 <= 1 /\
  exists out,
    get_differential_diagnosis decimal_float profiles patient 1 10.0 = Ok out /\
    Z.of_nat (length out) <= 1 /\
    forall d, d ∈ out -> (10.0 <= confidence d)%Q.
Proof.
  intros profiles patient.
  assert (1 <= 1) as H1 by lia.
  split; [exact H1|].
  pose proof (C7_top_differential decimal_float profiles patient 1 10.0%Q H1)
    as H.
  destruct (diagnose decimal_float profiles patient) as [all|e] eqn:E.
  - destruct H as (_ & out & Hout & Hlen & Hconf & _).
    exists out. split; [exact Hout|]. split; [exact Hlen | exact Hconf].
  - vm_compute in E. discriminate E.
Defined.

Lemma C4_negative_importance_witness :
  let cfg := {| sc_importance := Some (-0.6)%Q; sc_note := None;
                sc_expectations := [] |} in
  let data := {| dd_common_name := None; dd_category := None;
                 dd_prevalence := Some 0.3%Q;
                 dd_symptoms := [("Cough", cfg)] |} in
  let absent : gmap string (gmap string pyval) :=
    {[ "Fever" := {[ "present" := PBool true ]} ]} in
  let reported : gmap string (gmap string pyval) :=
    {[ "Cough" := {[ "present" := PBool true ]} ]} in
  absent !! "Cough" = None /\ is_Some (reported !! "Cough") /\
  (-0.6 == -0.6)%Q /\ (0 <= get_prevalence data)%Q /\
  (exists r, diagnose decimal_float [("Strep", data)] absent = Ok [r] /\
             (confidence r ==
              py_min 100 (100 * (1 + get_prevalence data * 0.2)))%Q) /\
  diagnose decimal_float [("Strep", data)] reported = Ok [].
Proof.
  intros cfg data absent reported.
  assert (absent !! "Cough" = None) as Ha by reflexivity.
  assert (is_Some (reported !! "Cough")) as Hr by (eexists; reflexivity).
  assert (-0.6 == -0.6)%Q as Hq by reflexivity.
  assert (0 <= get_prevalence data)%Q as Hp by (intros H; discriminate H).
  repeat (split; [assumption|]).
  split.
  - destruct (C4_negative_importance decimal_float "Strep" data "Cough" cfg
                (-0.6)%Q absent eq_refl eq_refl Hq) as [Hout _].
    destruct (Hout Ha) as (t & r & _ & _ & _ & Hd & _ & Hc & _).
    exists r. split; [exact Hd | exact (Hc Hp)].
  - destruct (C4_negative_importance decimal_float "Strep" data "Cough" cfg
                (-0.6)%Q reported eq_refl eq_refl Hq) as [_ Hin].
    destruct (Hin Hr) as (t & _ & _ & _ & _ & _ & _ & Hd & _).
    exact Hd.
Defined.

Lemma C10_present_value_ignored_witness :
  let profiles :=
    [("Cold",
      {| dd_common_name := None; dd_category := None; dd_prevalence := None;
         dd_symptoms :=
           [("Cough",
             {| sc_importance := Some 0.8%Q; sc_note := None;
                sc_expectations := [("cough_type", PList [PStr "dry"])] |})]
      |})] in
  let p1 : gmap string (gmap string pyval) :=
    {[ "Cough" := {[ "present" := PBool false; "cough_type" := PStr "dry" ]} ]} in
  let p2 : gmap string (gmap string pyval) :=
    {[ "Cough" := {[ "cough_type" := PStr "dry" ]} ]} in
  same_but_present (p1 !! "Cough") (p2 !! "Cough") /\
  diagnose decimal_float profiles p1 = diagnose decimal_float profiles p2.
Proof.
  intros profiles p1 p2.
  assert (forall s, same_but_present (p1 !! s) (p2 !! s)) as Hsame.
  { intros s. subst p1 p2. destruct (decide (s = "Cough")) as [->|Hne].
    - rewrite !lookup_singleton_eq. cbn [same_but_present].
      by rewrite delete_insert_eq.
    - by rewrite !lookup_singleton_ne. }
  split; [exact (Hsame "Cough")|].
  refine (proj1 (C10_present_value_ignored decimal_float profiles p1 p2
                   Hsame _)).
  intros name data s cfg Hp Hs. right.
  apply list_elem_of_singleton in Hp. injection Hp as -> ->.
  apply list_elem_of_singleton in Hs. injection Hs as -> ->.
  compute_done.
Defined.

(** The entry of Cough has no importance. The engine scores it with the
    weight 0.5: Cough is half of the possible score 0.5 + 0.5, the confidence
    is 50 * 1.01, and the matched record carries the importance 50. *)
Lemma C1_counterexample :
  let profiles :=
    [("Cold",
      {| dd_common_name := None; dd_category := None; dd_prevalence := None;
         dd_symptoms :=
           [("Cough", {| sc_importance := None; sc_note := None;
                         sc_expectations := [] |});
            ("Fever", {| sc_importance := Some 0.5%Q; sc_note := None;
                         sc_expectations := [] |})] |})] in
  let patient : gmap string (gmap string pyval) :=
    {[ "Cough" := {[ "present" := PBool true ]} ]} in
  lacks_importance profiles /\
  diagnose decimal_float profiles patient =
    Ok [{| disease := "Cold"; common_name := "Cold"; category := "General";
           confidence := 50.5;
           matched_symptoms :=
             [{| me_symptom := "Cough"; me_match_quality := 100;
                 me_importance := 50 |}];
           partially_matched := []; missing_symptoms := [];
           negative_matches := [];
           explanation := "Strong match on: Cough" |}] /\
  ~ (lacks_importance profiles ->
     exists e, diagnose decimal_float profiles patient = Raise e).
Proof.
  intros profiles patient.
  assert (lacks_importance profiles) as Hlacks.
  { eexists "Cold", _, "Cough", _. split; [by left|]. split; [by left|done]. }
  split; [exact Hlacks|]. split; [by vm_compute|].
  intros H. destruct (H Hlacks) as [e He]. vm_compute in He. discriminate He.
Qed.

(** ** The exact-equality default *)

Section DefaultFacts.
Variable float_of_str : string -> option Q.

(** An expected value that is neither a list nor a Boolean is compared for
    equality, strings also without regard to case; no such comparison
    raises. *)
Lemma match_expectation_default expected actual :
  (forall l, expected <> PList l) -> (forall b, expected <> PBool b) ->
  is_none actual = false ->
  match_expectation float_of_str expected actual =
  Ok (if py_eqb expected actual then 1.0
      else match expected, actual with
           | PStr e, PStr a => if String.eqb (lower e) (lower a) then 1.0 else 0.0
           | _, _ => 0.0
           end)%Q.
Proof.
  intros Hl Hb Ha. unfold match_expectation. rewrite Ha.
  destruct expected; try done; try (by destruct (Hb b)); try (by destruct (Hl l));
    destruct (py_eqb _ actual); try done;
    destruct actual; try done.
  by destruct (String.eqb (lower s) (lower s0)).
Qed.

End DefaultFacts.

End EngineB_Props.

(** * Facts about the string helpers *)

Lemma lower_ascii_idem (c : ascii) : lower_ascii (lower_ascii c) = lower_ascii c.
Proof. destruct c as [[] [] [] [] [] [] [] []]; reflexivity. Qed.

Lemma is_space_lower (c : ascii) : is_space (lower_ascii c) = is_space c.
Proof. destruct c as [[] [] [] [] [] [] [] []]; reflexivity. Qed.

Lemma lower_idem (s : string) : lower (lower s) = lower s.
Proof.
  induction s as [|c r IH]; simpl; [done|]. by rewrite lower_ascii_idem, IH.
Qed.

Lemma lstrip_lower (s : string) : lstrip (lower s) = lower (lstrip s).
Proof.
  induction s as [|c r IH]; simpl; [done|].
  rewrite is_space_lower. by destruct (is_space c).
Qed.

Lemma rstrip_lower (s : string) : rstrip (lower s) = lower (rstrip s).
Proof.
  induction s as [|c r IH]; simpl; [done|].
  rewrite IH, is_space_lower.
  destruct (rstrip r); simpl; [by destruct (is_space c)|done].
Qed.

Lemma strip_lower (s : string) : strip (lower s) = lower (strip s).
Proof. unfold strip. by rewrite lstrip_lower, rstrip_lower. Qed.

Lemma rstrip_idem (s : string) : rstrip (rstrip s) = rstrip s.
Proof.
  induction s as [|c r IH]; simpl; [done|].
  destruct (rstrip r) as [|c' r'] eqn:E.
  - destruct (is_space c) eqn:Ec; simpl; [done|]. by rewrite Ec.
  - simpl in *. by rewrite IH.
Qed.

(** A string that does not begin with a blank keeps its first character
    when blanks are removed at its end. *)
Lemma lstrip_rstrip (s : string) : lstrip (rstrip (lstrip s)) = rstrip (lstrip s).
Proof.
  induction s as [|c r IH]; simpl; [done|].
  destruct (is_space c) eqn:Ec; [done|]. simpl.
  destruct (rstrip r); rewrite ?Ec; simpl; by rewrite Ec.
Qed.

Lemma strip_idem (s : string) : strip (strip s) = strip s.
Proof. unfold strip. by rewrite lstrip_rstrip, rstrip_idem. Qed.

(** * Facts about rounding *)

Lemma Qltb_proper (a b c d : Q) : (a == c)%Q -> (b == d)%Q -> Qltb a b = Qltb c d.
Proof. intros H1 H2. unfold Qltb. by rewrite H1, H2. Qed.

Lemma py_round_proper (x y : Q) : (x == y)%Q -> py_round x = py_round y.
Proof.
  intros H. unfold py_round. rewrite (Qfloor_comp _ _ H).
  rewrite (Qltb_proper (x - inject_Z (Qfloor y)) 0.5
                       (y - inject_Z (Qfloor y)) 0.5) by (by rewrite ?H).
  rewrite (Qltb_proper 0.5 (x - inject_Z (Qfloor y))
                       0.5 (y - inject_Z (Qfloor y))) by (by rewrite ?H).
  done.
Qed.

Lemma py_round_ge (k : Z) (x : Q) : (inject_Z k <= x)%Q -> k <= py_round x.
Proof.
  intros H. apply Qfloor_resp_le in H. rewrite Qfloor_Z in H.
  unfold py_round. repeat case_match; lia.
Qed.

Lemma py_round_le (k : Z) (x : Q) : (x <= inject_Z k)%Q -> py_round x <= k.
Proof.
  intros H. pose proof (Qfloor_resp_le _ _ H) as Hf. rewrite Qfloor_Z in Hf.
  unfold py_round.
  destruct (Qltb (x - inject_Z (Qfloor x)) 0.5) eqn:E; [done|].
  apply Qltb_ge in E.
  assert (Qfloor x < k); [|repeat case_match; lia].
  rewrite Zlt_Qlt. apply Qlt_le_trans with x; [|done]. lra.
Qed.

Lemma pow10_pos (n : nat) : (0 < inject_Z (10 ^ Z.of_nat n))%Q.
Proof.
  rewrite <- (Zlt_Qlt 0). apply Z.pow_pos_nonneg; lia.
Qed.

Lemma py_round_n_proper (x y : Q) (n : nat) :
  (x == y)%Q -> py_round_n x n = py_round_n y n.
Proof.
  intros H. unfold py_round_n.
  rewrite (py_round_proper (x * inject_Z (10 ^ Z.of_nat n))
                           (y * inject_Z (10 ^ Z.of_nat n))); [done|].
  by rewrite H.
Qed.

Lemma py_round_n_ge (k : Z) (x : Q) (n : nat) :
  (inject_Z k <= x)%Q -> (inject_Z k <= py_round_n x n)%Q.
Proof.
  intros H. unfold py_round_n. pose proof (pow10_pos n) as Hp.
  apply Qle_shift_div_l; [done|].
  rewrite <- inject_Z_mult, <- Zle_Qle. apply py_round_ge.
  rewrite inject_Z_mult. by apply Qmult_le_compat_r; [|apply Qlt_le_weak].
Qed.

Lemma py_round_n_le (k : Z) (x : Q) (n : nat) :
  (x <= inject_Z k)%Q -> (py_round_n x n <= inject_Z k)%Q.
Proof.
  intros H. unfold py_round_n. pose proof (pow10_pos n) as Hp.
  apply Qle_shift_div_r; [done|].
  rewrite <- inject_Z_mult, <- Zle_Qle. apply py_round_le.
  rewrite inject_Z_mult. by apply Qmult_le_compat_r; [|apply Qlt_le_weak].
Qed.

(** * Engine A: further properties *)

Module EngineA_More.
Import EngineA EngineA_Props.

(** ** Normalization *)

(** A normalized name is its own normal form, and the normal form does not
    see the case of the letters or the blanks around the name. *)
Lemma normalize_symptom_name_idempotent (s : string) :
  normalize_symptom_name (normalize_symptom_name s) = normalize_symptom_name s /\
  normalize_symptom_name (lower s) = normalize_symptom_name s /\
  normalize_symptom_name (strip s) = normalize_symptom_name s.
Proof.
  unfold normalize_symptom_name. split; [|split].
  - rewrite (strip_lower (strip (lower s))), strip_idem.
    by rewrite (strip_lower s), lower_idem.
  - by rewrite lower_idem.
  - by rewrite <- strip_lower, strip_idem.
Qed.

Lemma find_symptom_indices_normalized (symptoms cols : list string) :
  find_symptom_indices (normalize_symptom_name <$> symptoms) cols =
    find_symptom_indices symptoms cols /\
  find_symptom_indices symptoms (normalize_symptom_name <$> cols) =
    find_symptom_indices symptoms cols.
Proof.
  unfold find_symptom_indices. split.
  - induction symptoms as [|s r IH]; [done|].
    rewrite fmap_cons. cbn [omap list_omap].
    rewrite (proj1 (normalize_symptom_name_idempotent s)).
    by rewrite <- IH.
  - assert (normalize_symptom_name <$> (normalize_symptom_name <$> cols) =
            normalize_symptom_name <$> cols) as ->; [|done].
    rewrite <- list_fmap_compose. apply list_fmap_ext.
    intros i c _. apply normalize_symptom_name_idempotent.
Qed.

(** Writing the query, or the header of the dataset, in normal form changes
    nothing in the outcome of [diagnose]. *)
Theorem diagnose_normalized (symptoms : list string) (top_n : Z) (data : dataset) :
  diagnose (normalize_symptom_name <$> symptoms) top_n data =
    diagnose symptoms top_n data /\
  diagnose symptoms top_n
    {| symptom_columns := normalize_symptom_name <$> symptom_columns data;
       case_rows := case_rows data |} =
    diagnose symptoms top_n data.
Proof.
  unfold diagnose, unsorted_results. simpl.
  destruct (find_symptom_indices_normalized symptoms (symptom_columns data))
    as [-> ->].
  done.
Qed.

(** ** Resolution *)

Lemma index_first (x : string) (l : list string) (i : nat) :
  index x l = Some i <->
  l !! i = Some x /\ forall j, (j < i)%nat -> l !! j <> Some x.
Proof.
  revert i. induction l as [|y r IH]; intros i; simpl.
  - split; [done | by intros [? _]].
  - destruct (String.eqb_spec y x) as [->|Hne].
    + split.
      * intros [= <-]. split; [done|]. intros j Hj. lia.
      * intros [Hi Hfirst]. destruct i as [|i]; [done|].
        exfalso. apply (Hfirst 0%nat); [lia|done].
    + split.
      * destruct (index x r) as [k|]; simpl; [|done].
        intros [= <-]. destruct (proj1 (IH k) eq_refl) as [Hk Hfirst].
        split; [done|]. intros [|j] Hj; simpl; [congruence|].
        apply Hfirst. lia.
      * intros [Hi Hfirst]. destruct i as [|i]; simpl in Hi; [congruence|].
        assert (index x r = Some i) as ->; [|done].
        apply IH. split; [done|]. intros j Hj.
        apply (Hfirst (S j)). lia.
Qed.

Lemma length_omap_le {A B} (f : A -> option B) (l : list A) :
  (length (omap f l) <= length l)%nat.
Proof.
  induction l as [|x r IH]; [done|].
  change (omap f (x :: r)) with
    (match f x with Some y => y :: omap f r | None => omap f r end).
  destruct (f x); simpl; lia.
Qed.

(** The indices found are those of the first column whose normalized name
    is the normalized name of a symptom of the query, and there are at most
    as many as symptoms in the query. *)
Theorem find_symptom_indices_first_column
  (symptoms cols : list string) (i : nat) :
  (i ∈ find_symptom_indices symptoms cols <->
   exists s, s ∈ symptoms /\
     (normalize_symptom_name <$> cols) !! i = Some (normalize_symptom_name s) /\
     forall j, (j < i)%nat ->
       (normalize_symptom_name <$> cols) !! j <>
       Some (normalize_symptom_name s)) /\
  (length (find_symptom_indices symptoms cols) <= length symptoms)%nat.
Proof.
  unfold find_symptom_indices. split.
  - rewrite list_elem_of_omap. split.
    + intros (s & Hs & Hi). exists s. split; [done|]. by apply index_first.
    + intros (s & Hs & Hi). exists s. split; [done|]. by apply index_first.
  - apply length_omap_le.
Qed.

(** ** What the accumulator holds *)

Lemma NoDup_nub (l : list string) : NoDup (nub l).
Proof.
  induction l as [|x r IH]; simpl; [constructor|].
  constructor; [|by apply NoDup_filter].
  rewrite list_elem_of_filter. by intros [? _].
Qed.

Lemma elem_of_nub (x : string) (l : list string) : x ∈ nub l <-> x ∈ l.
Proof.
  induction l as [|y r IH]; simpl; [done|].
  rewrite !elem_of_cons, list_elem_of_filter, IH.
  destruct (decide (x = y)); tauto.
Qed.

Lemma length_nub (l : list string) : (length (nub l) <= length l)%nat.
Proof.
  induction l as [|x r IH]; simpl; [done|].
  pose proof (length_filter (fun y => y <> x) (nub r)). lia.
Qed.

Lemma score_rows_keys_nub indices freqs rows :
  (score_rows indices freqs [] rows).*1 = encounter_order indices rows.
Proof.
  rewrite score_rows_keys, nub_fold. cbn [fmap list_fmap app].
  unfold encounter_order.
  generalize (nub (List.filter
    (fun r => negb (count_matched indices r.2 =? 0)) rows).*1).
  intros l. induction l as [|y l IHl]; [done|].
  rewrite filter_cons, decide_True by apply not_elem_of_nil.
  by rewrite IHl.
Qed.

Lemma get_stats_elem (scores : list (string * stats)) d st :
  NoDup scores.*1 -> (d, st) ∈ scores -> get_stats d scores = st.
Proof.
  induction scores as [|[d' s] r IH]; simpl; intros Hnd Hin.
  - by apply elem_of_nil in Hin.
  - apply NoDup_cons in Hnd as [Hd' Hnd].
    apply elem_of_cons in Hin as [[= -> ->]|Hin].
    + by rewrite String.eqb_refl.
    + destruct (String.eqb_spec d' d) as [->|Hne]; [|by apply IH].
      exfalso. apply Hd'. apply list_elem_of_fmap. by exists (d, st).
Qed.

Import EngineA_Terms.

Lemma score_rows_cons indices freqs scores r rows :
  score_rows indices freqs scores (r :: rows) =
  score_rows indices freqs (score_row indices freqs scores r) rows.
Proof. reflexivity. Qed.

(** The entry of a disease after the rows, from its entry before them. *)
Lemma score_rows_stats indices freqs rows scores d :
  let M := matching_rows indices d rows in
  let st := get_stats d (score_rows indices freqs scores rows) in
  let st0 := get_stats d scores in
  case_count st = case_count st0 + Z.of_nat (length M) /\
  match_count st = match_count st0 + py_sum (count_matched indices <$> M.*2) /\
  exact_matches st =
    exact_matches st0 +
    Z.of_nat (length (filter
      (fun r => count_matched indices r.2 = Z.of_nat (length indices)) M)) /\
  (total_score st ==
   total_score st0 + Qsum (row_gain indices (frequency freqs d) <$> M.*2))%Q.
Proof.
  revert scores. induction rows as [|[d' row] rows IH]; intros scores.
  - unfold matching_rows, py_sum, Qsum. simpl. repeat split; try lia. ring.
  - rewrite score_rows_cons. specialize (IH (score_row indices freqs scores (d', row))).
    cbn zeta in *. destruct IH as (Hc & Hm & He & Ht).
    rewrite Hc, Hm, He, Ht. clear Hc Hm He Ht.
    unfold matching_rows. rewrite filter_cons.
    destruct (score_row_effect indices freqs scores d' row) as [Hskip Hadd].
    cbn zeta in *.
    destruct (decide (count_matched indices row = 0)) as [H0|H0].
    + rewrite (Hskip H0). rewrite decide_False by (simpl; tauto). done.
    + destruct (Hadd H0) as (Hc & Hm & He & _ & Ht & Ho).
      destruct (decide (d' = d)) as [->|Hne].
      * rewrite decide_True by done. rewrite Hc, Hm, He, Ht. clear Hc Hm He Ht.
        rewrite filter_cons. cbn [fmap list_fmap snd length].
        unfold py_sum, Qsum, row_gain. cbn [foldr].
        repeat split; try lia.
        -- case_decide as Hx; simpl in Hx.
           ++ rewrite (proj2 (Z.eqb_eq _ _) Hx). simpl. lia.
           ++ rewrite (proj2 (Z.eqb_neq _ _) Hx). lia.
        -- fold (py_sum row). ring.
      * rewrite decide_False by (simpl; tauto).
        by rewrite (Ho d) by done.
Qed.

(** A returned record is made from the entry of its disease. *)
Lemma diagnose_elem symptoms top_n data r :
  r ∈ diagnose symptoms top_n data ->
  let indices := find_symptom_indices symptoms (symptom_columns data) in
  let freqs := count_frequencies (diseases data) in
  let final := score_rows indices freqs [] (case_rows data) in
  indices <> [] /\
  counted (get_stats (disease r) final) /\
  r = make_result indices freqs (disease r, get_stats (disease r) final).
Proof.
  unfold diagnose.
  destruct (find_symptom_indices symptoms (symptom_columns data))
    as [|i indices] eqn:E.
  - intros H. by apply elem_of_nil in H.
  - intros H. apply elem_of_py_prefix in H.
    rewrite sort_desc_perm in H. unfold unsorted_results in H.
    apply list_elem_of_fmap in H as [[d st] [-> Hin]].
    cbn zeta. cbn [make_result disease].
    assert (get_stats d
              (score_rows (i :: indices) (count_frequencies (diseases data)) []
                 (case_rows data)) = st) as ->.
    { apply get_stats_elem; [|done].
      rewrite score_rows_keys_nub. apply NoDup_nub. }
    split; [done|]. split; [|done].
    pose proof (score_rows_counted (i :: indices)
      (count_frequencies (diseases data)) (case_rows data) []
      (Forall_nil_2 _)) as Hall.
    rewrite Forall_forall in Hall. apply (Hall _ Hin).
Qed.

Lemma matching_rows_le_rows indices d (rows : list (string * list Z)) :
  (length (matching_rows indices d rows) <=
   length (filter (fun x => x = d) rows.*1))%nat.
Proof.
  unfold matching_rows. induction rows as [|[d' row] rows IH]; [done|].
  rewrite fmap_cons, !filter_cons. cbn [fst snd].
  repeat case_decide; simpl; try lia. tauto.
Qed.

Lemma count_matched_le_length indices row :
  count_matched indices row <= Z.of_nat (length indices).
Proof.
  rewrite count_matched_length.
  pose proof (List.filter_length_le (row_has row) indices). lia.
Qed.

Lemma py_sum_matched_le indices (rows : list (list Z)) :
  py_sum (count_matched indices <$> rows) <=
  Z.of_nat (length rows) * Z.of_nat (length indices).
Proof.
  unfold py_sum. induction rows as [|row rows IH]; [simpl; lia|].
  rewrite fmap_cons, foldr_cons, length_cons.
  pose proof (count_matched_le_length indices row). lia.
Qed.

(** The accumulator of [diagnose] holds, for each returned disease, the
    counts of its matching rows: [case_count] is their number,
    [match_count] the sum of their matched counts, [exact_matches] the
    number of those in which every resolved index matches; [frequency] is
    the number of all rows of the disease, and there is at least one
    matching row. *)
Theorem diagnose_counts symptoms top_n data r :
  r ∈ diagnose symptoms top_n data ->
  let indices := find_symptom_indices symptoms (symptom_columns data) in
  let M := matching_rows indices (disease r) (case_rows data) in
  M <> [] /\
  res_case_count r = Z.of_nat (length M) /\
  res_match_count r = py_sum (count_matched indices <$> M.*2) /\
  res_exact_matches r =
    Z.of_nat (length (filter
      (fun row => count_matched indices row.2 = Z.of_nat (length indices)) M)) /\
  res_frequency r = rows_of (disease r) data /\
  total_symptom_count r = Z.of_nat (length indices).
Proof.
  intros Hr indices M.
  destruct (diagnose_elem _ _ _ _ Hr) as (_ & [Hpos _] & Heq).
  destruct (score_rows_stats indices (count_frequencies (diseases data))
              (case_rows data) [] (disease r)) as (Hc & Hm & He & _).
  fold indices in Heq, Hpos. fold M in Hc, Hm, He.
  rewrite Heq. cbn [make_result res_case_count res_match_count
    res_exact_matches res_frequency total_symptom_count disease] in *.
  rewrite Hc, Hm, He. cbn [get_stats new_stats case_count match_count
    exact_matches].
  rewrite Hc in Hpos. cbn [get_stats new_stats case_count] in Hpos.
  repeat split; try lia.
  - intros HM. rewrite HM in Hpos. simpl in Hpos. lia.
  - apply frequency_count.
Qed.

Lemma diagnose_counts_witness :
  let data := {| symptom_columns := ["fever"; "cough"];
                 case_rows := [("flu", [1; 1]); ("cold", [0; 1]);
                               ("cold", [0; 0])] |} in
  let r := {| disease := "cold"; score := 7.50; res_match_count := 1;
              total_symptom_count := 2; res_frequency := 2;
              match_percentage := 50.00; res_case_count := 1;
              res_exact_matches := 0 |} in
  r ∈ diagnose ["fever"; "cough"] 10 data /\
  res_case_count r = 1 /\ res_frequency r = 2.
Proof.
  intros data r.
  assert (r ∈ diagnose ["fever"; "cough"] 10 data) as Hr
    by (vm_compute; right; left).
  split; [exact Hr|].
  destruct (diagnose_counts ["fever"; "cough"] 10 data r Hr)
    as (_ & Hc & _ & _ & Hf & _).
  split; [exact Hc | exact Hf].
Defined.

(** ** The score *)

Lemma Qsum_nonneg (l : list Q) : Forall (fun q => (0 <= q)%Q) l -> (0 <= Qsum l)%Q.
Proof.
  unfold Qsum. induction 1 as [|q r Hq _ IH]; simpl; [done|].
  change 0%Q with (0 + 0)%Q at 1. by apply Qplus_le_compat.
Qed.

Lemma Qdiv_nonneg (a b : Q) : (0 <= a)%Q -> (0 < b)%Q -> (0 <= a / b)%Q.
Proof. intros Ha Hb. apply Qle_shift_div_l; [done|]. lra. Qed.

Lemma inject_Z_nonneg (z : Z) : 0 <= z -> (0 <= inject_Z z)%Q.
Proof. intros H. by rewrite <- (Zle_Qle 0). Qed.

Lemma inject_Z_pos (z : Z) : 0 < z -> (0 < inject_Z z)%Q.
Proof. intros H. by rewrite <- (Zlt_Qlt 0). Qed.

Lemma row_gain_nonneg indices freq row :
  indices <> [] -> 0 <= freq -> (0 <= row_gain indices freq row)%Q.
Proof.
  intros Hne Hf. unfold row_gain.
  assert (0 <= inject_Z (count_matched indices row) /
               inject_Z (Z.of_nat (length indices)))%Q as H1.
  { apply Qdiv_nonneg.
    - apply inject_Z_nonneg, count_matched_nonneg.
    - apply inject_Z_pos. destruct indices; [done|simpl; lia]. }
  assert (0 <= inject_Z freq / 10000.0)%Q as H2.
  { apply Qdiv_nonneg; [by apply inject_Z_nonneg|reflexivity]. }
  set (q1 := (inject_Z (count_matched indices row) /
              inject_Z (Z.of_nat (length indices)))%Q) in *.
  set (q2 := (inject_Z freq / 10000.0)%Q) in *.
  apply Qmult_le_0_compat; [|lra].
  apply Qmult_le_0_compat; [|case_match; lra].
  apply Qmult_le_0_compat; [|case_match; lra].
  apply Qmult_le_0_compat; [done|lra].
Qed.

Lemma py_min_nonneg (a b : Q) : (0 <= a)%Q -> (0 <= b)%Q -> (0 <= py_min a b)%Q.
Proof. intros Ha Hb. unfold py_min. by destruct (Qltb b a). Qed.

(** Every returned record has [0 <= exact_matches <= case_count <=
    frequency], [match_count <= case_count * total_symptom_count], a score
    that is not negative and a match percentage between 0 and 100. *)
Theorem diagnose_record_bounds symptoms top_n data r :
  r ∈ diagnose symptoms top_n data ->
  0 <= res_exact_matches r /\
  res_exact_matches r <= res_case_count r /\
  res_case_count r <= res_frequency r /\
  res_match_count r <= res_case_count r * total_symptom_count r /\
  (0 <= score r)%Q /\
  (0 <= match_percentage r)%Q /\ (match_percentage r <= 100)%Q.
Proof.
  intros Hr.
  destruct (diagnose_elem _ _ _ _ Hr) as (Hne & [Hpos Hmc] & Heq).
  cbn zeta in *.
  set (indices := find_symptom_indices symptoms (symptom_columns data)) in *.
  set (freqs := count_frequencies (diseases data)) in *.
  set (M := matching_rows indices (disease r) (case_rows data)).
  destruct (score_rows_stats indices freqs (case_rows data) [] (disease r))
    as (Hc & Hm & He & Ht).
  fold M in Hc, Hm, He, Ht.
  cbn [get_stats new_stats case_count match_count exact_matches total_score]
    in Hc, Hm, He, Ht.
  set (st := get_stats (disease r) (score_rows indices freqs [] (case_rows data)))
    in *.
  assert (0 < Z.of_nat (length indices)) as Hn
    by (destruct indices; [done|simpl; lia]).
  assert (0 <= frequency freqs (disease r)) as Hf
    by (unfold freqs; rewrite frequency_count; lia).
  assert (match_count st <= case_count st * Z.of_nat (length indices)) as Hmn.
  { rewrite Hm, Hc, !Z.add_0_l.
    pose proof (py_sum_matched_le indices M.*2) as H.
    by rewrite length_fmap in H. }
  assert (0 <= total_score st)%Q as Htot.
  { rewrite Ht, Qplus_0_l. apply Qsum_nonneg.
    apply Forall_fmap, Forall_forall. intros row _.
    by apply row_gain_nonneg. }
  assert (r = make_result indices freqs (disease r, st)) as Hrec by exact Heq.
  clearbody st. rewrite Hrec. clear Hrec Heq.
  cbn [make_result score match_percentage res_case_count
    res_match_count res_exact_matches res_frequency total_symptom_count
    disease] in *.
  assert ((0 <? case_count st) = true) as -> by (apply Z.ltb_lt; lia).
  split; [lia|]. split.
  { rewrite He, Hc, !Z.add_0_l.
    pose proof (length_filter
      (fun row : string * list Z =>
         count_matched indices row.2 = Z.of_nat (length indices)) M). lia. }
  split.
  { rewrite Hc, Z.add_0_l. unfold freqs. rewrite frequency_count.
    pose proof (matching_rows_le_rows indices (disease r) (case_rows data)).
    fold M in H. unfold diseases. lia. }
  split; [done|].
  assert (0 < inject_Z (case_count st))%Q as Hcq by (apply inject_Z_pos; lia).
  split.
  { apply (py_round_n_ge 0). apply Qmult_le_0_compat.
    - by apply Qdiv_nonneg.
    - apply py_min_nonneg; [|done]. apply Qdiv_nonneg; [lra|reflexivity]. }
  assert (0 < inject_Z (case_count st * Z.of_nat (length indices)))%Q as Hd
    by (apply inject_Z_pos; lia).
  split.
  - apply (py_round_n_ge 0). apply Qmult_le_0_compat; [|done].
    apply Qdiv_nonneg; [|done]. apply inject_Z_nonneg. lia.
  - apply (py_round_n_le 100).
    assert (inject_Z (match_count st) /
            inject_Z (case_count st * Z.of_nat (length indices)) <= 1)%Q.
    { apply Qle_shift_div_r; [done|]. rewrite Qmult_1_l. by rewrite <- Zle_Qle. }
    change (inject_Z 100) with 100%Q. lra.
Qed.

Lemma diagnose_record_bounds_witness :
  let data := {| symptom_columns := ["fever"; "cough"];
                 case_rows := [("flu", [1; 1]); ("cold", [0; 1]);
                               ("cold", [0; 0])] |} in
  let r := {| disease := "flu"; score := 20.00; res_match_count := 2;
              total_symptom_count := 2; res_frequency := 1;
              match_percentage := 100.00; res_case_count := 1;
              res_exact_matches := 1 |} in
  r ∈ diagnose ["fever"; "cough"] 10 data /\
  res_case_count r <= res_frequency r /\ (match_percentage r <= 100)%Q.
Proof.
  intros data r.
  assert (r ∈ diagnose ["fever"; "cough"] 10 data) as Hr
    by (vm_compute; left).
  split; [exact Hr|].
  destruct (diagnose_record_bounds ["fever"; "cough"] 10 data r Hr)
    as (_ & _ & Hf & _ & _ & _ & Hp).
  split; [exact Hf | exact Hp].
Defined.

(** ** Which diseases are returned *)

Lemma sorted_results_diseases indices data :
  disease <$> sort_desc score (unsorted_results indices data) ≡ₚ
  encounter_order indices (case_rows data).
Proof.
  rewrite <- unsorted_results_order. apply fmap_Permutation, sort_desc_perm.
Qed.

Lemma py_prefix_sublist {A} (l : list A) (n : Z) : py_prefix l n `sublist_of` l.
Proof. unfold py_prefix. destruct (0 <=? n); apply sublist_take. Qed.

Lemma elem_of_encounter_order indices rows d :
  d ∈ encounter_order indices rows <->
  exists row idx, (d, row) ∈ rows /\ idx ∈ indices /\ row !! idx = Some 1.
Proof.
  unfold encounter_order. rewrite elem_of_nub, list_elem_of_fmap. split.
  - intros ([d' row] & -> & Hin).
    apply list_elem_of_In, List.filter_In in Hin as [Hin Hm].
    apply list_elem_of_In in Hin. simpl in Hm.
    apply negb_true_iff, Z.eqb_neq in Hm.
    assert (~ forall idx, idx ∈ indices -> row !! idx <> Some 1) as Hex
      by (by rewrite <- count_matched_zero).
    assert (existsb (row_has row) indices = true) as Hb.
    { rewrite existsb_row_has. by apply negb_true_iff, Z.eqb_neq. }
    apply List.existsb_exists in Hb as (idx & Hidx & Hhas).
    exists row, idx. split; [done|]. split; [by apply list_elem_of_In|].
    by apply row_has_lookup.
  - intros (row & idx & Hin & Hidx & Hrow). exists (d, row). split; [done|].
    apply list_elem_of_In, List.filter_In. split; [by apply list_elem_of_In|].
    simpl. apply negb_true_iff, Z.eqb_neq. intros H0.
    rewrite count_matched_zero in H0. by apply (H0 idx).
Qed.

(** No disease is returned twice, and a disease is returned only if one of
    its rows has a queried symptom. When [top_n] is at least the number of
    case rows, every such disease is returned. *)
Theorem diagnose_diseases symptoms top_n data :
  let indices := find_symptom_indices symptoms (symptom_columns data) in
  let out := diagnose symptoms top_n data in
  NoDup (disease <$> out) /\
  (forall d, d ∈ disease <$> out ->
     exists row idx,
       (d, row) ∈ case_rows data /\ idx ∈ indices /\ row !! idx = Some 1) /\
  (Z.of_nat (length (case_rows data)) <= top_n ->
   forall d row idx,
     (d, row) ∈ case_rows data -> idx ∈ indices -> row !! idx = Some 1 ->
     d ∈ disease <$> out).
Proof.
  intros indices out. subst out. unfold diagnose. fold indices.
  destruct indices as [|i indices'] eqn:E.
  { split; [constructor|]. split.
    - intros d Hd. by apply elem_of_nil in Hd.
    - intros _ d row idx _ Hidx. by apply elem_of_nil in Hidx. }
  rewrite <- E. clear E i indices'.
  assert (disease <$> py_prefix (sort_desc score (unsorted_results indices data))
                        top_n
          `sublist_of` disease <$> sort_desc score (unsorted_results indices data))
    as Hsub by apply fmap_sublist, py_prefix_sublist.
  split; [|split].
  - eapply sublist_NoDup; [|exact Hsub].
    rewrite sorted_results_diseases. apply NoDup_nub.
  - intros d Hd. apply elem_of_encounter_order.
    rewrite <- sorted_results_diseases. by eapply elem_of_sublist.
  - intros Hn d row idx Hrow Hidx Hone.
    assert (py_prefix (sort_desc score (unsorted_results indices data)) top_n =
            sort_desc score (unsorted_results indices data)) as ->.
    { rewrite py_prefix_take by lia. apply take_ge.
      rewrite sort_desc_perm.
      assert (length (unsorted_results indices data) =
              length (encounter_order indices (case_rows data))) as ->
        by (by rewrite <- unsorted_results_order, length_fmap).
      unfold encounter_order.
      pose proof (length_nub (List.filter
        (fun r => negb (count_matched indices r.2 =? 0)) (case_rows data)).*1)
        as H1.
      rewrite length_fmap in H1.
      pose proof (List.filter_length_le
        (fun r => negb (count_matched indices r.2 =? 0)) (case_rows data)).
      lia. }
    rewrite sorted_results_diseases. apply elem_of_encounter_order. eauto.
Qed.

Lemma diagnose_diseases_witness :
  let data := {| symptom_columns := ["fever"; "cough"];
                 case_rows := [("flu", [1; 1]); ("cold", [0; 1])] |} in
  Z.of_nat (length (case_rows data)) <= 2 /\
  ("cold", [0; 1]) ∈ case_rows data /\
  1%nat ∈ find_symptom_indices ["cough"] (symptom_columns data) /\
  "cold" ∈ disease <$> diagnose ["cough"] 2 data.
Proof.
  intros data.
  assert (Z.of_nat (length (case_rows data)) <= 2) as H1 by (simpl; lia).
  assert (("cold", [0; 1]) ∈ case_rows data) as H2 by (right; left).
  assert (1%nat ∈ find_symptom_indices ["cough"] (symptom_columns data)) as H3
    by (vm_compute; left).
  repeat (split; [assumption|]).
  exact (proj2 (proj2 (diagnose_diseases ["cough"] 2 data)) H1
           "cold" [0; 1] 1%nat H2 H3 eq_refl).
Defined.

(** ** The number of records asked for *)

(** For [top_n >= 0] the outcome is the first [top_n] records of the full
    ranking; for a negative [top_n] it is the full ranking without its last
    [-top_n] records. Asking for fewer records gives a prefix of what asking
    for more gives. *)
Theorem diagnose_top_n symptoms data :
  let full := diagnose symptoms (Z.of_nat (length (case_rows data))) data in
  (forall n, 0 <= n -> diagnose symptoms n data = take (Z.to_nat n) full) /\
  (forall n, n < 0 ->
     diagnose symptoms n data = take (length full - Z.to_nat (- n)) full) /\
  (forall a b, 0 <= a <= b ->
     diagnose symptoms a data = take (Z.to_nat a) (diagnose symptoms b data)).
Proof.
  intros full. subst full. unfold diagnose.
  destruct (find_symptom_indices symptoms (symptom_columns data))
    as [|i indices] eqn:E.
  { repeat split; intros; by rewrite ?take_nil. }
  set (sorted := sort_desc score (unsorted_results (i :: indices) data)).
  assert (py_prefix sorted (Z.of_nat (length (case_rows data))) = sorted) as ->.
  { rewrite py_prefix_take by lia. apply take_ge. unfold sorted.
    rewrite sort_desc_perm.
    assert (length (unsorted_results (i :: indices) data) =
            length (encounter_order (i :: indices) (case_rows data))) as ->
      by (by rewrite <- unsorted_results_order, length_fmap).
    unfold encounter_order.
    pose proof (length_nub (List.filter
      (fun r => negb (count_matched (i :: indices) r.2 =? 0))
      (case_rows data)).*1) as H1.
    rewrite length_fmap in H1.
    pose proof (List.filter_length_le
      (fun r => negb (count_matched (i :: indices) r.2 =? 0)) (case_rows data)).
    lia. }
  split; [|split].
  - intros n Hn. by apply py_prefix_take.
  - intros n Hn. unfold py_prefix.
    destruct (Z.leb_spec 0 n); [lia|]. f_equal. lia.
  - intros a b Hab. rewrite !py_prefix_take by lia.
    rewrite take_take. f_equal. lia.
Qed.

Lemma diagnose_top_n_witness :
  let data := {| symptom_columns := ["fever"; "cough"];
                 case_rows := [("flu", [1; 1]); ("cold", [0; 1])] |} in
  0 <= 1 <= 2 /\ -1 < 0 /\
  diagnose ["cough"] 1 data = take 1 (diagnose ["cough"] 2 data) /\
  diagnose ["cough"] (-1) data = take 1 (diagnose ["cough"] 2 data).
Proof.
  intros data.
  assert (0 <= 1 <= 2) as H1 by lia.
  assert (-1 < 0) as H2 by lia.
  split; [exact H1|]. split; [exact H2|].
  destruct (diagnose_top_n ["cough"] data) as (_ & Hneg & Hpre).
  split; [exact (Hpre 1 2 H1) | exact (Hneg (-1) H2)].
Defined.

(** ** The order of the query *)

Lemma count_matched_Permutation indices indices' row :
  indices ≡ₚ indices' -> count_matched indices row = count_matched indices' row.
Proof.
  intros H. rewrite !count_matched_length. f_equal.
  induction H as [|x l l' _ IH|x y l|l l' l'' _ IH1 _ IH2]; simpl.
  - done.
  - destruct (row_has row x); simpl; by rewrite IH.
  - by destruct (row_has row x), (row_has row y).
  - by rewrite IH1.
Qed.

Lemma score_row_Permutation indices indices' freqs scores r :
  indices ≡ₚ indices' ->
  score_row indices freqs scores r = score_row indices' freqs scores r.
Proof.
  intros H. destruct r as [d row]. unfold score_row.
  by rewrite (count_matched_Permutation _ _ row H), (Permutation_length H).
Qed.

Lemma score_rows_Permutation indices indices' freqs rows scores :
  indices ≡ₚ indices' ->
  score_rows indices freqs scores rows = score_rows indices' freqs scores rows.
Proof.
  intros H. revert scores. induction rows as [|r rows IH]; intros scores; [done|].
  by rewrite !score_rows_cons, IH, (score_row_Permutation _ _ _ _ _ H).
Qed.

(** The outcome does not depend on the order in which the symptoms of the
    query are listed. *)
Theorem diagnose_Permutation symptoms symptoms' top_n data :
  symptoms ≡ₚ symptoms' ->
  diagnose symptoms top_n data = diagnose symptoms' top_n data.
Proof.
  intros H. unfold diagnose.
  assert (find_symptom_indices symptoms (symptom_columns data) ≡ₚ
          find_symptom_indices symptoms' (symptom_columns data)) as Hp
    by (unfold find_symptom_indices; by rewrite H).
  destruct (find_symptom_indices symptoms (symptom_columns data))
    as [|i l] eqn:E1,
    (find_symptom_indices symptoms' (symptom_columns data)) as [|i' l'] eqn:E2.
  - done.
  - by apply Permutation_nil_cons in Hp.
  - symmetry in Hp. by apply Permutation_nil_cons in Hp.
  - f_equal. f_equal. unfold unsorted_results.
    rewrite (score_rows_Permutation _ _ _ _ _ Hp).
    apply list_fmap_ext. intros k [d st] _. unfold make_result.
    by rewrite (Permutation_length Hp).
Qed.

Lemma diagnose_Permutation_witness :
  let data := {| symptom_columns := ["fever"; "cough"];
                 case_rows := [("flu", [1; 1]); ("cold", [0; 1])] |} in
  ["fever"; "cough"] ≡ₚ ["cough"; "fever"] /\
  diagnose ["fever"; "cough"] 5 data = diagnose ["cough"; "fever"] 5 data.
Proof.
  intros data.
  assert (["fever"; "cough"] ≡ₚ ["cough"; "fever"]) as H by apply Permutation_swap.
  split; [exact H|].
  exact (diagnose_Permutation ["fever"; "cough"] ["cough"; "fever"] 5 data H).
Defined.

(** ** Rows shorter than the header *)

Lemma row_has_pad n row idx : row_has (pad_row n row) idx = row_has row idx.
Proof.
  apply eq_true_iff_eq. rewrite !row_has_lookup. unfold pad_row.
  destruct (decide (idx < length row)%nat) as [Hlt|Hge].
  - by rewrite lookup_app_l.
  - rewrite lookup_app_r by lia. split.
    + intros H. apply lookup_replicate in H as [? _]. done.
    + intros H. apply lookup_lt_Some in H. lia.
Qed.

Lemma py_sum_pad n row : py_sum (pad_row n row) = py_sum row.
Proof.
  unfold pad_row, py_sum. rewrite foldr_app.
  assert (foldr Z.add 0 (replicate (n - length row) 0) = 0) as ->; [|done].
  induction (n - length row)%nat as [|k IH]; simpl; [done|]. by rewrite IH.
Qed.

Lemma count_matched_pad indices n row :
  count_matched indices (pad_row n row) = count_matched indices row.
Proof.
  unfold count_matched. do 2 f_equal. apply List.filter_ext.
  intros idx. apply row_has_pad.
Qed.

(** A row with fewer cells than the header is scored as if the missing cells
    held 0: padding every row with zeros up to the length of the header
    changes nothing in the outcome. *)
Theorem diagnose_padded_rows symptoms top_n data :
  diagnose symptoms top_n
    {| symptom_columns := symptom_columns data;
       case_rows :=
         prod_map id (pad_row (length (symptom_columns data))) <$> case_rows data
    |} =
  diagnose symptoms top_n data.
Proof.
  unfold diagnose. simpl.
  destruct (find_symptom_indices symptoms (symptom_columns data))
    as [|i indices]; [done|].
  f_equal. f_equal. unfold unsorted_results, diseases. simpl.
  set (n := length (symptom_columns data)).
  assert ((prod_map id (pad_row n) <$> case_rows data).*1 = (case_rows data).*1)
    as ->.
  { rewrite <- list_fmap_compose. apply list_fmap_ext. by intros k [d row] _. }
  set (freqs := count_frequencies (case_rows data).*1). clearbody freqs.
  f_equal. generalize (@nil (string * stats)).
  induction (case_rows data) as [|[d row] rows IH]; intros scores; [done|].
  rewrite fmap_cons, !score_rows_cons, IH. f_equal.
  unfold score_row. simpl. by rewrite count_matched_pad, py_sum_pad.
Qed.

End EngineA_More.

(** * Engine B: further properties *)

Module EngineB_More.
Import EngineB EngineB_Props EngineB_Terms.

Lemma py_max_ge_l (a b : Q) : (a <= py_max a b)%Q.
Proof.
  unfold py_max. destruct (Qltb a b) eqn:E; [|lra].
  apply Qltb_lt in E. lra.
Qed.

Lemma py_max_nonneg (a b : Q) : (0 <= a)%Q -> (0 <= py_max a b)%Q.
Proof. intros H. eapply Qle_trans; [exact H | apply py_max_ge_l]. Qed.

Lemma py_max_le (a b c : Q) : (a <= c)%Q -> (b <= c)%Q -> (py_max a b <= c)%Q.
Proof. intros Ha Hb. unfold py_max. by destruct (Qltb a b). Qed.

Section ScoreFacts.
Variable float_of_str : string -> option Q.

(** ** The range of the scores *)

Lemma match_range_nonneg e0 e1 min_val max_val x q :
  match_range e0 e1 min_val max_val x = Ok q -> (0 <= q)%Q.
Proof.
  unfold match_range, float_operand, py_div.
  repeat case_match; simpl; try done; repeat case_match;
    intros [= <-]; try lra; apply py_max_nonneg; lra.
Qed.

Lemma match_range_unit e0 e1 min_val max_val x :
  (0 < min_val)%Q -> (0 < max_val)%Q ->
  too_large e0 = false -> too_large e1 = false ->
  exists q, match_range e0 e1 min_val max_val x = Ok q /\
            (0 <= q)%Q /\ (q <= 1)%Q.
Proof.
  intros Hmin Hmax Hfit0 Hfit1.
  destruct (Qlt_le_dec x min_val) as [Hlt|Hge].
  - rewrite match_range_below, float_operand_fits by done. simpl.
    rewrite py_div_nonzero by lra.
    eexists. split; [reflexivity|]. split; [apply py_max_nonneg; lra|].
    apply py_max_le; [lra|].
    assert (0 <= (min_val - x) / min_val)%Q by (apply Qle_shift_div_l; lra).
    lra.
  - destruct (Qlt_le_dec max_val x) as [Hlt|Hle].
    + rewrite match_range_above, float_operand_fits by done. simpl.
      rewrite py_div_nonzero by lra.
      eexists. split; [reflexivity|]. split; [apply py_max_nonneg; lra|].
      apply py_max_le; [lra|].
      assert (0 <= (x - max_val) / max_val)%Q by (apply Qle_shift_div_l; lra).
      lra.
    + rewrite match_range_inside by done.
      eexists. split; [reflexivity|]. lra.
Qed.

Lemma py_float_fits (actual : pyval) :
  too_large actual = false ->
  exists o, py_float float_of_str actual = Ok o.
Proof.
  intros H. destruct actual; simpl in *; eauto.
  rewrite H. eauto.
Qed.

Lemma match_expectation_nonneg (expected actual : pyval) (q : Q) :
  match_expectation float_of_str expected actual = Ok q -> (0 <= q)%Q.
Proof.
  unfold match_expectation, match_member.
  repeat case_match; try (intros [= <-]; lra).
  destruct (py_float float_of_str actual) as [[x|]|]; simpl;
    [|intros [= <-]; lra|done].
  apply match_range_nonneg.
Qed.

Lemma match_expectation_unit (expected actual : pyval) :
  safe_bounds expected = true -> too_large actual = false ->
  exists q, match_expectation float_of_str expected actual = Ok q /\
            (0 <= q)%Q /\ (q <= 1)%Q.
Proof.
  intros Hsafe Hfit. destruct (py_float_fits actual Hfit) as [o Ho].
  revert Hsafe. unfold safe_bounds, match_expectation, match_member.
  repeat case_match; try discriminate;
    try (intros _; eexists; split; [reflexivity|]; lra).
  intros (((Hlo & Hhi)%andb_true_iff & Hf0%negb_true_iff)%andb_true_iff
          & Hf1%negb_true_iff)%andb_true_iff.
  apply Qltb_lt in Hlo, Hhi. rewrite Ho. simpl.
  destruct o as [x|]; [by apply match_range_unit|].
  eexists. split; [reflexivity|]. lra.
Qed.

(** A score that [match_expectation] returns is never negative. When the
    expected value is no range, or a range whose two bounds are greater than
    zero and no [int] beyond the range of the floats, and the actual value
    is no such [int], [match_expectation] returns, with a score between 0
    and 1. *)
Theorem match_expectation_score_range (expected actual : pyval) :
  (forall q, match_expectation float_of_str expected actual = Ok q ->
             (0 <= q)%Q) /\
  (safe_bounds expected = true -> too_large actual = false ->
   exists q, match_expectation float_of_str expected actual = Ok q /\
             (0 <= q)%Q /\ (q <= 1)%Q).
Proof.
  split.
  - intros q. apply match_expectation_nonneg.
  - apply match_expectation_unit.
Qed.

End ScoreFacts.

Section OvershootFacts.
Variable float_of_str : string -> option Q.

Lemma Qdiv_neg_denominator (a b : Q) : (0 < a)%Q -> (b < 0)%Q -> (a / b < 0)%Q.
Proof.
  intros Ha Hb.
  assert (a / b == - (a / - b))%Q as -> by (field; lra).
  assert (0 < a / - b)%Q; [|lra].
  apply Qlt_shift_div_l; lra.
Qed.

Lemma Qdiv_le_neg_denominator (a b c : Q) :
  (b < 0)%Q -> (c * - b <= a)%Q -> (a / b <= - c)%Q.
Proof.
  intros Hb Ha.
  assert (a / b == - (a / - b))%Q as -> by (field; lra).
  assert (c <= a / - b)%Q; [|lra].
  apply Qle_shift_div_l; lra.
Qed.

Lemma py_max_ge_r (a b : Q) : (b <= py_max a b)%Q.
Proof.
  unfold py_max. destruct (Qltb a b) eqn:E; [lra|].
  by apply Qltb_ge in E.
Qed.

(** On a range with a negative bound that is no [int] beyond the range of
    the floats, an actual value outside the range on the side of that bound
    gets a score of at least 1, and greater than 1 when its distance to the
    bound is at least twice the magnitude of the bound. *)
Theorem match_expectation_above_one e0 e1 min_val max_val actual x :
  num_of e0 = Some min_val -> num_of e1 = Some max_val ->
  py_float float_of_str actual = Ok (Some x) ->
  ((x < min_val)%Q -> (min_val < 0)%Q -> too_large e0 = false ->
   exists q, match_expectation float_of_str (PList [e0; e1]) actual = Ok q /\
             (1 <= q)%Q /\
             ((min_val - x >= 2 * - min_val)%Q -> (1 < q)%Q)) /\
  ((min_val <= x)%Q -> (max_val < x)%Q -> (max_val < 0)%Q ->
   too_large e1 = false ->
   exists q, match_expectation float_of_str (PList [e0; e1]) actual = Ok q /\
             (1 <= q)%Q /\
             ((x - max_val >= 2 * - max_val)%Q -> (1 < q)%Q)).
Proof.
  intros H0 H1 Hx.
  rewrite (match_expectation_range _ _ _ _ _ _ _ H0 H1 Hx).
  split.
  - intros Hlt Hneg Hfit.
    rewrite match_range_below, float_operand_fits by done. simpl.
    rewrite py_div_nonzero by lra.
    eexists. split; [reflexivity|].
    assert ((min_val - x) / min_val < 0)%Q as Hq
      by (apply Qdiv_neg_denominator; lra).
    split.
    + eapply Qle_trans; [|apply py_max_ge_r]. lra.
    + intros Hfar. eapply Qlt_le_trans; [|apply py_max_ge_r].
      assert ((min_val - x) / min_val <= - (2))%Q; [|lra].
      apply Qdiv_le_neg_denominator; lra.
  - intros Hle Hlt Hneg Hfit.
    rewrite match_range_above, float_operand_fits by done. simpl.
    rewrite py_div_nonzero by lra.
    eexists. split; [reflexivity|].
    assert ((x - max_val) / max_val < 0)%Q as Hq
      by (apply Qdiv_neg_denominator; lra).
    split.
    + eapply Qle_trans; [|apply py_max_ge_r]. lra.
    + intros Hfar. eapply Qlt_le_trans; [|apply py_max_ge_r].
      assert ((x - max_val) / max_val <= - (2))%Q; [|lra].
      apply Qdiv_le_neg_denominator; lra.
Qed.

End OvershootFacts.

Lemma match_expectation_above_one_witness :
  (-30 < -10)%Q /\ (-10 < 0)%Q /\ (-10 - -30 >= 2 * - -10)%Q /\
  exists q,
    match_expectation decimal_float (PList [PInt (-10); PInt (-5)])
      (PStr "-30") = Ok q /\ (1 <= q)%Q /\ (1 < q)%Q.
Proof.
  assert (-30 < -10)%Q as H1 by reflexivity.
  assert (-10 < 0)%Q as H2 by reflexivity.
  assert (-10 - -30 >= 2 * - -10)%Q as H3 by (intros H; discriminate H).
  split; [exact H1|]. split; [exact H2|]. split; [exact H3|].
  destruct (proj1 (match_expectation_above_one decimal_float
                     (PInt (-10)) (PInt (-5)) (-10)%Q (-5)%Q (PStr "-30")
                     (-30)%Q eq_refl eq_refl eq_refl) H1 H2 eq_refl)
    as (q & Hq & Hone & Htwo).
  exists q. split; [exact Hq|]. split; [exact Hone|]. exact (Htwo H3).
Defined.

(** ** The quality of a reported symptom *)

Section QualityFacts.
Variable float_of_str : string -> option Q.

Lemma match_loop_nonneg exps pdata tw ws tw' ws' :
  match_loop float_of_str exps pdata tw ws = Ok (tw', ws') ->
  (ws <= ws')%Q /\ (tw' == tw + inject_Z (Z.of_nat (length exps)))%Q.
Proof.
  revert tw ws. induction exps as [|[key ev] r IH]; intros tw ws.
  - intros [= <- <-]. split; [lra|]. simpl. ring.
  - cbn [match_loop].
    destruct (match_expectation float_of_str ev (default PNone (pdata !! key)))
      as [q|] eqn:E; simpl; [|done].
    intros H. apply IH in H as [Hws Htw].
    pose proof (match_expectation_nonneg float_of_str ev
                  (default PNone (pdata !! key)) q E) as Hq.
    split; [lra|].
    rewrite Htw. cbn [length].
    rewrite Nat2Z.inj_succ, <- Z.add_1_r, inject_Z_plus.
    change (inject_Z 1) with 1%Q. ring.
Qed.

Lemma data_fits_get (pdata : gmap string pyval) (key : string) :
  data_fits pdata -> too_large (default PNone (pdata !! key)) = false.
Proof.
  intros Hfit. destruct (pdata !! key) as [v|] eqn:E; [|done].
  by apply (Hfit key).
Qed.

Lemma match_loop_unit exps pdata tw ws :
  Forall (fun kv => safe_bounds kv.2 = true) exps -> data_fits pdata ->
  exists tw' ws',
    match_loop float_of_str exps pdata tw ws = Ok (tw', ws') /\
    (ws' - ws <= tw' - tw)%Q.
Proof.
  intros Hall Hfit. revert tw ws.
  induction Hall as [|[key ev] r Hev _ IH]; intros tw ws.
  - exists tw, ws. split; [done|lra].
  - cbn [match_loop].
    destruct (match_expectation_unit float_of_str ev
                (default PNone (pdata !! key)) Hev (data_fits_get _ _ Hfit))
      as (q & -> & Hq0 & Hq1).
    simpl.
    destruct (IH (tw + 1.0)%Q (ws + q * 1.0)%Q) as (tw' & ws' & -> & Hle).
    exists tw', ws'. split; [done|lra].
Qed.

Lemma match_loop_absent exps (pdata : gmap string pyval) tw ws :
  (forall k, k ∈ exps.*1 -> pdata !! k = None) ->
  exists tw' ws',
    match_loop float_of_str exps pdata tw ws = Ok (tw', ws') /\
    (ws' == ws)%Q /\
    (tw' == tw + inject_Z (Z.of_nat (length exps)))%Q.
Proof.
  revert tw ws. induction exps as [|[key ev] r IH]; intros tw ws Habs.
  - exists tw, ws. split; [done|]. split; [done|]. simpl. ring.
  - cbn [match_loop]. rewrite (Habs key) by (simpl; by left). simpl.
    destruct (IH (tw + 1.0)%Q (ws + 0.0 * 1.0)%Q) as (tw' & ws' & H & Hws & Htw).
    { intros k Hk. apply Habs. simpl. by right. }
    exists tw', ws'. split; [done|]. split; [rewrite Hws; ring|].
    rewrite Htw. cbn [length].
    rewrite Nat2Z.inj_succ, <- Z.add_1_r, inject_Z_plus.
    change (inject_Z 1) with 1%Q. ring.
Qed.

End QualityFacts.

Section QualityTheorems.
Variable float_of_str : string -> option Q.

Lemma match_loop_weight e r pdata tw' ws' :
  match_loop float_of_str (e :: r) pdata 0.0 0.0 = Ok (tw', ws') ->
  Qeq_bool tw' 0 = false /\ (0 < tw')%Q /\ (0 <= ws')%Q.
Proof.
  assert (0 < inject_Z (Z.of_nat (length (e :: r))))%Q as Hlen
    by (apply EngineA_More.inject_Z_pos; simpl; lia).
  intros H. apply match_loop_nonneg in H as [Hws Htw].
  assert (0 < tw')%Q by (rewrite Htw; lra).
  split; [|split; [done|lra]].
  apply not_true_iff_false. rewrite Qeq_bool_iff. lra.
Qed.

Lemma match_quality_nonneg cfg pdata q :
  calculate_symptom_match_score float_of_str cfg pdata = Ok q -> (0 <= q)%Q.
Proof.
  unfold calculate_symptom_match_score.
  destruct (sc_expectations cfg) as [|e r]; [intros [= <-]; lra|].
  destruct (match_loop float_of_str (e :: r) pdata 0.0 0.0)
    as [[tw' ws']|] eqn:El; simpl; [|done].
  destruct (match_loop_weight e r pdata tw' ws' El) as (-> & Htw & Hws).
  intros [= <-]. apply Qle_shift_div_l; lra.
Qed.

Lemma match_quality_unit cfg pdata :
  Forall (fun kv => safe_bounds kv.2 = true) (sc_expectations cfg) ->
  data_fits pdata ->
  exists q, calculate_symptom_match_score float_of_str cfg pdata = Ok q /\
            (0 <= q)%Q /\ (q <= 1)%Q.
Proof.
  unfold calculate_symptom_match_score.
  destruct (sc_expectations cfg) as [|e r].
  { intros _ _. eexists. split; [reflexivity|]. lra. }
  intros Hall Hfit.
  destruct (match_loop_unit float_of_str (e :: r) pdata 0.0 0.0 Hall Hfit)
    as (tw' & ws' & El & Hle).
  rewrite El. simpl.
  destruct (match_loop_weight e r pdata tw' ws' El) as (-> & Htw & Hws).
  eexists. split; [reflexivity|]. split.
  - apply Qle_shift_div_l; lra.
  - apply Qle_shift_div_r; lra.
Qed.

(** The match quality of a reported symptom is never negative. When all
    ranges the entry expects have bounds greater than zero, and neither
    such a bound nor a reported value is an [int] beyond the range of the
    floats, it is returned and lies between 0 and 1. When the entry has
    expectations and the report has a value under none of their keys, it
    is 0. *)
Theorem calculate_symptom_match_score_range
  (cfg : symptom_config) (pdata : gmap string pyval) :
  (forall q, calculate_symptom_match_score float_of_str cfg pdata = Ok q ->
             (0 <= q)%Q) /\
  (Forall (fun kv => safe_bounds kv.2 = true) (sc_expectations cfg) ->
   data_fits pdata ->
   exists q, calculate_symptom_match_score float_of_str cfg pdata = Ok q /\
             (0 <= q)%Q /\ (q <= 1)%Q) /\
  (sc_expectations cfg <> [] ->
   (forall k, k ∈ (sc_expectations cfg).*1 -> pdata !! k = None) ->
   exists q, calculate_symptom_match_score float_of_str cfg pdata = Ok q /\
             (q == 0)%Q).
Proof.
  split; [apply match_quality_nonneg|]. split; [apply match_quality_unit|].
  unfold calculate_symptom_match_score.
  destruct (sc_expectations cfg) as [|e r]; [done|].
  intros _ Habs.
  destruct (match_loop_absent float_of_str (e :: r) pdata 0.0 0.0 Habs)
    as (tw' & ws' & El & Hws & _).
  rewrite El. simpl.
  destruct (match_loop_weight e r pdata tw' ws' El) as (-> & Htw & _).
  eexists. split; [reflexivity|]. rewrite Hws. field. lra.
Qed.

End QualityTheorems.

Lemma calculate_symptom_match_score_range_witness :
  let cfg := {| sc_importance := Some 0.8%Q; sc_note := None;
                sc_expectations :=
                  [("intensity", PList [PInt 5; PInt 10]);
                   ("onset", PList [PStr "sudden"])] |} in
  let reported : gmap string pyval := {[ "intensity" := PInt 12 ]} in
  let silent : gmap string pyval := {[ "present" := PBool true ]} in
  Forall (fun kv => safe_bounds kv.2 = true) (sc_expectations cfg) /\
  data_fits reported /\
  sc_expectations cfg <> [] /\
  (exists q, calculate_symptom_match_score decimal_float cfg reported = Ok q /\
             (0 <= q)%Q /\ (q <= 1)%Q) /\
  (exists q, calculate_symptom_match_score decimal_float cfg silent = Ok q /\
             (q == 0)%Q).
Proof.
  intros cfg reported silent.
  assert (Forall (fun kv => safe_bounds kv.2 = true) (sc_expectations cfg))
    as H1 by (repeat constructor).
  assert (data_fits reported) as Hfit.
  { intros k v [_ <-]%lookup_singleton_Some. reflexivity. }
  assert (sc_expectations cfg <> []) as H2 by discriminate.
  split; [exact H1|]. split; [exact Hfit|]. split; [exact H2|].
  split.
  - exact (proj1 (proj2
      (calculate_symptom_match_score_range decimal_float cfg reported))
      H1 Hfit).
  - apply (proj2 (proj2
      (calculate_symptom_match_score_range decimal_float cfg silent)) H2).
    intros k Hk. subst silent.
    apply lookup_singleton_None. intros <-. revert Hk. compute_done.
Defined.

(** ** The evidence and the confidence of a diagnosis *)

Section TallyFacts.
Variable float_of_str : string -> option Q.

Lemma empty_tally_consistent patient names :
  consistent_tally patient names empty_tally.
Proof. unfold consistent_tally. simpl. repeat split; (lra || constructor). Qed.

Lemma score_symptom_consistent patient names t s cfg t' :
  s ∈ names -> consistent_tally patient names t ->
  score_symptom float_of_str patient t (s, cfg) = Ok t' ->
  consistent_tally patient names t'.
Proof.
  intros Hs (Htot & Hmax & Hm & Hp & Hmi & Hn). unfold score_symptom.
  destruct (Qltb (get_importance cfg) 0) eqn:Eneg.
  - pose proof (Qabs_nonneg (get_importance cfg)) as Habs.
    destruct (patient !! s) as [pd|] eqn:Ep; intros [= <-];
      unfold consistent_tally; simpl; repeat split; try done; try lra.
    apply Forall_app. split; [done|]. by repeat constructor.
  - apply Qltb_ge in Eneg.
    destruct (patient !! s) as [pd|] eqn:Ep.
    + destruct (calculate_symptom_match_score float_of_str cfg pd)
        as [q|] eqn:Eq; simpl; [|done].
      pose proof (match_quality_nonneg float_of_str cfg pd q Eq) as Hq.
      assert (0 <= get_importance cfg * q)%Q by by apply Qmult_le_0_compat.
      intros [= <-]. unfold consistent_tally. simpl.
      repeat split; try done; try lra.
      * destruct (Qle_bool 0.8 q) eqn:E8; [|done].
        apply Qle_bool_iff in E8.
        apply Forall_app. split; [done|]. repeat constructor; simpl; try done.
        apply py_round_ge. change (inject_Z 80) with 80%Q. lra.
      * destruct (Qle_bool 0.8 q) eqn:E8; [done|].
        apply not_true_iff_false in E8. rewrite Qle_bool_iff in E8.
        apply Qnot_le_lt in E8.
        destruct (Qltb 0 q); [|done].
        apply Forall_app. split; [done|]. repeat constructor; simpl; try done.
        -- apply py_round_ge. change (inject_Z 0) with 0%Q. lra.
        -- apply py_round_le. change (inject_Z 80) with 80%Q. lra.
    + intros [= <-]. unfold consistent_tally. simpl.
      repeat split; try done; try lra.
      destruct (Qle_bool 0.7 (get_importance cfg)) eqn:E7; [|done].
      apply Qle_bool_iff in E7.
      apply Forall_app. split; [done|]. repeat constructor; simpl; try done.
      apply py_round_ge. change (inject_Z 70) with 70%Q. lra.
Qed.

Lemma score_symptoms_consistent patient names entries t t' :
  entries.*1 ⊆ names -> consistent_tally patient names t ->
  score_symptoms float_of_str patient t entries = Ok t' ->
  consistent_tally patient names t'.
Proof.
  revert t. induction entries as [|[s cfg] r IH]; intros t Hsub Ht.
  - by intros [= <-].
  - cbn [score_symptoms].
    destruct (score_symptom float_of_str patient t (s, cfg)) as [t1|] eqn:E;
      simpl; [|done].
    apply IH.
    + intros x Hx. apply Hsub. simpl. by right.
    + eapply score_symptom_consistent; [|exact Ht|exact E].
      apply Hsub. simpl. by left.
Qed.

Lemma collect_elem patient profiles rs r :
  collect float_of_str patient profiles = Ok rs -> r ∈ rs ->
  exists profile, profile ∈ profiles /\
    diagnose_disease float_of_str patient profile = Ok (Some r).
Proof.
  revert rs. induction profiles as [|p ps IH]; intros rs; simpl.
  - intros [= <-] H. by apply elem_of_nil in H.
  - destruct (diagnose_disease float_of_str patient p) as [o|] eqn:E;
      simpl; [|done].
    destruct (collect float_of_str patient ps) as [rs'|]; simpl; [|done].
    intros [= <-] Hr.
    destruct o as [x|].
    + apply elem_of_cons in Hr as [->|Hr].
      * exists p. split; [by left|done].
      * destruct (IH rs' eq_refl Hr) as (q & Hq & Hd).
        exists q. split; [by right|done].
    + destruct (IH rs' eq_refl Hr) as (q & Hq & Hd).
      exists q. split; [by right|done].
Qed.

(** A returned diagnosis is the record of a profile with its tally. *)
Lemma diagnose_result patient profiles out r :
  diagnose float_of_str profiles patient = Ok out -> r ∈ out ->
  exists name data t,
    (name, data) ∈ profiles /\
    score_symptoms float_of_str patient empty_tally (dd_symptoms data) = Ok t /\
    consistent_tally patient (dd_symptoms data).*1 t /\
    no_evidence t = false /\
    disease r = name /\
    common_name r = default name (dd_common_name data) /\
    category r = default "General" (dd_category data) /\
    confidence r = py_round_n (confidence_of (get_prevalence data) t) 1 /\
    matched_symptoms r = t_matched t /\ partially_matched r = t_partial t /\
    missing_symptoms r = t_missing t /\ negative_matches r = t_negative t.
Proof.
  unfold diagnose.
  destruct (collect float_of_str patient profiles) as [rs|] eqn:E; simpl; [|done].
  intros [= <-] Hr. rewrite sort_desc_perm in Hr.
  destruct (collect_elem _ _ _ _ E Hr) as ([name data] & Hin & Hd).
  exists name, data. unfold diagnose_disease in Hd.
  destruct (dd_symptoms data) as [|e es] eqn:Es; [done|].
  destruct (score_symptoms float_of_str patient empty_tally (e :: es))
    as [t|] eqn:Et; simpl in Hd; [|done].
  exists t. destruct (no_evidence t) eqn:Ev; [done|].
  assert (consistent_tally patient (e :: es).*1 t) as Hcons.
  { eapply score_symptoms_consistent; [done| |exact Et].
    apply empty_tally_consistent. }
  injection Hd as <-. simpl.
  split; [done|]. split; [done|]. split; [exact Hcons|]. by repeat split.
Qed.

End TallyFacts.

Lemma py_min_le_l (a b : Q) : (py_min a b <= a)%Q.
Proof.
  unfold py_min. destruct (Qltb b a) eqn:E; [|lra].
  apply Qltb_lt in E. lra.
Qed.

Section DiagnosisTheorems.
Variable float_of_str : string -> option Q.

(** The confidence of a returned diagnosis is at most 100, and it is not
    negative when no profile has a negative prevalence. *)
Theorem diagnose_confidence_bounds profiles patient out r :
  diagnose float_of_str profiles patient = Ok out -> r ∈ out ->
  (confidence r <= 100)%Q /\
  ((forall name data, (name, data) ∈ profiles ->
                      (0 <= get_prevalence data)%Q) ->
   (0 <= confidence r)%Q).
Proof.
  intros Hd Hr.
  destruct (diagnose_result float_of_str _ _ _ _ Hd Hr)
    as (name & data & t & Hin & _ & (Htot & Hmax & _) & _ & _ & _ & _ & -> & _).
  split.
  - apply (py_round_n_le 100). apply py_min_le_l.
  - intros Hprev. specialize (Hprev name data Hin).
    apply (py_round_n_ge 0). unfold confidence_of.
    apply EngineA_More.py_min_nonneg; [done|].
    apply Qmult_le_0_compat; [|lra].
    destruct (Qltb 0 (max_possible_score t)) eqn:E; [|done].
    apply Qltb_lt in E. apply Qmult_le_0_compat; [|done].
    by apply EngineA_More.Qdiv_nonneg.
Qed.

(** Every returned diagnosis is that of a profile and has evidence of some
    kind. Its matched and partly matched symptoms are symptoms of the
    profile that the patient reports, with a match quality of at least 80
    for the first and between 0 and 80 for the second; its missing and
    negative symptoms are symptoms of the profile that the patient does not
    report, the missing ones with an importance of at least 70. *)
Theorem diagnose_evidence profiles patient out r :
  diagnose float_of_str profiles patient = Ok out -> r ∈ out ->
  exists data,
    (disease r, data) ∈ profiles /\
    (matched_symptoms r <> [] \/ partially_matched r <> [] \/
     negative_matches r <> []) /\
    Forall (fun e => me_symptom e ∈ (dd_symptoms data).*1 /\
                     is_Some (patient !! me_symptom e) /\
                     80 <= me_match_quality e) (matched_symptoms r) /\
    Forall (fun e => me_symptom e ∈ (dd_symptoms data).*1 /\
                     is_Some (patient !! me_symptom e) /\
                     0 <= me_match_quality e <= 80) (partially_matched r) /\
    Forall (fun e => mi_symptom e ∈ (dd_symptoms data).*1 /\
                     patient !! mi_symptom e = None /\
                     70 <= mi_importance e) (missing_symptoms r) /\
    Forall (fun e => ne_symptom e ∈ (dd_symptoms data).*1 /\
                     patient !! ne_symptom e = None) (negative_matches r).
Proof.
  intros Hd Hr.
  destruct (diagnose_result float_of_str _ _ _ _ Hd Hr)
    as (name & data & t & Hin & _ & (_ & _ & Hm & Hp & Hmi & Hn) & Hev &
        <- & _ & _ & _ & -> & -> & -> & ->).
  exists data. split; [done|]. split; [|done].
  unfold no_evidence in Hev.
  destruct (t_matched t); [|by left].
  destruct (t_partial t); [|by right; left].
  destruct (t_negative t); [done|by right; right].
Qed.

(** ** Profiles on which [diagnose] cannot raise *)




(** ** Reports *)

Lemma score_symptoms_insert_ne patient s d entries t :
  s ∉ entries.*1 ->
  score_symptoms float_of_str (<[s := d]> patient) t entries =
  score_symptoms float_of_str patient t entries.
Proof.
  revert t. induction entries as [|[s' cfg] r IH]; intros t Hs; [done|].
  cbn [score_symptoms]. simpl in Hs. apply not_elem_of_cons in Hs as [Hne Hr].
  assert (score_symptom float_of_str (<[s := d]> patient) t (s', cfg) =
          score_symptom float_of_str patient t (s', cfg)) as ->.
  { unfold score_symptom. by rewrite lookup_insert_ne. }
  destruct (score_symptom float_of_str patient t (s', cfg)); simpl; [|done].
  by apply IH.
Qed.

(** A reported symptom that no profile mentions has no effect on the
    outcome. *)
Theorem diagnose_unmentioned_symptom profiles patient s d :
  (forall name data, (name, data) ∈ profiles -> s ∉ (dd_symptoms data).*1) ->
  diagnose float_of_str profiles (<[s := d]> patient) =
  diagnose float_of_str profiles patient.
Proof.
  intros Hs. unfold diagnose. f_equal.
  induction profiles as [|[name data] ps IH]; [done|].
  cbn [collect].
  assert (diagnose_disease float_of_str (<[s := d]> patient) (name, data) =
          diagnose_disease float_of_str patient (name, data)) as ->.
  { unfold diagnose_disease. destruct (dd_symptoms data) as [|e es] eqn:Es; [done|].
    rewrite score_symptoms_insert_ne; [done|].
    rewrite <- Es. apply (Hs name data). by left. }
  rewrite IH; [done|]. intros name' data' Hin. apply (Hs name' data'). by right.
Qed.



End DiagnosisTheorems.

Lemma diagnose_confidence_bounds_witness :
  let profiles :=
    [("Cold",
      {| dd_common_name := None; dd_category := None; dd_prevalence := None;
         dd_symptoms :=
           [("Cough", {| sc_importance := None; sc_note := None;
                         sc_expectations := [] |});
            ("Fever", {| sc_importance := Some 0.5%Q; sc_note := None;
                         sc_expectations := [] |})] |})] in
  let patient : gmap string (gmap string pyval) :=
    {[ "Cough" := {[ "present" := PBool true ]} ]} in
  let r :=
    {| disease := "Cold"; common_name := "Cold"; category := "General";
       confidence := 50.5;
       matched_symptoms :=
         [{| me_symptom := "Cough"; me_match_quality := 100;
             me_importance := 50 |}];
       partially_matched := []; missing_symptoms := [];
       negative_matches := [];
       explanation := "Strong match on: Cough" |} in
  diagnose decimal_float profiles patient = Ok [r] /\ r ∈ [r] /\
  (forall name data, (name, data) ∈ profiles -> (0 <= get_prevalence data)%Q) /\
  (0 <= confidence r)%Q /\ (confidence r <= 100)%Q.
Proof.
  intros profiles patient r.
  assert (diagnose decimal_float profiles patient = Ok [r]) as Hd
    by (by vm_compute).
  assert (r ∈ [r]) as Hr by (left).
  assert (forall name data, (name, data) ∈ profiles ->
                            (0 <= get_prevalence data)%Q) as Hp.
  { intros name data Hin. apply list_elem_of_singleton in Hin.
    injection Hin as -> ->. intros H. discriminate H. }
  split; [exact Hd|]. split; [exact Hr|]. split; [exact Hp|].
  destruct (diagnose_confidence_bounds decimal_float profiles patient [r] r
              Hd Hr) as [Hle Hge].
  split; [exact (Hge Hp) | exact Hle].
Defined.

Lemma diagnose_evidence_witness :
  let profiles :=
    [("Cold",
      {| dd_common_name := None; dd_category := None; dd_prevalence := None;
         dd_symptoms :=
           [("Cough", {| sc_importance := None; sc_note := None;
                         sc_expectations := [] |});
            ("Fever", {| sc_importance := Some 0.5%Q; sc_note := None;
                         sc_expectations := [] |})] |})] in
  let patient : gmap string (gmap string pyval) :=
    {[ "Cough" := {[ "present" := PBool true ]} ]} in
  let r :=
    {| disease := "Cold"; common_name := "Cold"; category := "General";
       confidence := 50.5;
       matched_symptoms :=
         [{| me_symptom := "Cough"; me_match_quality := 100;
             me_importance := 50 |}];
       partially_matched := []; missing_symptoms := [];
       negative_matches := [];
       explanation := "Strong match on: Cough" |} in
  diagnose decimal_float profiles patient = Ok [r] /\ r ∈ [r] /\
  Forall (fun e => is_Some (patient !! me_symptom e) /\ 80 <= me_match_quality e)
    (matched_symptoms r).
Proof.
  intros profiles patient r.
  assert (diagnose decimal_float profiles patient = Ok [r]) as Hd
    by (by vm_compute).
  assert (r ∈ [r]) as Hr by (left).
  split; [exact Hd|]. split; [exact Hr|].
  destruct (diagnose_evidence decimal_float profiles patient [r] r Hd Hr)
    as (data & _ & _ & Hm & _).
  eapply Forall_impl; [exact Hm|]. intros e (_ & H1 & H2). by split.
Defined.


Lemma diagnose_unmentioned_symptom_witness :
  let profiles :=
    [("Cold",
      {| dd_common_name := None; dd_category := None; dd_prevalence := None;
         dd_symptoms :=
           [("Cough", {| sc_importance := Some 0.8%Q; sc_note := None;
                         sc_expectations := [] |})] |})] in
  let patient : gmap string (gmap string pyval) :=
    {[ "Cough" := {[ "present" := PBool true ]} ]} in
  (forall name data, (name, data) ∈ profiles ->
                     "Itch" ∉ (dd_symptoms data).*1) /\
  diagnose decimal_float profiles (<["Itch" := ∅]> patient) =
  diagnose decimal_float profiles patient.
Proof.
  intros profiles patient.
  assert (forall name data, (name, data) ∈ profiles ->
                            "Itch" ∉ (dd_symptoms data).*1) as H.
  { intros name data Hin. apply list_elem_of_singleton in Hin.
    injection Hin as -> ->. compute_done. }
  split; [exact H|].
  exact (diagnose_unmentioned_symptom decimal_float profiles patient "Itch" ∅ H).
Defined.

(** ** A report that meets a profile in full *)

Section FullMatchFacts.
Variable float_of_str : string -> option Q.

Lemma score_symptom_fully_met patient t s cfg :
  fully_met float_of_str patient (s, cfg) ->
  exists t',
    score_symptom float_of_str patient t (s, cfg) = Ok t' /\
    (total_score t' == total_score t + Qabs (get_importance cfg))%Q /\
    (max_possible_score t' ==
     max_possible_score t + Qabs (get_importance cfg))%Q /\
    t_missing t' = t_missing t /\ no_evidence t' = false.
Proof.
  unfold fully_met, score_symptom. simpl.
  destruct (Qltb (get_importance cfg) 0) eqn:Eneg.
  - intros ->. eexists. split; [reflexivity|]. simpl.
    split; [done|]. split; [done|]. split; [done|].
    unfold no_evidence. simpl.
    by destruct (t_matched t), (t_partial t), (t_negative t).
  - intros (pd & q & -> & -> & Hq). apply Qltb_ge in Eneg.
    assert (Qle_bool 0.8 q = true) as E8 by (apply Qle_bool_iff; lra).
    eexists. split; [reflexivity|]. simpl. rewrite E8.
    rewrite (Qabs_pos _ Eneg).
    split; [rewrite Hq; ring|]. split; [done|]. split; [done|].
    unfold no_evidence. simpl.
    by destruct (t_matched t), (t_partial t), (t_negative t).
Qed.

Lemma score_symptoms_fully_met patient entries t :
  Forall (fully_met float_of_str patient) entries ->
  exists t',
    score_symptoms float_of_str patient t entries = Ok t' /\
    (total_score t' - total_score t ==
     max_possible_score t' - max_possible_score t)%Q /\
    (max_possible_score t <= max_possible_score t')%Q /\
    (Exists (fun e => ~ (get_importance e.2 == 0)%Q) entries ->
     (max_possible_score t < max_possible_score t')%Q) /\
    t_missing t' = t_missing t /\
    (entries <> [] \/ no_evidence t = false -> no_evidence t' = false).
Proof.
  intros Hall. revert t.
  induction Hall as [|[s cfg] r Hmet _ IH]; intros t.
  - exists t. split; [done|]. split; [lra|]. split; [lra|].
    split; [by intros ?%Exists_nil|]. split; [done|]. by intros [?|?].
  - cbn [score_symptoms].
    destruct (score_symptom_fully_met patient t s cfg Hmet)
      as (t1 & -> & Htot & Hmax & Hmiss & Hev). simpl.
    destruct (IH t1) as (t' & -> & Hdiff & Hle & Hlt & Hmiss' & Hev').
    pose proof (Qabs_nonneg (get_importance cfg)) as Habs.
    exists t'. split; [done|]. split; [lra|]. split; [lra|].
    split; [|split; [congruence|]].
    + intros [Hne|Hex]%Exists_cons; [|specialize (Hlt Hex); lra].
      assert (0 < Qabs (get_importance cfg))%Q; [|lra].
      simpl in Hne. destruct (Qlt_le_dec (get_importance cfg) 0) as [Hn|Hp].
      * rewrite Qabs_neg by lra. lra.
      * rewrite Qabs_pos by done.
        destruct (Qlt_le_dec 0 (get_importance cfg)); [done|].
        exfalso. apply Hne. lra.
    + intros _. apply Hev'. by right.
Qed.

End FullMatchFacts.

Section FullMatchTheorems.
Variable float_of_str : string -> option Q.

(** When the report meets every entry of a profile (each symptom whose
    absence supports the diagnosis is not reported, every other symptom is
    reported with the match quality 1), some importance of the profile is
    not zero and its prevalence is not negative, the disease is diagnosed
    with the confidence 100 and no missing symptom. *)
Theorem diagnose_full_match profiles patient out name data :
  diagnose float_of_str profiles patient = Ok out ->
  (name, data) ∈ profiles ->
  Forall (fully_met float_of_str patient) (dd_symptoms data) ->
  Exists (fun e => ~ (get_importance e.2 == 0)%Q) (dd_symptoms data) ->
  (0 <= get_prevalence data)%Q ->
  exists r, r ∈ out /\ disease r = name /\ (confidence r == 100)%Q /\
            missing_symptoms r = [].
Proof.
  intros Hout Hin Hall Hex Hprev.
  apply list_elem_of_split in Hin as (pre & post & ->).
  destruct (score_symptoms_fully_met float_of_str patient (dd_symptoms data)
              empty_tally Hall) as (t & Ht & Hdiff & _ & Hlt & Hmiss & Hev).
  specialize (Hlt Hex). cbn [empty_tally total_score max_possible_score] in *.
  assert (dd_symptoms data <> []) as Hne
    by (intros E; rewrite E in Hex; by apply Exists_nil in Hex).
  specialize (Hev (or_introl Hne)).
  eexists. split; [|split; [|split]].
  - eapply (diagnose_keep float_of_str patient pre post (name, data));
      [|exact Hout].
    unfold diagnose_disease. destruct (dd_symptoms data) as [|e es]; [done|].
    rewrite Ht. simpl. rewrite Hev. reflexivity.
  - done.
  - cbn [confidence]. unfold confidence_of.
    assert (Qltb 0 (max_possible_score t) = true) as ->
      by (apply Qltb_lt; lra).
    assert (total_score t / max_possible_score t == 1)%Q as Hone
      by (field_simplify_eq; lra).
    unfold py_min.
    destruct (Qltb _ 100) eqn:E.
    + exfalso. apply Qltb_lt in E. rewrite Hone in E. lra.
    + by vm_compute.
  - cbn [missing_symptoms]. by rewrite Hmiss.
Qed.

End FullMatchTheorems.

Lemma diagnose_full_match_witness :
  let profiles :=
    [("Strep",
      {| dd_common_name := None; dd_category := None; dd_prevalence := None;
         dd_symptoms :=
           [("Sore Throat", {| sc_importance := Some 0.9%Q; sc_note := None;
                               sc_expectations :=
                                 [("intensity", PList [PInt 5; PInt 10])] |});
            ("Cough", {| sc_importance := Some (-0.6)%Q; sc_note := None;
                         sc_expectations := [] |})] |})] in
  let patient : gmap string (gmap string pyval) :=
    {[ "Sore Throat" := {[ "intensity" := PInt 8 ]} ]} in
  exists out r,
    diagnose decimal_float profiles patient = Ok out /\
    r ∈ out /\ disease r = "Strep" /\ (confidence r == 100)%Q.
Proof.
  intros profiles patient.
  assert (exists out, diagnose decimal_float profiles patient = Ok out)
    as [out Hout] by (eexists; by vm_compute).
  exists out.
  destruct (diagnose_full_match decimal_float profiles patient out "Strep"
              (default
                 {| dd_common_name := None; dd_category := None;
                    dd_prevalence := None; dd_symptoms := [] |}
                 (assoc "Strep" profiles)) Hout)
    as (r & Hr & Hd & Hc & _).
  - left.
  - constructor; [|constructor; [reflexivity|constructor]].
    unfold fully_met. cbn [fst snd].
    assert (Qltb (get_importance
              {| sc_importance := Some 0.9%Q; sc_note := None;
                 sc_expectations :=
                   [("intensity", PList [PInt 5; PInt 10])] |}) 0 = false)
      as -> by reflexivity.
    eexists _, _. split; [reflexivity|]. split; [by vm_compute|].
    by vm_compute.
  - left. by vm_compute.
  - by vm_compute.
  - exists r. by repeat split.
Defined.

(** ** The order of the diagnoses *)

Section RankingFacts.
Variable float_of_str : string -> option Q.

Lemma collect_sublist patient profiles rs :
  collect float_of_str patient profiles = Ok rs ->
  disease <$> rs `sublist_of` profiles.*1.
Proof.
  revert rs. induction profiles as [|[name data] ps IH]; intros rs;
    cbn [collect].
  - intros [= <-]. constructor.
  - destruct (diagnose_disease float_of_str patient (name, data)) as [o|] eqn:E;
      simpl; [|done].
    destruct (collect float_of_str patient ps) as [rs'|]; simpl; [|done].
    intros [= <-]. specialize (IH rs' eq_refl).
    destruct o as [r|]; [|by constructor].
    assert (disease r = name) as <-; [|by constructor].
    unfold diagnose_disease in E. destruct (dd_symptoms data); [done|].
    destruct (score_symptoms _ _ _ _) as [t|]; simpl in E; [|done].
    destruct (no_evidence t); [done|]. by injection E as <-.
Qed.

(** Diagnoses with the same confidence come in the order of their profiles
    in the file; there are at most as many diagnoses as profiles, and no
    disease is diagnosed twice. *)
Theorem diagnose_ties_in_profile_order profiles patient out :
  diagnose float_of_str profiles patient = Ok out ->
  (forall k, disease <$> with_key confidence k out `sublist_of` profiles.*1) /\
  (length out <= length profiles)%nat /\
  (NoDup profiles.*1 -> NoDup (disease <$> out)).
Proof.
  unfold diagnose.
  destruct (collect float_of_str patient profiles) as [rs|] eqn:E;
    simpl; [|done].
  intros [= <-]. apply collect_sublist in E.
  split; [|split].
  - intros k. rewrite sort_desc_stable. etrans; [|exact E].
    apply fmap_sublist. unfold with_key. apply sublist_filter.
  - rewrite sort_desc_perm.
    apply sublist_length in E. by rewrite !length_fmap in E.
  - intros Hnd. rewrite sort_desc_perm. by eapply sublist_NoDup.
Qed.

End RankingFacts.

Lemma diagnose_ties_in_profile_order_witness :
  let entry := {| sc_importance := None; sc_note := None;
                  sc_expectations := [] |} in
  let profile := {| dd_common_name := None; dd_category := None;
                    dd_prevalence := None;
                    dd_symptoms := [("Cough", entry)] |} in
  let profiles := [("Cold", profile); ("Bronchitis", profile)] in
  let patient : gmap string (gmap string pyval) := {[ "Cough" := ∅ ]} in
  exists out,
    diagnose decimal_float profiles patient = Ok out /\
    disease <$> with_key confidence 100 out `sublist_of` profiles.*1.
Proof.
  intros entry profile profiles patient.
  assert (exists out, diagnose decimal_float profiles patient = Ok out)
    as [out H] by (eexists; by vm_compute).
  exists out. split; [exact H|].
  exact (proj1 (diagnose_ties_in_profile_order decimal_float profiles patient
                  out H) 100%Q).
Defined.

Lemma match_expectation_score_range_witness :
  safe_bounds (PList [PInt 5; PInt 10]) = true /\
  too_large (PInt 12) = false /\
  exists q,
    match_expectation decimal_float (PList [PInt 5; PInt 10]) (PInt 12)
      = Ok q /\ (0 <= q)%Q /\ (q <= 1)%Q.
Proof.
  assert (safe_bounds (PList [PInt 5; PInt 10]) = true) as H
    by reflexivity.
  assert (too_large (PInt 12) = false) as Hfit by reflexivity.
  split; [exact H|]. split; [exact Hfit|].
  exact (proj2 (match_expectation_score_range decimal_float
                  (PList [PInt 5; PInt 10]) (PInt 12)) H Hfit).
Defined.


End EngineB_More.

(** * The HTTP layers: properties *)

Module Api_Props.
Import EngineB EngineB_Terms.

(** ** Loading *)

Lemma elem_of_drop_metadata {V} (items : list (string * V)) k v :
  (k, v) ∈ drop_metadata items <-> (k, v) ∈ items /\ is_metadata k = false.
Proof.
  unfold drop_metadata. rewrite !list_elem_of_In, List.filter_In. simpl.
  by rewrite negb_true_iff.
Qed.

(** The loaded profiles hold no entry whose key begins with an underscore,
    loading what was loaded changes nothing, and no diagnosis is ever
    returned for such an entry of the profile file. *)
Theorem load_disease_profiles_no_metadata
  (float_of_str : string -> option Q)
  (parsed : list (string * disease_data))
  (patient : gmap string (gmap string pyval)) :
  load_disease_profiles (load_disease_profiles parsed) =
    load_disease_profiles parsed /\
  (forall k v, (k, v) ∈ load_disease_profiles parsed <->
               (k, v) ∈ parsed /\ is_metadata k = false) /\
  (forall out r,
     diagnose float_of_str (load_disease_profiles parsed) patient = Ok out ->
     r ∈ out -> is_metadata (disease r) = false).
Proof.
  unfold load_disease_profiles. split; [|split].
  - unfold drop_metadata. induction parsed as [|[k v] r IH]; simpl; [done|].
    destruct (is_metadata k) eqn:E; simpl; [done|]. by rewrite E, IH.
  - intros k v. apply elem_of_drop_metadata.
  - intros out r Hd Hr.
    destruct (EngineB_More.diagnose_result float_of_str _ _ _ _ Hd Hr)
      as (name & data & t & Hin & _ & _ & _ & <- & _).
    by apply elem_of_drop_metadata in Hin as [_ ?].
Qed.

Lemma load_disease_profiles_no_metadata_witness :
  let parsed :=
    [("_meta",
      {| dd_common_name := None; dd_category := None; dd_prevalence := None;
         dd_symptoms :=
           [("Cough", {| sc_importance := Some 0.8%Q; sc_note := None;
                         sc_expectations := [] |})] |});
     ("Cold",
      {| dd_common_name := None; dd_category := None; dd_prevalence := None;
         dd_symptoms :=
           [("Cough", {| sc_importance := Some 0.8%Q; sc_note := None;
                         sc_expectations := [] |})] |})] in
  let patient : gmap string (gmap string pyval) :=
    {[ "Cough" := {[ "present" := PBool true ]} ]} in
  let r :=
    {| disease := "Cold"; common_name := "Cold"; category := "General";
       confidence := 100.0;
       matched_symptoms :=
         [{| me_symptom := "Cough"; me_match_quality := 100;
             me_importance := 80 |}];
       partially_matched := []; missing_symptoms := [];
       negative_matches := [];
       explanation := "Strong match on: Cough" |} in
  diagnose decimal_float (load_disease_profiles parsed) patient = Ok [r] /\
  is_metadata (disease r) = false.
Proof.
  intros parsed patient r.
  assert (diagnose decimal_float (load_disease_profiles parsed) patient = Ok [r])
    as Hd by (by vm_compute).
  split; [exact Hd|].
  refine (proj2 (proj2 (load_disease_profiles_no_metadata decimal_float parsed
                          patient)) [r] r Hd _).
  by left.
Defined.

(** ** The details of a disease *)

Import ApiB.

Lemma assoc_elem {V} (k : string) (items : list (string * V)) v :
  assoc k items = Some v -> (k, v) ∈ items.
Proof.
  induction items as [|[k' v'] r IH]; simpl; [done|].
  destruct (String.eqb_spec k' k) as [->|Hne].
  - intros [= ->]. by left.
  - intros H. right. by apply IH.
Qed.

Lemma assoc_None {V} (k : string) (items : list (string * V)) :
  assoc k items = None -> forall v, (k, v) ∉ items.
Proof.
  induction items as [|[k' v'] r IH]; simpl; intros H v.
  - apply not_elem_of_nil.
  - destruct (String.eqb_spec k' k) as [->|Hne]; [done|].
    apply not_elem_of_cons. split; [congruence|by apply IH].
Qed.

Lemma first_caseless_Some {V} (id : string) (items : list (string * V)) key v :
  first_caseless id items = Some (key, v) ->
  lower key = lower id /\
  exists pre post,
    items = pre ++ (key, v) :: post /\
    forall k w, (k, w) ∈ pre -> lower k <> lower id.
Proof.
  induction items as [|[k' v'] r IH]; simpl; [done|].
  destruct (String.eqb_spec (lower k') (lower id)) as [Heq|Hne].
  - intros [= -> ->]. split; [done|]. exists [], r. split; [done|].
    intros k w H. by apply elem_of_nil in H.
  - intros H. destruct (IH H) as (Hl & pre & post & -> & Hpre).
    split; [done|]. exists ((k', v') :: pre), post. split; [done|].
    intros k w [[= -> ->]|Hin]%elem_of_cons; [done|by eapply Hpre].
Qed.

Lemma first_caseless_None {V} (id : string) (items : list (string * V)) :
  first_caseless id items = None ->
  forall key v, (key, v) ∈ items -> lower key <> lower id.
Proof.
  induction items as [|[k' v'] r IH]; simpl; intros H key v Hin.
  - by apply elem_of_nil in Hin.
  - destruct (String.eqb_spec (lower k') (lower id)) as [Heq|Hne]; [done|].
    apply elem_of_cons in Hin as [[= -> ->]|Hin]; [done|by eapply IH].
Qed.

Lemma lower_ascii_underscore (c : ascii) :
  lower_ascii c = "_"%char -> c = "_"%char.
Proof. destruct c as [[] [] [] [] [] [] [] []]; by vm_compute. Qed.

Lemma is_metadata_lower (a b : string) :
  lower a = lower b -> is_metadata a = is_metadata b.
Proof.
  destruct a as [|c r], b as [|c' r']; try done.
  intros H. cbn [lower] in H. injection H as Hc _.
  destruct (decide (c = "_"%char)) as [->|Hn].
  - symmetry in Hc. apply lower_ascii_underscore in Hc. by subst.
  - destruct (decide (c' = "_"%char)) as [->|Hn'].
    + apply lower_ascii_underscore in Hc. done.
    + assert (forall x : ascii, x <> "_"%char ->
                forall s, is_metadata (String x s) = false) as Hf.
      { intros x Hx s.
        destruct x as [[] [] [] [] [] [] [] []]; try reflexivity. done. }
      by rewrite !Hf.
Qed.

(** A disease is found when the requested name is the key of a loaded
    profile, or else equals such a key without regard to case; the answer
    then is for that key, the requested one if it is a key itself, and else
    the first of the loaded keys that equals it without regard to case. No
    entry whose key begins with an underscore is ever found, and no name
    that begins with one. *)
Theorem get_disease_details_lookup
  (parsed : list (string * disease_data)) (disease_id : string) :
  match get_disease_details parsed disease_id with
  | Found det =>
      lower (det_id det) = lower disease_id /\
      is_metadata (det_id det) = false /\
      is_metadata disease_id = false /\
      ((exists data, (disease_id, data) ∈ parsed) -> det_id det = disease_id) /\
      exists pre post data,
        load_disease_profiles parsed = pre ++ (det_id det, data) :: post /\
        (det_id det, data) ∈ parsed /\
        det = details_of (det_id det) data /\
        (det_id det <> disease_id ->
         forall key data', (key, data') ∈ pre ->
                           lower key <> lower disease_id)
  | NotFound error =>
      error = "Disease '" +:+ disease_id +:+ "' not found" /\
      forall key data, (key, data) ∈ parsed ->
        lower key = lower disease_id -> is_metadata key = true
  end.
Proof.
  unfold get_disease_details, load_disease_profiles.
  destruct (assoc disease_id (drop_metadata parsed)) as [data|] eqn:Ea.
  - apply assoc_elem in Ea.
    destruct (list_elem_of_split _ _ Ea) as (pre & post & Hsplit).
    apply elem_of_drop_metadata in Ea as [Hin Hm]. simpl.
    do 4 (split; [done|]). exists pre, post, data. by repeat split.
  - destruct (first_caseless disease_id (drop_metadata parsed))
      as [[key data]|] eqn:Ef.
    + apply first_caseless_Some in Ef as (Hl & pre & post & Hsplit & Hpre).
      assert ((key, data) ∈ drop_metadata parsed) as Hin
        by (rewrite Hsplit, elem_of_app; right; by left).
      apply elem_of_drop_metadata in Hin as [Hin Hm]. simpl.
      split; [done|]. split; [done|].
      split; [by rewrite <- (is_metadata_lower key disease_id Hl)|].
      split.
      * intros [data' Hin']. exfalso.
        apply (assoc_None _ _ Ea data'). apply elem_of_drop_metadata.
        split; [done|]. by rewrite <- (is_metadata_lower key disease_id Hl).
      * exists pre, post, data. by repeat split.
    + split; [done|]. intros key data Hin Hl.
      destruct (is_metadata key) eqn:Em; [done|]. exfalso.
      apply (first_caseless_None _ _ Ef key data); [|done].
      by apply elem_of_drop_metadata.
Qed.

Lemma get_disease_details_lookup_witness :
  let cold :=
    {| dd_common_name := Some "Common cold"; dd_category := None;
       dd_prevalence := None; dd_symptoms := [] |} in
  let parsed := [("_note", cold); ("COLD", cold); ("Cold", cold)] in
  (exists data, ("Cold", data) ∈ parsed) /\
  forall det, get_disease_details parsed "Cold" = Found det ->
              det_id det = "Cold".
Proof.
  intros cold parsed.
  assert (exists data, ("Cold", data) ∈ parsed) as Hin
    by (exists cold; right; right; left).
  split; [exact Hin|]. intros det Hdet.
  pose proof (get_disease_details_lookup parsed "Cold") as H.
  rewrite Hdet in H. destruct H as (_ & _ & _ & Hexact & _).
  exact (Hexact Hin).
Defined.

(** ** The handlers of Engine A *)

Import ApiA.

Lemma first_non_str_None (l : list pyval) :
  first_non_str l = None <-> forall v, v ∈ l -> exists s, v = PStr s.
Proof.
  induction l as [|v r IH].
  - split; [|done]. intros _ v H. by apply elem_of_nil in H.
  - split.
    + intros H x Hx. apply elem_of_cons in Hx as [->|Hx].
      * destruct v; try done. eauto.
      * destruct v; try done. by apply IH.
    + intros H. destruct (H v) as [s ->]; [by left|]. simpl.
      apply IH. intros x Hx. apply H. by right.
Qed.

Lemma sanitize_top_n_range (v : pyval) : 1 <= sanitize_top_n v <= 100.
Proof.
  destruct v as [|b|z|q|s|l|d]; simpl; try lia.
  - destruct b; lia.
  - destruct (Z.ltb_spec z 1), (Z.ltb_spec 100 z); simpl; lia.
Qed.

(** The handler answers 200 exactly when the body is an object whose
    [symptoms] is a non-empty list of strings; it never answers that the
    list is empty, that message being behind the test for a missing
    field. *)
Theorem diagnose_endpoint_status (dataset : EngineA.dataset) (data : pyval) :
  ((exists results provided count,
      diagnose_endpoint dataset data = Success results provided count) <->
   exists d l,
     data = PDict d /\ assoc "symptoms" d = Some (PList l) /\ l <> [] /\
     forall v, v ∈ l -> exists s, v = PStr s) /\
  diagnose_endpoint dataset data <> BadRequest "symptoms list cannot be empty".
Proof.
  split.
  - split.
    + intros (results & provided & count & H). unfold diagnose_endpoint in H.
      destruct (py_truthy data); simpl in H; [|done].
      destruct data as [| | | | | |d]; try done.
      destruct (assoc "symptoms" d) as [symptoms|] eqn:Es; simpl in H; [|done].
      destruct (py_truthy symptoms) eqn:Et; simpl in H; [|done].
      destruct symptoms as [| | | | |l|]; try done.
      destruct l as [|v l]; [done|].
      exists d, (v :: l). split; [done|]. split; [done|]. split; [done|].
      apply first_non_str_None.
      destruct (first_non_str (v :: l)); [|done].
      by cbn [length Nat.eqb] in H.
    + intros (d & l & -> & Hs & Hl & Hstr). unfold diagnose_endpoint.
      assert (py_truthy (PDict d) = true) as -> by (by destruct d).
      rewrite Hs. destruct l as [|v l]; [done|].
      apply first_non_str_None in Hstr.
      cbn [negb default from_option id py_truthy length Nat.eqb].
      rewrite Hstr. eauto.
  - unfold diagnose_endpoint.
    destruct (py_truthy data); simpl; [|done].
    destruct data as [| | | | | |d]; try done.
    destruct (py_truthy (default PNone (assoc "symptoms" d))) eqn:Et;
      simpl; [|done].
    destruct (default PNone (assoc "symptoms" d)) as [| | | | |l|]; try done.
    destruct l as [|v l]; [done|]. cbn [length Nat.eqb].
    by destruct (first_non_str (v :: l)).
Qed.

(** In an answer with the status 200 the count is the number of results,
    at most 100, and the results are in order of non-increasing score. They
    are what [diagnose] returns for the strings of the body and the [top_n]
    of the body when that is an integer from 1 to 100, for 1 when it is
    [true], and for 10 in every other case. *)
Theorem diagnose_endpoint_results dataset data results provided count :
  diagnose_endpoint dataset data = Success results provided count ->
  count = Z.of_nat (length results) /\ count <= 100 /\
  sorted_desc EngineA.score results /\
  exists d,
    data = PDict d /\ assoc "symptoms" d = Some (PList provided) /\
    (forall n, assoc "top_n" d = Some (PInt n) -> 1 <= n <= 100 ->
       results = EngineA.diagnose (strings provided) n dataset) /\
    (assoc "top_n" d = Some (PBool true) ->
       results = EngineA.diagnose (strings provided) 1 dataset) /\
    ((forall n, assoc "top_n" d = Some (PInt n) -> n < 1 \/ 100 < n) ->
     assoc "top_n" d <> Some (PBool true) ->
     results = EngineA.diagnose (strings provided) 10 dataset).
Proof.
  unfold diagnose_endpoint.
  destruct (py_truthy data); simpl; [|done].
  destruct data as [| | | | | |d]; try done.
  destruct (assoc "symptoms" d) as [symptoms|] eqn:Es; simpl; [|done].
  destruct (py_truthy symptoms); simpl; [|done].
  destruct symptoms as [| | | | |l|]; try done.
  destruct (length l =? 0)%nat; [done|].
  destruct (first_non_str l) eqn:Ef; [done|].
  pose proof (sanitize_top_n_range (default (PInt 10) (assoc "top_n" d))) as Hn.
  set (n := sanitize_top_n (default (PInt 10) (assoc "top_n" d))) in *.
  intros [= <- <- <-]. split; [done|].
  assert (EngineA.diagnose (strings l) n dataset =
          py_prefix (EngineA.diagnose (strings l) n dataset) n) as Hpre.
  { unfold EngineA.diagnose.
    destruct (EngineA.find_symptom_indices (strings l)
                (EngineA.symptom_columns dataset));
      rewrite !py_prefix_take by lia; [by rewrite take_nil|].
    by rewrite take_take, Nat.min_id. }
  split.
  { rewrite Hpre.
    pose proof (py_prefix_length (EngineA.diagnose (strings l) n dataset) n).
    lia. }
  split.
  { unfold EngineA.diagnose.
    destruct (EngineA.find_symptom_indices (strings l)
                (EngineA.symptom_columns dataset)); [done|].
    rewrite py_prefix_take by lia. apply sorted_desc_take, sort_desc_sorted. }
  exists d. split; [done|]. split; [done|]. subst n. clear Hn Hpre.
  split; [|split].
  - intros n Hd Hr. rewrite Hd. simpl.
    assert ((n <? 1) || (100 <? n) = false) as ->; [|done].
    apply orb_false_iff. split; apply Z.ltb_ge; lia.
  - by intros ->.
  - intros Hint Hbool.
    destruct (assoc "top_n" d) as [[| [] |n| | | |]|]; try done.
    simpl. destruct (Hint n eq_refl) as [Hlt|Hgt].
    + by rewrite (proj2 (Z.ltb_lt _ _) Hlt).
    + rewrite (proj2 (Z.ltb_lt _ _) Hgt). by rewrite orb_true_r.
Qed.

Lemma diagnose_endpoint_results_witness :
  let dataset :=
    {| EngineA.symptom_columns := ["cough"];
       EngineA.case_rows :=
         [("a", [1]); ("b", [1]); ("c", [1]); ("d", [1]); ("e", [1]);
          ("f", [1]); ("g", [1]); ("h", [1]); ("i", [1]); ("j", [1]);
          ("k", [1]); ("l", [1])] |} in
  let data :=
    PDict [("symptoms", PList [PStr "Cough"]); ("top_n", PInt 500)] in
  exists results,
    diagnose_endpoint dataset data = Success results [PStr "Cough"] 10 /\
    results = EngineA.diagnose ["Cough"] 10 dataset.
Proof.
  intros dataset data.
  assert (exists results,
            diagnose_endpoint dataset data = Success results [PStr "Cough"] 10)
    as [results H] by (eexists; vm_compute; reflexivity).
  exists results. split; [exact H|].
  destruct (diagnose_endpoint_results dataset data results
              [PStr "Cough"] 10 H) as (_ & _ & _ & d & Hd & _ & _ & _ & Hten).
  injection Hd as <-. apply Hten.
  - intros n [= <-]. right. lia.
  - discriminate.
Defined.

Lemma find_symptom_indices_strip (symptoms cols : list string) :
  EngineA.find_symptom_indices (strip <$> symptoms) cols =
  EngineA.find_symptom_indices symptoms cols.
Proof.
  unfold EngineA.find_symptom_indices.
  induction symptoms as [|s r IH]; [done|].
  rewrite fmap_cons. cbn [omap list_omap].
  rewrite (proj2 (proj2 (EngineA_More.normalize_symptom_name_idempotent s))).
  by rewrite <- IH.
Qed.


Lemma split_comma_cons (s : string) :
  exists h t, split_comma s = h :: t.
Proof.
  induction s as [|c r (h & t & IH)]; simpl; [eauto|].
  destruct (Ascii.eqb c ","); [eauto|]. rewrite IH. eauto.
Qed.

Lemma first_non_str_strings (l : list string) :
  first_non_str (PStr <$> l) = None /\ strings (PStr <$> l) = l.
Proof.
  induction l as [|s r [IH1 IH2]]; [done|]. split; [done|].
  unfold strings in *. rewrite fmap_cons. cbn [omap list_omap]. by rewrite IH2.
Qed.

(** [GET /api/diagnose] splits the parameter at the commas; the blanks
    around the pieces do not matter, and [top_n] is passed on as it is. With
    a [top_n] from 1 to 100 the results are those of [POST /api/diagnose]
    for the list of the pieces. *)
Theorem diagnose_get_results dataset (symptoms_str : string) (top_n : Z) :
  symptoms_str <> "" ->
  let results := EngineA.diagnose (split_comma symptoms_str) top_n dataset in
  diagnose_get dataset (Some symptoms_str) top_n =
    Success results (PStr <$> (strip <$> split_comma symptoms_str))
      (Z.of_nat (length results)) /\
  (1 <= top_n <= 100 ->
   diagnose_endpoint dataset
     (PDict [("symptoms", PList (PStr <$> split_comma symptoms_str));
             ("top_n", PInt top_n)]) =
     Success results (PStr <$> split_comma symptoms_str)
       (Z.of_nat (length results))).
Proof.
  intros Hne results. split.
  - unfold diagnose_get. destruct symptoms_str as [|c r]; [done|].
    assert (EngineA.diagnose (strip <$> split_comma (String c r)) top_n dataset
            = results) as ->; [|done].
    unfold results, EngineA.diagnose, EngineA.unsorted_results.
    by rewrite find_symptom_indices_strip.
  - intros Hn. unfold diagnose_endpoint.
    destruct (split_comma_cons symptoms_str) as (h & t & E).
    cbn [py_truthy negb assoc String.eqb Ascii.eqb Bool.eqb default
         from_option id].
    fold results. subst results. rewrite E. cbn [fmap list_fmap length Nat.eqb].
    rewrite <- (fmap_cons PStr h t).
    destruct (first_non_str_strings (h :: t)) as [-> ->].
    unfold sanitize_top_n.
    assert ((top_n <? 1) || (100 <? top_n) = false) as ->; [|done].
    apply orb_false_iff. split; apply Z.ltb_ge; lia.
Qed.

Lemma diagnose_get_results_witness :
  let dataset :=
    {| EngineA.symptom_columns := ["fever"; "cough"];
       EngineA.case_rows := [("flu", [1; 1]); ("cold", [0; 1])] |} in
  diagnose_get dataset (Some " Fever ,cough") (-1) =
    Success (EngineA.diagnose [" Fever "; "cough"] (-1) dataset)
      [PStr "Fever"; PStr "cough"] 1.
Proof.
  intros dataset.
  exact (proj1 (diagnose_get_results dataset " Fever ,cough" (-1)
                  ltac:(discriminate))).
Defined.


(** ** The listings of Engine B *)

Section SortByNameFacts.
Context {A : Type} (key : A -> string).

Lemma insert_asc_perm (x : A) (l : list A) : insert_asc key x l ≡ₚ x :: l.
Proof.
  induction l as [|y r IH]; simpl; [done|].
  destruct (String.ltb (key y) (key x)); [|done].
  rewrite IH. apply Permutation_swap.
Qed.

Lemma sort_asc_perm (l : list A) : sort_asc key l ≡ₚ l.
Proof.
  induction l as [|x r IH]; simpl; [done|].
  by rewrite insert_asc_perm, IH.
Qed.

Lemma ltb_le (a b : string) : String.ltb a b = true -> String.le a b.
Proof.
  unfold String.ltb, String.le, String.leb.
  by destruct (String.compare a b).
Qed.

Lemma not_ltb_le (a b : string) : String.ltb a b = false -> String.le b a.
Proof.
  unfold String.ltb, String.le, String.leb.
  rewrite (String.compare_antisym b a).
  by destruct (String.compare a b).
Qed.

Lemma sorted_asc_insert (x : A) (l : list A) :
  sorted_asc key l -> sorted_asc key (insert_asc key x l).
Proof.
  induction l as [|y r IH]; simpl; [by split|].
  intros [Hall Hr].
  destruct (String.ltb (key y) (key x)) eqn:E; simpl.
  - split; [|by apply IH].
    rewrite insert_asc_perm. constructor; [by apply ltb_le|done].
  - apply not_ltb_le in E. split; [|done].
    constructor; [done|].
    eapply Forall_impl; [exact Hall|].
    intros z Hz. simpl in Hz. by etrans.
Qed.

Lemma sort_asc_sorted (l : list A) : sorted_asc key (sort_asc key l).
Proof.
  induction l as [|x r IH]; simpl; [done|]. by apply sorted_asc_insert.
Qed.

End SortByNameFacts.

Lemma List_filter_sublist {A} (f : A -> bool) (l : list A) :
  List.filter f l `sublist_of` l.
Proof.
  induction l as [|x r IH]; simpl; [done|].
  destruct (f x); by constructor.
Qed.

Lemma list_diseases_split category_filter profiles :
  list_diseases category_filter profiles =
  (category_of <$> profiles.*2,
   uncurry summary_of <$>
     List.filter (fun kv => negb (filtered_out category_filter
                                    (category_of kv.2))) profiles).
Proof.
  induction profiles as [|[id data] rest IH]; [done|].
  cbn [list_diseases]. rewrite IH. cbn [List.filter snd fmap list_fmap].
  by destruct (filtered_out category_filter (category_of data)).
Qed.

Lemma filtered_out_false category_filter category :
  filtered_out category_filter category = false <->
  category_filter = "" \/ lower category = category_filter.
Proof.
  unfold filtered_out. rewrite andb_false_iff, !negb_false_iff.
  by rewrite !String.eqb_eq.
Qed.

(** The list of diseases holds one entry for each loaded profile whose
    category is the requested one without regard to case, or for each loaded
    profile when no category is requested; the entries are in the order of
    their common names and [count] is their number. The list of categories
    names the categories of all loaded profiles, whatever was requested,
    each once and in order. *)
Theorem get_diseases_listing
  (parsed : list (string * disease_data)) (category : option string) :
  let resp := get_diseases parsed category in
  let wanted (data : disease_data) :=
    lower (default "" category) = "" \/
    lower (category_of data) = lower (default "" category) in
  dr_count resp = Z.of_nat (length (dr_diseases resp)) /\
  sorted_asc ds_common_name (dr_diseases resp) /\
  (forall d, d ∈ dr_diseases resp <->
     exists id data, (id, data) ∈ parsed /\ is_metadata id = false /\
                     wanted data /\ d = summary_of id data) /\
  (NoDup parsed.*1 -> NoDup (ds_id <$> dr_diseases resp)) /\
  sorted_asc id (dr_categories resp) /\ NoDup (dr_categories resp) /\
  (forall c, c ∈ dr_categories resp <->
     exists id data, (id, data) ∈ parsed /\ is_metadata id = false /\
                     c = category_of data).
Proof.
  intros resp wanted. subst resp. unfold get_diseases.
  rewrite list_diseases_split. cbn [dr_count dr_diseases dr_categories].
  set (f := lower (default "" category)) in *.
  set (kept := List.filter _ (load_disease_profiles parsed)).
  assert (forall id data, (id, data) ∈ kept <->
            (id, data) ∈ parsed /\ is_metadata id = false /\ wanted data)
    as Hkept.
  { intros id data. unfold kept. rewrite list_elem_of_In, filter_In.
    rewrite <- list_elem_of_In. unfold load_disease_profiles.
    rewrite elem_of_drop_metadata, negb_true_iff, filtered_out_false.
    unfold wanted. simpl. tauto. }
  split; [done|]. split; [apply sort_asc_sorted|]. split; [|split; [|split; [|split]]].
  - intros d. rewrite sort_asc_perm, list_elem_of_fmap. split.
    + intros ([id data] & -> & Hin). exists id, data.
      apply Hkept in Hin. tauto.
    + intros (id & data & Hin & Hm & Hw & ->). exists (id, data).
      split; [done|]. apply Hkept. tauto.
  - intros Hnd. rewrite sort_asc_perm.
    assert (ds_id <$> (uncurry summary_of <$> kept) = kept.*1) as ->.
    { rewrite <- list_fmap_compose. apply list_fmap_ext. by intros i [id data] _. }
    eapply sublist_NoDup; [exact Hnd|]. apply fmap_sublist.
    unfold kept, load_disease_profiles, drop_metadata.
    etrans; apply List_filter_sublist.
  - apply sort_asc_sorted.
  - rewrite sort_asc_perm. apply NoDup_remove_dups.
  - intros c. rewrite sort_asc_perm, elem_of_remove_dups, list_elem_of_fmap.
    split.
    + intros (data & -> & Hin). apply list_elem_of_fmap in Hin as ([id d] & -> & Hin).
      exists id, d. unfold load_disease_profiles in Hin.
      apply elem_of_drop_metadata in Hin. tauto.
    + intros (id & data & Hin & Hm & ->). exists data. split; [done|].
      apply list_elem_of_fmap. exists (id, data). split; [done|].
      by apply elem_of_drop_metadata.
Qed.

Lemma get_diseases_listing_witness :
  let flu := {| dd_common_name := Some "Influenza"; dd_category := Some "Viral";
                dd_prevalence := None; dd_symptoms := [] |} in
  let cold := {| dd_common_name := None; dd_category := None;
                 dd_prevalence := None; dd_symptoms := [] |} in
  let parsed := [("_meta", cold); ("Flu", flu); ("Cold", cold)] in
  NoDup parsed.*1 /\
  NoDup (ds_id <$> dr_diseases (get_diseases parsed (Some "VIRAL"))).
Proof.
  intros flu cold parsed.
  assert (NoDup parsed.*1) as H by compute_done.
  split; [exact H|].
  exact (proj1 (proj2 (proj2 (proj2
    (get_diseases_listing parsed (Some "VIRAL"))))) H).
Defined.

(** The list of symptoms holds one entry for each entry of the library file
    whose key does not begin with an underscore, with the key as the default
    display name; the entries are in the order of their display names and
    the count is their number. *)
Theorem get_symptoms_listing (parsed : list (string * symptom_data)) :
  let '(count, symptoms) := get_symptoms parsed in
  count = Z.of_nat (length symptoms) /\
  count = Z.of_nat (length (List.filter (fun kv => negb (is_metadata kv.1)) parsed)) /\
  sorted_asc se_display_name symptoms /\
  (forall e, e ∈ symptoms <->
     exists id data, (id, data) ∈ parsed /\ is_metadata id = false /\
                     e = entry_of id data) /\
  se_id <$> symptoms ≡ₚ (load_symptom_library parsed).*1.
Proof.
  unfold get_symptoms. split; [done|]. split; [|split; [|split]].
  - by rewrite sort_asc_perm, length_fmap.
  - apply sort_asc_sorted.
  - intros e. rewrite sort_asc_perm, list_elem_of_fmap. split.
    + intros ([id data] & -> & Hin). exists id, data.
      unfold load_symptom_library in Hin.
      apply elem_of_drop_metadata in Hin. tauto.
    + intros (id & data & Hin & Hm & ->). exists (id, data).
      split; [done|]. by apply elem_of_drop_metadata.
  - rewrite sort_asc_perm, <- list_fmap_compose.
    assert (se_id ∘ uncurry entry_of <$> load_symptom_library parsed =
            (load_symptom_library parsed).*1) as ->; [|done].
    apply list_fmap_ext. by intros i [id data] _.
Qed.


(** A symptom is found when the requested name is the key of a loaded
    library entry, or else equals such a key without regard to case; the
    answer then is for that key, the requested one if it is a key itself,
    and else the first of the loaded keys that equals it without regard to
    case. No entry whose key begins with an underscore is ever found. *)
Theorem get_symptom_details_lookup
  (parsed : list (string * symptom_data)) (symptom_id : string) :
  match get_symptom_details parsed symptom_id with
  | SymptomFound e =>
      lower (se_id e) = lower symptom_id /\
      is_metadata (se_id e) = false /\
      is_metadata symptom_id = false /\
      ((exists data, (symptom_id, data) ∈ parsed) -> se_id e = symptom_id) /\
      exists pre post data,
        load_symptom_library parsed = pre ++ (se_id e, data) :: post /\
        (se_id e, data) ∈ parsed /\
        e = entry_of (se_id e) data /\
        (se_id e <> symptom_id ->
         forall key data', (key, data') ∈ pre ->
                           lower key <> lower symptom_id)
  | SymptomNotFound error =>
      error = "Symptom '" +:+ symptom_id +:+ "' not found" /\
      forall key data, (key, data) ∈ parsed ->
        lower key = lower symptom_id -> is_metadata key = true
  end.
Proof.
  unfold get_symptom_details, load_symptom_library.
  destruct (assoc symptom_id (drop_metadata parsed)) as [data|] eqn:Ea.
  - apply assoc_elem in Ea.
    destruct (list_elem_of_split _ _ Ea) as (pre & post & Hsplit).
    apply elem_of_drop_metadata in Ea as [Hin Hm]. simpl.
    do 4 (split; [done|]). exists pre, post, data. by repeat split.
  - destruct (first_caseless symptom_id (drop_metadata parsed))
      as [[key data]|] eqn:Ef.
    + apply first_caseless_Some in Ef as (Hl & pre & post & Hsplit & Hpre).
      assert ((key, data) ∈ drop_metadata parsed) as Hin
        by (rewrite Hsplit, elem_of_app; right; by left).
      apply elem_of_drop_metadata in Hin as [Hin Hm]. simpl.
      split; [done|]. split; [done|].
      split; [by rewrite <- (is_metadata_lower key symptom_id Hl)|].
      split.
      * intros [data' Hin']. exfalso.
        apply (assoc_None _ _ Ea data'). apply elem_of_drop_metadata.
        split; [done|]. by rewrite <- (is_metadata_lower key symptom_id Hl).
      * exists pre, post, data. by repeat split.
    + split; [done|]. intros key data Hin Hl.
      destruct (is_metadata key) eqn:Em; [done|]. exfalso.
      apply (first_caseless_None _ _ Ef key data); [|done].
      by apply elem_of_drop_metadata.
Qed.

Lemma get_symptom_details_lookup_witness :
  let fever :=
    {| sd_display_name := None; sd_global_follow_ups := None;
       sd_unique_follow_ups := None |} in
  let parsed := [("_version", fever); ("FEVER", fever); ("Fever", fever)] in
  (exists data, ("Fever", data) ∈ parsed) /\
  forall e, get_symptom_details parsed "Fever" = SymptomFound e ->
            se_id e = "Fever".
Proof.
  intros fever parsed.
  assert (exists data, ("Fever", data) ∈ parsed) as Hin
    by (exists fever; right; right; left).
  split; [exact Hin|]. intros e He.
  pose proof (get_symptom_details_lookup parsed "Fever") as H.
  rewrite He in H. destruct H as (_ & _ & _ & Hexact & _).
  exact (Hexact Hin).
Defined.

End Api_Props.
